(** * Renesas RA USB device controller shim driver

    A shallow embedding of [drivers/usb/udc/udc_renesas_ra.c]: the event
    callback, the worker loop, the per-endpoint transfer engine and the
    control-endpoint handlers, as state-passing functions over an explicit
    device state.  Everything the driver does to the outside world (calls
    into the Controller, events delivered to the upper stack, messages
    offered to and taken from the message queue) is appended to one
    chronological trace. *)

From Stdlib Require Import String ZArith List Bool Lia.
Import ListNotations.
Open Scope Z_scope.

(** ** Constants of the headers the driver includes *)

Definition USB_EP_DIR_MASK : Z := 128.
Definition USB_EP_DIR_IN : Z := 128.
Definition USB_EP_DIR_OUT : Z := 0.
Definition USB_CONTROL_EP_OUT : Z := 0.
Definition USB_CONTROL_EP_IN : Z := 128.

Definition USB_EP_GET_IDX (ep : Z) : Z := Z.land ep (Z.lnot USB_EP_DIR_MASK).
Definition USB_EP_DIR_IS_IN (ep : Z) : bool :=
  Z.land ep USB_EP_DIR_MASK =? USB_EP_DIR_IN.
Definition USB_EP_DIR_IS_OUT (ep : Z) : bool :=
  Z.land ep USB_EP_DIR_MASK =? USB_EP_DIR_OUT.

Definition EIO : Z := 5.
Definition ENOMEM : Z := 12.
Definition ENOMSG : Z := 35.
Definition ECONNREFUSED : Z := 111.
Definition ECONNABORTED : Z := 113.

Definition FSP_SUCCESS : Z := 0.

(** ** Data model *)

(** A [struct net_buf] together with its [struct udc_buf_info].  [nb_id]
    stands for the address of the buffer, [nb_data] for the bytes the driver
    itself has copied in, [nb_len] and [nb_size] are the 16-bit [len] and
    [size] fields.  The [err] field of the buffer info is carried by the
    upstream event that reports the buffer. *)
Record net_buf : Type := mk_net_buf {
  nb_id : Z;
  nb_data : list Z;
  nb_len : Z;
  nb_size : Z;
  bi_ep : Z;
  bi_setup : bool;
  bi_zlp : bool
}.

Definition net_buf_add (buf : net_buf) (len : Z) : net_buf :=
  mk_net_buf (nb_id buf) (nb_data buf) ((nb_len buf + len) mod 65536)
             (nb_size buf) (bi_ep buf) (bi_setup buf) (bi_zlp buf).

Definition net_buf_add_mem (buf : net_buf) (mem : list Z) : net_buf :=
  mk_net_buf (nb_id buf) (nb_data buf ++ mem)
             ((nb_len buf + Z.of_nat (length mem)) mod 65536)
             (nb_size buf) (bi_ep buf) (bi_setup buf) (bi_zlp buf).

Definition udc_ep_buf_set_setup (buf : net_buf) : net_buf :=
  mk_net_buf (nb_id buf) (nb_data buf) (nb_len buf) (nb_size buf)
             (bi_ep buf) true (bi_zlp buf).

Definition udc_ep_buf_has_zlp (buf : net_buf) : bool := bi_zlp buf.

Definition udc_ep_buf_clear_zlp (buf : net_buf) : net_buf :=
  mk_net_buf (nb_id buf) (nb_data buf) (nb_len buf) (nb_size buf)
             (bi_ep buf) (bi_setup buf) false.

(** [struct udc_ep_config], the part the driver reads and writes.  The
    address is the key under which the endpoint is looked up. *)
Record udc_ep_config : Type := mk_ep {
  stat_busy : bool;
  stat_halted : bool;
  fifo : list net_buf;
  attributes : Z;
  mps : Z;
  interval : Z
}.

Inductive usbd_event_id_t : Type :=
| USBD_EVENT_INVALID
| USBD_EVENT_BUS_RESET
| USBD_EVENT_VBUS_RDY
| USBD_EVENT_VBUS_REMOVED
| USBD_EVENT_SOF
| USBD_EVENT_SUSPEND
| USBD_EVENT_RESUME
| USBD_EVENT_SETUP_RECEIVED
| USBD_EVENT_XFER_COMPLETE
| USBD_EVENT_FUNC_CALL.

Inductive usbd_xfer_result_t : Type :=
| USBD_XFER_RESULT_SUCCESS
| USBD_XFER_RESULT_FAILED
| USBD_XFER_RESULT_STALLED
| USBD_XFER_RESULT_TIMEOUT.

Record usbd_xfer_complete_t : Type := mk_xfer_complete {
  xc_ep_addr : Z;
  xc_result : usbd_xfer_result_t;
  xc_len : Z
}.

(** [usbd_event_t]: the discriminator and the two members of the payload
    union the driver reads. *)
Record usbd_event_t : Type := mk_hal_evt {
  event_id : usbd_event_id_t;
  setup_received : list Z;
  xfer_complete : usbd_xfer_complete_t
}.

Definition hal_evt_zero : usbd_event_t :=
  mk_hal_evt USBD_EVENT_INVALID (repeat 0 8)
             (mk_xfer_complete 0 USBD_XFER_RESULT_SUCCESS 0).

Inductive udc_renesas_ra_event_type : Type :=
| UDC_RENESAS_RA_EVT_HAL
| UDC_RENESAS_RA_EVT_XFER
| UDC_RENESAS_RA_EVT_STATUS.

Record udc_renesas_ra_evt : Type := mk_evt {
  evt_type : udc_renesas_ra_event_type;
  evt_hal_evt : usbd_event_t;
  evt_ep : Z
}.

(** Calls into the Controller (the [R_USBD_*] functions).  A data pointer is
    the address of the buffer it points into, or [None] for [NULL]. *)
Inductive hal_call : Type :=
| R_USBD_XferStart (ep : Z) (data : option Z) (len : Z)
| R_USBD_XferAbort (ep : Z)
| R_USBD_EdptOpen (addr attr wMaxPacketSize bInterval : Z)
| R_USBD_EdptClose (ep : Z).

Inductive udc_event_type : Type :=
| UDC_EVT_VBUS_REMOVED
| UDC_EVT_VBUS_READY
| UDC_EVT_SUSPEND
| UDC_EVT_RESUME
| UDC_EVT_RESET
| UDC_EVT_SOF.

(** What reaches the upper stack.  [EpRequest chain err] is one call of
    [udc_submit_ep_event]: [chain] is the reported buffer followed by its
    fragments and [err] the status stored in the head's buffer info.  The
    other constructors are the control-transfer helpers of the common
    layer. *)
Inductive udc_event : Type :=
| BusEvent (kind : udc_event_type)
| EpRequest (chain : list net_buf) (err : Z)
| CtrlStatus (buf : net_buf)
| CtrlSInStatus
| CtrlSStatus
| CtrlSOutStatus (buf : net_buf).

(** One entry of the trace: a call into the Controller with its result, an
    event delivered to the upper stack, a message offered to [drv_msgq] with
    the result of [k_msgq_put], a message the worker received from
    [k_msgq_get]. *)
Inductive obs : Type :=
| Hal (c : hal_call) (r : Z)
| Up (e : udc_event)
| Put (e : udc_renesas_ra_evt) (r : Z)
| Got (e : udc_renesas_ra_evt).

(** Modelled from the spec: the Control Stage kept by the common layer,
    "enum {SETUP, DATA_OUT, DATA_IN, STATUS_OUT, STATUS_IN, NO_DATA}". *)
Inductive ctrl_stage : Type :=
| CTRL_PIPE_STAGE_SETUP
| CTRL_PIPE_STAGE_DATA_OUT
| CTRL_PIPE_STAGE_DATA_IN
| CTRL_PIPE_STAGE_NO_DATA
| CTRL_PIPE_STAGE_STATUS_OUT
| CTRL_PIPE_STAGE_STATUS_IN.

Record udc_state : Type := mk_state {
  eps : Z -> udc_ep_config;
  stage : ctrl_stage;
  drv_msgq : list udc_renesas_ra_evt;
  trace : list obs;
  pool : list Z;
  irq_locked : bool
}.

Inductive k_timeout_t : Type := K_NO_WAIT | K_FOREVER.

(** ** State updates *)

Definition with_eps (st : udc_state) (f : Z -> udc_ep_config) : udc_state :=
  mk_state f (stage st) (drv_msgq st) (trace st) (pool st) (irq_locked st).

Definition with_stage (st : udc_state) (s : ctrl_stage) : udc_state :=
  mk_state (eps st) s (drv_msgq st) (trace st) (pool st) (irq_locked st).

Definition with_msgq (st : udc_state) (q : list udc_renesas_ra_evt) : udc_state :=
  mk_state (eps st) (stage st) q (trace st) (pool st) (irq_locked st).

Definition with_pool (st : udc_state) (p : list Z) : udc_state :=
  mk_state (eps st) (stage st) (drv_msgq st) (trace st) p (irq_locked st).

Definition with_irq (st : udc_state) (l : bool) : udc_state :=
  mk_state (eps st) (stage st) (drv_msgq st) (trace st) (pool st) l.

Definition emit (st : udc_state) (o : obs) : udc_state :=
  mk_state (eps st) (stage st) (drv_msgq st) (trace st ++ [o]) (pool st)
           (irq_locked st).

Definition upd_ep (f : Z -> udc_ep_config) (ep : Z) (c : udc_ep_config)
  : Z -> udc_ep_config :=
  fun a => if a =? ep then c else f a.

Definition set_busy (c : udc_ep_config) (b : bool) : udc_ep_config :=
  mk_ep b (stat_halted c) (fifo c) (attributes c) (mps c) (interval c).

Definition set_fifo (c : udc_ep_config) (q : list net_buf) : udc_ep_config :=
  mk_ep (stat_busy c) (stat_halted c) q (attributes c) (mps c) (interval c).

(** The events and calls of a trace, projected. *)
Fixpoint upstream (t : list obs) : list udc_event :=
  match t with
  | [] => []
  | Up e :: t' => e :: upstream t'
  | _ :: t' => upstream t'
  end.

Fixpoint hal_calls (t : list obs) : list hal_call :=
  match t with
  | [] => []
  | Hal c _ :: t' => c :: hal_calls t'
  | _ :: t' => hal_calls t'
  end.

(** ** The common UDC layer and the kernel objects the driver relies on

    [udc_common.c] and the kernel are not part of the driver's source file;
    the helpers below are the ones the driver calls. *)

(** Modelled from the spec: [udc_ep_is_busy] of the common layer reads the
    endpoint's "busy" flag. *)
Definition udc_ep_is_busy (st : udc_state) (ep : Z) : bool :=
  stat_busy (eps st ep).

(** Modelled from the spec: [udc_ep_set_busy] of the common layer writes the
    endpoint's "busy" flag. *)
Definition udc_ep_set_busy (st : udc_state) (ep : Z) (b : bool) : udc_state :=
  with_eps st (upd_ep (eps st) ep (set_busy (eps st ep) b)).

(** Modelled from the spec: [udc_buf_peek] of the common layer, which "peeks
    (does not remove) the head buffer" of the endpoint's FIFO. *)
Definition udc_buf_peek (st : udc_state) (ep : Z) : option net_buf :=
  hd_error (fifo (eps st ep)).

(** Modelled from the spec: [udc_buf_get] of the common layer removes the
    head buffer of the endpoint's FIFO and returns it ([NULL] when empty). *)
Definition udc_buf_get (st : udc_state) (ep : Z) : option net_buf * udc_state :=
  match fifo (eps st ep) with
  | [] => (None, st)
  | b :: q => (Some b, with_eps st (upd_ep (eps st) ep (set_fifo (eps st ep) q)))
  end.

(** Modelled from the spec: [udc_buf_get_all] of the common layer "removes
    every buffer queued on the endpoint"; it returns them as one fragment
    chain in queue order ([NULL], here the empty chain, when none). *)
Definition udc_buf_get_all (st : udc_state) (ep : Z) : list net_buf * udc_state :=
  match fifo (eps st ep) with
  | [] => ([], st)
  | q => (q, with_eps st (upd_ep (eps st) ep (set_fifo (eps st ep) [])))
  end.

(** Modelled from the spec: [udc_buf_put] of the common layer (and
    [k_fifo_put] on the endpoint's FIFO) "appends buffer to the endpoint's
    queue". *)
Definition udc_buf_put (st : udc_state) (ep : Z) (buf : net_buf) : udc_state :=
  with_eps st (upd_ep (eps st) ep
                      (set_fifo (eps st ep) (fifo (eps st ep) ++ [buf]))).

(** Modelled from the spec: [udc_submit_ep_event] of the common layer hands
    a buffer (with its fragments) and a status to the Upstream Notifier. *)
Definition udc_submit_ep_event (st : udc_state) (chain : list net_buf) (err : Z)
  : Z * udc_state :=
  (0, emit st (Up (EpRequest chain err))).

(** Modelled from the spec: [udc_submit_event] of the common layer forwards
    a bus event to the Upstream Notifier. *)
Definition udc_submit_event (st : udc_state) (kind : udc_event_type) : udc_state :=
  emit st (Up (BusEvent kind)).

(** Modelled from the spec: [udc_ctrl_submit_status] of the common layer
    notifies "that the full control transfer is complete". *)
Definition udc_ctrl_submit_status (st : udc_state) (buf : net_buf) : udc_state :=
  emit st (Up (CtrlStatus buf)).

(** Modelled from the spec: [udc_ctrl_submit_s_in_status] of the common
    layer submits the "status will follow IN data" marker. *)
Definition udc_ctrl_submit_s_in_status (st : udc_state) : Z * udc_state :=
  (0, emit st (Up CtrlSInStatus)).

(** Modelled from the spec: [udc_ctrl_submit_s_status] of the common layer
    submits the "status-only" marker. *)
Definition udc_ctrl_submit_s_status (st : udc_state) : Z * udc_state :=
  (0, emit st (Up CtrlSStatus)).

(** Modelled from the spec: [udc_ctrl_submit_s_out_status] of the common
    layer submits the completed OUT data buffer, after which the status
    stage IN follows. *)
Definition udc_ctrl_submit_s_out_status (st : udc_state) (buf : net_buf)
  : Z * udc_state :=
  (0, emit st (Up (CtrlSOutStatus buf))).

(** Modelled from the spec: [udc_ctrl_alloc] of the common layer takes a
    buffer of the given size for the endpoint from the control pool, or
    returns [NULL] when the pool is exhausted. *)
Definition udc_ctrl_alloc (st : udc_state) (ep : Z) (size : Z)
  : option net_buf * udc_state :=
  match pool st with
  | [] => (None, st)
  | a :: p => (Some (mk_net_buf a [] 0 size ep false false), with_pool st p)
  end.

(** Modelled from the spec: [net_buf_unref] gives the buffer back to its
    pool. *)
Definition net_buf_unref (st : udc_state) (buf : net_buf) : udc_state :=
  with_pool st (pool st ++ [nb_id buf]).

(** Modelled from the spec: [udc_data_stage_length] of the common layer is
    the little-endian [wLength] field (bytes 6 and 7) of the SETUP packet
    held by the buffer. *)
Definition udc_data_stage_length (buf : net_buf) : Z :=
  nth 6 (nb_data buf) 0 + 256 * nth 7 (nb_data buf) 0.

(** Modelled from the spec: the request direction of the SETUP packet, bit 7
    of [bmRequestType]. *)
Definition udc_ctrl_setup_to_host (buf : net_buf) : bool :=
  Z.testbit (nth 0 (nb_data buf) 0) 7.

Definition stage_eqb (a b : ctrl_stage) : bool :=
  match a, b with
  | CTRL_PIPE_STAGE_SETUP, CTRL_PIPE_STAGE_SETUP
  | CTRL_PIPE_STAGE_DATA_OUT, CTRL_PIPE_STAGE_DATA_OUT
  | CTRL_PIPE_STAGE_DATA_IN, CTRL_PIPE_STAGE_DATA_IN
  | CTRL_PIPE_STAGE_NO_DATA, CTRL_PIPE_STAGE_NO_DATA
  | CTRL_PIPE_STAGE_STATUS_OUT, CTRL_PIPE_STAGE_STATUS_OUT
  | CTRL_PIPE_STAGE_STATUS_IN, CTRL_PIPE_STAGE_STATUS_IN => true
  | _, _ => false
  end.

(** Modelled from the spec: [udc_ctrl_stage_is_data_out] of the common
    layer, the Control Stage is DATA_OUT. *)
Definition udc_ctrl_stage_is_data_out (st : udc_state) : bool :=
  stage_eqb (stage st) CTRL_PIPE_STAGE_DATA_OUT.

(** Modelled from the spec: [udc_ctrl_stage_is_data_in] of the common
    layer, the Control Stage is DATA_IN. *)
Definition udc_ctrl_stage_is_data_in (st : udc_state) : bool :=
  stage_eqb (stage st) CTRL_PIPE_STAGE_DATA_IN.

(** Modelled from the spec: [udc_ctrl_stage_is_no_data] of the common
    layer, the Control Stage is NO_DATA. *)
Definition udc_ctrl_stage_is_no_data (st : udc_state) : bool :=
  stage_eqb (stage st) CTRL_PIPE_STAGE_NO_DATA.

(** Modelled from the spec: [udc_ctrl_stage_is_status_out] of the common
    layer, the Control Stage is STATUS_OUT. *)
Definition udc_ctrl_stage_is_status_out (st : udc_state) : bool :=
  stage_eqb (stage st) CTRL_PIPE_STAGE_STATUS_OUT.

(** Modelled from the spec: [udc_ctrl_stage_is_status_in] of the common
    layer, the Control Stage is STATUS_IN. *)
Definition udc_ctrl_stage_is_status_in (st : udc_state) : bool :=
  stage_eqb (stage st) CTRL_PIPE_STAGE_STATUS_IN.

(** Modelled from the spec: the transition function of the Control State
    Machine ([udc_ctrl_update_stage] of the common layer): "SETUP ->
    {DATA_OUT|DATA_IN|NO_DATA} -> {STATUS_OUT|STATUS_IN}, terminal on STATUS
    completion, then implicitly back to SETUP", with "length=0 => NO_DATA;
    direction=OUT&&length>0 => DATA_OUT; direction=IN&&length>0 =>
    DATA_IN" on a SETUP packet. *)
Definition ctrl_next_stage (s : ctrl_stage) (buf : net_buf) : ctrl_stage :=
  if bi_setup buf then
    if udc_data_stage_length buf =? 0 then CTRL_PIPE_STAGE_NO_DATA
    else if udc_ctrl_setup_to_host buf then CTRL_PIPE_STAGE_DATA_IN
    else CTRL_PIPE_STAGE_DATA_OUT
  else
    match s with
    | CTRL_PIPE_STAGE_DATA_OUT => CTRL_PIPE_STAGE_STATUS_IN
    | CTRL_PIPE_STAGE_DATA_IN => CTRL_PIPE_STAGE_STATUS_OUT
    | CTRL_PIPE_STAGE_NO_DATA => CTRL_PIPE_STAGE_STATUS_IN
    | _ => CTRL_PIPE_STAGE_SETUP
    end.

(** Modelled from the spec: [udc_ctrl_update_stage] of the common layer
    advances the Control Stage by the transition function. *)
Definition udc_ctrl_update_stage (st : udc_state) (buf : net_buf) : udc_state :=
  with_stage st (ctrl_next_stage (stage st) buf).

(** The head of an endpoint's FIFO is the very buffer [udc_buf_peek]
    returned: a write through the peeked pointer changes the queued buffer. *)
Definition set_head (st : udc_state) (ep : Z) (buf : net_buf) : udc_state :=
  with_eps st (upd_ep (eps st) ep
                      (set_fifo (eps st ep) (buf :: tl (fifo (eps st ep))))).

(** ** The driver *)

Section Driver.

(** The Controller: the result of a call, given everything that happened
    before it. *)
Variable controller : list obs -> hal_call -> Z.

(** The capacity of [drv_msgq]. *)
Variable CONFIG_UDC_RENESAS_RA_MAX_QMESSAGES : nat.

Definition hal_do (st : udc_state) (c : hal_call) : Z * udc_state :=
  let r := controller (trace st) c in (r, emit st (Hal c r)).

(** Modelled from the spec: [k_msgq_put] on the bounded [drv_msgq]; with
    [K_NO_WAIT] a full queue makes it fail at once and drop the message,
    with [K_FOREVER] the caller would be suspended ([None]). *)
Definition k_msgq_put (st : udc_state) (evt : udc_renesas_ra_evt)
           (timeout : k_timeout_t) : option (Z * udc_state) :=
  if (length (drv_msgq st) <? CONFIG_UDC_RENESAS_RA_MAX_QMESSAGES)%nat
  then Some (0, emit (with_msgq st (drv_msgq st ++ [evt])) (Put evt 0))
  else match timeout with
       | K_NO_WAIT => Some (- ENOMSG, emit st (Put evt (- ENOMSG)))
       | K_FOREVER => None
       end.

(** Modelled from the spec: [k_msgq_get] with [K_FOREVER]; on an empty queue
    the worker stays blocked ([None]). *)
Definition k_msgq_get (st : udc_state) : option (udc_renesas_ra_evt * udc_state) :=
  match drv_msgq st with
  | [] => None
  | e :: q => Some (e, with_msgq st q)
  end.

(** [udc_renesas_ra_event_handler]: the callback of the Controller.  The
    [ep] member of the message is not written by the callback and never read
    for a message of this type; it stands as 0 here. *)
Definition udc_renesas_ra_event_handler (st : udc_state) (e : usbd_event_t)
  : option udc_state :=
  match event_id e with
  | USBD_EVENT_BUS_RESET => Some (udc_submit_event st UDC_EVT_RESET)
  | USBD_EVENT_VBUS_RDY => Some (udc_submit_event st UDC_EVT_VBUS_READY)
  | USBD_EVENT_VBUS_REMOVED => Some (udc_submit_event st UDC_EVT_VBUS_REMOVED)
  | USBD_EVENT_SUSPEND => Some (udc_submit_event st UDC_EVT_SUSPEND)
  | USBD_EVENT_RESUME => Some (udc_submit_event st UDC_EVT_RESUME)
  | USBD_EVENT_SOF => Some (udc_submit_event st UDC_EVT_SOF)
  | _ =>
      match k_msgq_put st (mk_evt UDC_RENESAS_RA_EVT_HAL e 0) K_NO_WAIT with
      | Some (_, st') => Some st'
      | None => None
      end
  end.

Definition udc_event_xfer_next (st : udc_state) (ep : Z) : udc_state :=
  if udc_ep_is_busy st ep then st
  else
    match udc_buf_peek st ep with
    | None => st
    | Some buf =>
        let (err, st1) :=
          if USB_EP_DIR_IS_IN ep
          then hal_do st (R_USBD_XferStart ep (Some (nb_id buf)) (nb_len buf))
          else hal_do st (R_USBD_XferStart ep (Some (nb_id buf)) (nb_size buf)) in
        if negb (err =? FSP_SUCCESS)
        then snd (udc_submit_ep_event st1 [buf] (- ECONNREFUSED))
        else udc_ep_set_busy st1 ep true
    end.

Definition usbd_ctrl_feed_dout (st : udc_state) (length : Z) : Z * udc_state :=
  match udc_ctrl_alloc st USB_CONTROL_EP_OUT length with
  | (None, st1) => (- ENOMEM, st1)
  | (Some buf, st1) =>
      let st2 := udc_buf_put st1 USB_CONTROL_EP_OUT buf in
      let (r, st3) :=
        hal_do st2 (R_USBD_XferStart USB_CONTROL_EP_OUT (Some (nb_id buf))
                                     (nb_size buf)) in
      if negb (r =? FSP_SUCCESS) then (- EIO, st3) else (0, st3)
  end.

Definition udc_event_xfer_setup (st : udc_state) (evt : udc_renesas_ra_evt)
  : Z * udc_state :=
  let setup_packet := firstn 8 (setup_received (evt_hal_evt evt)) in
  match udc_ctrl_alloc st USB_CONTROL_EP_OUT 8 with
  | (None, st1) => (- ENOMEM, st1)
  | (Some buf0, st1) =>
      let buf := net_buf_add_mem (udc_ep_buf_set_setup buf0) setup_packet in
      let st2 := udc_ctrl_update_stage st1 buf in
      if udc_ctrl_stage_is_data_out st2 then
        let (err, st3) := usbd_ctrl_feed_dout st2 (udc_data_stage_length buf) in
        if err =? - ENOMEM then udc_submit_ep_event st3 [buf] err
        else (err, st3)
      else if udc_ctrl_stage_is_data_in st2 then udc_ctrl_submit_s_in_status st2
      else udc_ctrl_submit_s_status st2
  end.

Definition udc_event_xfer_ctrl_in (st : udc_state) (buf : net_buf) : udc_state :=
  let st1 :=
    if udc_ctrl_stage_is_status_in st || udc_ctrl_stage_is_no_data st
    then udc_ctrl_submit_status st buf else st in
  let st2 := udc_ctrl_update_stage st1 buf in
  if udc_ctrl_stage_is_status_out st2
  then net_buf_unref (snd (usbd_ctrl_feed_dout st2 0)) buf
  else st2.

Definition udc_event_status_in (st : udc_state) : udc_state :=
  match udc_buf_get st USB_CONTROL_EP_IN with
  | (None, _) => st
  | (Some buf, st1) =>
      let st2 := snd (hal_do st1 (R_USBD_XferStart USB_CONTROL_EP_IN None 0)) in
      udc_event_xfer_ctrl_in st2 buf
  end.

Definition udc_event_xfer_ctrl_out (st : udc_state) (buf0 : net_buf) (len : Z)
  : udc_state :=
  let buf := net_buf_add buf0 len in
  let st1 :=
    if udc_ctrl_stage_is_status_out st then udc_ctrl_submit_status st buf
    else st in
  let st2 := udc_ctrl_update_stage st1 buf in
  if udc_ctrl_stage_is_status_in st2
  then snd (udc_ctrl_submit_s_out_status st2 buf)
  else st2.

Definition udc_event_xfer_complete (st : udc_state) (evt : udc_renesas_ra_evt)
  : udc_state :=
  let ep := xc_ep_addr (xfer_complete (evt_hal_evt evt)) in
  let result := xc_result (xfer_complete (evt_hal_evt evt)) in
  let len := xc_len (xfer_complete (evt_hal_evt evt)) in
  let st1 := udc_ep_set_busy st ep false in
  match udc_buf_peek st1 ep with
  | None => st1
  | Some buf =>
      let error (s : udc_state) (b : net_buf) :=
        snd (udc_submit_ep_event s [b] (- EIO)) in
      match result with
      | USBD_XFER_RESULT_SUCCESS =>
          if USB_EP_DIR_IS_IN ep && udc_ep_buf_has_zlp buf then
            let buf' := udc_ep_buf_clear_zlp buf in
            let st2 := set_head st1 ep buf' in
            let (r, st3) := hal_do st2 (R_USBD_XferStart ep None 0) in
            if negb (r =? FSP_SUCCESS) then error st3 buf' else st3
          else
            match udc_buf_get st1 ep with
            | (None, st2) => st2
            | (Some b, st2) =>
                if ep =? USB_CONTROL_EP_IN then udc_event_xfer_ctrl_in st2 b
                else if ep =? USB_CONTROL_EP_OUT
                then udc_event_xfer_ctrl_out st2 b len
                else
                  let b' := if USB_EP_DIR_IS_OUT ep then net_buf_add b len
                            else b in
                  snd (udc_submit_ep_event st2 [b'] 0)
            end
      | _ => error st1 buf
      end
  end.

(** One turn of the loop of [renesas_ra_thread_handler]: take a message,
    run its handler.  [None] when the worker stays blocked in
    [k_msgq_get]. *)
Definition renesas_ra_thread_step (st : udc_state) : option udc_state :=
  match k_msgq_get st with
  | None => None
  | Some (evt, st0) =>
      let st1 := emit st0 (Got evt) in
      Some
        match evt_type evt with
        | UDC_RENESAS_RA_EVT_HAL =>
            match event_id (evt_hal_evt evt) with
            | USBD_EVENT_SETUP_RECEIVED => snd (udc_event_xfer_setup st1 evt)
            | USBD_EVENT_XFER_COMPLETE => udc_event_xfer_complete st1 evt
            | _ => st1
            end
        | UDC_RENESAS_RA_EVT_XFER => udc_event_xfer_next st1 (evt_ep evt)
        | UDC_RENESAS_RA_EVT_STATUS => udc_event_status_in st1
        end
  end.

(** [renesas_ra_thread_handler], run for at most [n] turns; it stops early
    only by blocking on the empty queue. *)
Fixpoint renesas_ra_thread_handler (n : nat) (st : udc_state) : udc_state :=
  match n with
  | O => st
  | S n' =>
      match renesas_ra_thread_step st with
      | None => st
      | Some st' => renesas_ra_thread_handler n' st'
      end
  end.

(** The [cfg] argument of the endpoint operations is the configuration of
    the endpoint with address [addr], [udc_get_ep_cfg(dev, addr)].  The
    test of [cfg->stat.halted] that ends [udc_renesas_ra_ep_enqueue] only
    selects a debug log line; log output has no counterpart here. *)
Definition udc_renesas_ra_ep_enqueue (st : udc_state) (addr : Z) (buf : net_buf)
  : option (Z * udc_state) :=
  let st1 := udc_buf_put st addr buf in
  let evt :=
    mk_evt (if (addr =? USB_CONTROL_EP_IN) && (nb_len buf =? 0)
            then UDC_RENESAS_RA_EVT_STATUS else UDC_RENESAS_RA_EVT_XFER)
           hal_evt_zero addr in
  match k_msgq_put st1 evt K_NO_WAIT with
  | Some (_, st2) => Some (0, st2)
  | None => None
  end.

Definition irq_lock (st : udc_state) : bool * udc_state :=
  (irq_locked st, with_irq st true).

Definition irq_unlock (st : udc_state) (key : bool) : udc_state :=
  with_irq st key.

Definition udc_renesas_ra_ep_dequeue (st : udc_state) (addr : Z)
  : Z * udc_state :=
  let (lock_key, st0) := irq_lock st in
  let (chain, st1) := udc_buf_get_all st0 addr in
  let st2 :=
    match chain with
    | [] => st1
    | _ => snd (udc_submit_ep_event st1 chain (- ECONNABORTED))
    end in
  let (r, st3) := hal_do st2 (R_USBD_XferAbort addr) in
  if negb (r =? FSP_SUCCESS) then (- EIO, st3)
  else (0, irq_unlock (udc_ep_set_busy st3 addr false) lock_key).

Definition udc_renesas_ra_ep_enable (st : udc_state) (addr : Z) : Z * udc_state :=
  if USB_EP_GET_IDX addr =? 0 then (0, st)
  else
    let cfg := eps st addr in
    let (r, st1) :=
      hal_do st (R_USBD_EdptOpen addr (attributes cfg) (mps cfg) (interval cfg)) in
    if negb (r =? FSP_SUCCESS) then (- EIO, st1) else (0, st1).

Definition udc_renesas_ra_ep_disable (st : udc_state) (addr : Z) : Z * udc_state :=
  if USB_EP_GET_IDX addr =? 0 then (0, st)
  else
    let (r, st1) := hal_do st (R_USBD_EdptClose addr) in
    if negb (r =? FSP_SUCCESS) then (- EIO, st1) else (0, st1).

End Driver.

(** ** The driver in its environment

    The Controller raises events from interrupt context, the worker runs one
    turn of its loop, and the upper stack enqueues and dequeues buffers.  An
    action that would have to wait leaves the state as it is. *)

Inductive action : Type :=
| Isr (e : usbd_event_t)
| Worker
| Enqueue (addr : Z) (buf : net_buf)
| Dequeue (addr : Z).

Section System.

Variable controller : list obs -> hal_call -> Z.
Variable CONFIG_UDC_RENESAS_RA_MAX_QMESSAGES : nat.

Definition step (st : udc_state) (a : action) : udc_state :=
  match a with
  | Isr e =>
      match udc_renesas_ra_event_handler
              CONFIG_UDC_RENESAS_RA_MAX_QMESSAGES st e with
      | Some st' => st'
      | None => st
      end
  | Worker =>
      match renesas_ra_thread_step controller st with
      | Some st' => st'
      | None => st
      end
  | Enqueue addr buf =>
      match udc_renesas_ra_ep_enqueue
              CONFIG_UDC_RENESAS_RA_MAX_QMESSAGES st addr buf with
      | Some (_, st') => st'
      | None => st
      end
  | Dequeue addr => snd (udc_renesas_ra_ep_dequeue controller st addr)
  end.

Definition run (acts : list action) (st : udc_state) : udc_state :=
  fold_left step acts st.

End System.

(** The state after [udc_renesas_ra_init]: every endpoint idle with an empty
    queue, nothing pending, nothing observed yet. *)
Definition idle_ep : udc_ep_config := mk_ep false false [] 0 64 0.

Definition init_state (free : list Z) : udc_state :=
  mk_state (fun _ => idle_ep) CTRL_PIPE_STAGE_SETUP [] [] free false.

(** A transfer-complete event of the Controller and a received SETUP
    packet. *)
Definition xfer_complete_evt (ep : Z) (r : usbd_xfer_result_t) (len : Z)
  : usbd_event_t :=
  mk_hal_evt USBD_EVENT_XFER_COMPLETE (repeat 0 8) (mk_xfer_complete ep r len).

Definition setup_received_evt (pkt : list Z) : usbd_event_t :=
  mk_hal_evt USBD_EVENT_SETUP_RECEIVED pkt
             (mk_xfer_complete 0 USBD_XFER_RESULT_SUCCESS 0).

Definition is_complete_for (ep : Z) (e : udc_renesas_ra_evt) : bool :=
  match evt_type e, event_id (evt_hal_evt e) with
  | UDC_RENESAS_RA_EVT_HAL, USBD_EVENT_XFER_COMPLETE =>
      xc_ep_addr (xfer_complete (evt_hal_evt e)) =? ep
  | _, _ => false
  end.

(** Reading a trace from the past to the present: a transfer is outstanding
    on [ep] once the Controller has accepted a [R_USBD_XferStart] for it,
    until the worker takes a transfer-complete event for [ep]. *)
Definition track (ep : Z) (acc : bool) (o : obs) : bool :=
  match o with
  | Hal (R_USBD_XferStart ep' _ _) r =>
      if (ep' =? ep) && (r =? FSP_SUCCESS) then true else acc
  | Got e => if is_complete_for ep e then false else acc
  | _ => acc
  end.

Definition xfer_outstanding (ep : Z) (t : list obs) : bool :=
  fold_left (track ep) t false.

(** The buffers an upstream event hands over, by address. *)
Definition reported_ids (e : udc_event) : list Z :=
  match e with
  | EpRequest chain _ => map nb_id chain
  | CtrlStatus buf => [nb_id buf]
  | CtrlSOutStatus buf => [nb_id buf]
  | _ => []
  end.

(** How many times the buffer at address [i] has been handed upstream. *)
Definition delivered (i : Z) (t : list obs) : nat :=
  count_occ Z.eq_dec (flat_map reported_ids (upstream t)) i.

(** Two Controllers used in examples: one that accepts every call and one
    that rejects every call. *)
Definition controller_ok : list obs -> hal_call -> Z := fun _ _ => FSP_SUCCESS.
Definition controller_fail : list obs -> hal_call -> Z := fun _ _ => 1.

(** The message the callback queues for an event of the Controller. *)
Definition hal_msg (e : usbd_event_t) : udc_renesas_ra_evt :=
  mk_evt UDC_RENESAS_RA_EVT_HAL e 0.

Definition is_bus_event (e : usbd_event_t) : bool :=
  match event_id e with
  | USBD_EVENT_BUS_RESET | USBD_EVENT_VBUS_RDY | USBD_EVENT_VBUS_REMOVED
  | USBD_EVENT_SUSPEND | USBD_EVENT_RESUME | USBD_EVENT_SOF => true
  | _ => false
  end.

(** The call [udc_event_xfer_next] makes for the head buffer: the used
    length for an IN endpoint, the capacity for an OUT endpoint. *)
Definition start_call (ep : Z) (buf : net_buf) : hal_call :=
  R_USBD_XferStart ep (Some (nb_id buf))
                   (if USB_EP_DIR_IS_IN ep then nb_len buf else nb_size buf).

(** ** Statements about the driver, as predicates *)

(** The message [ep_enqueue] is to post is of the status kind for a
    zero-length buffer on the control-IN endpoint, and otherwise of the
    start-next-transfer kind with the endpoint's address. *)
Definition right_kind (addr : Z) (buf : net_buf) (evt : udc_renesas_ra_evt)
  : Prop :=
  (addr = USB_CONTROL_EP_IN /\ nb_len buf = 0 ->
   evt_type evt = UDC_RENESAS_RA_EVT_STATUS) /\
  (~ (addr = USB_CONTROL_EP_IN /\ nb_len buf = 0) ->
   evt_type evt = UDC_RENESAS_RA_EVT_XFER /\ evt_ep evt = addr).

(** [ep_enqueue] returns 0 and has posted exactly one event: the message
    queue holds one more message, of the right kind. *)
Definition enqueue_posted (max : nat) (st : udc_state) (addr : Z)
           (buf : net_buf) : Prop :=
  exists st' evt,
    udc_renesas_ra_ep_enqueue max st addr buf = Some (0, st') /\
    drv_msgq st' = drv_msgq st ++ [evt] /\
    right_kind addr buf evt.

(** What a queued message carries for the worker when it comes from the
    callback: its type and the event of the Controller.  The callback does
    not write the [ep] member of such a message. *)
Definition msg_payload (m : udc_renesas_ra_evt)
  : udc_renesas_ra_event_type * usbd_event_t :=
  (evt_type m, evt_hal_evt m).

(** The callback, on a full queue, drops the event and reports something
    upstream. *)
Definition full_queue_reported (max : nat) (st : udc_state) (e : usbd_event_t)
  : Prop :=
  exists st',
    udc_renesas_ra_event_handler max st e = Some st' /\
    drv_msgq st' = drv_msgq st /\
    upstream (trace st') <> upstream (trace st).






(** ** Example inputs *)

Definition buf_out_a : net_buf := mk_net_buf 11 [] 0 64 1 false false.
Definition buf_out_b : net_buf := mk_net_buf 12 [] 0 64 1 false false.
Definition buf_in_a : net_buf := mk_net_buf 21 [] 10 64 129 false false.
Definition buf_in_b : net_buf := mk_net_buf 22 [] 10 64 129 false false.
Definition buf_in_zlp : net_buf := mk_net_buf 23 [] 64 64 129 false true.
Definition buf_ctrl_in : net_buf := mk_net_buf 31 [] 10 64 128 false false.

(** GET_DESCRIPTOR(device) asking for 10 and for 128 bytes, and an OUT
    request with 8 bytes of data. *)
Definition setup_in_10 : list Z := [128; 6; 0; 1; 0; 0; 10; 0].
Definition setup_out_8 : list Z := [0; 9; 1; 0; 0; 0; 8; 0].

(** One buffer queued on endpoint 0x81 with a message queue of capacity 1:
    the queue is full. *)
Definition st_full : udc_state :=
  run controller_ok 1 [Enqueue 129 buf_in_a] (init_state []).

(** Two buffers queued on the OUT endpoint 0x01, none started. *)
Definition st_two_out : udc_state :=
  run controller_ok 8 [Enqueue 1 buf_out_a; Enqueue 1 buf_out_b] (init_state []).

(** A transfer in flight on endpoint 0x81. *)
Definition st_in_flight : udc_state :=
  run controller_ok 8 [Enqueue 129 buf_in_a; Worker] (init_state []).



(** The busy flag of every endpoint tells exactly whether a transfer is
    outstanding on it. *)
Definition busy_iff_outstanding (st : udc_state) : Prop :=
  forall ep, stat_busy (eps st ep) = xfer_outstanding ep (trace st).

(** The busy flag is set only while a transfer is outstanding. *)
Definition busy_sound (st : udc_state) : Prop :=
  forall ep, stat_busy (eps st ep) = true ->
             xfer_outstanding ep (trace st) = true.

(** The data stage of a control write has just been armed. *)
Definition st_ctrl_write : udc_state :=
  run controller_ok 8 [Isr (setup_received_evt setup_out_8); Worker]
      (init_state [100; 101; 102]).

(** The addresses of the buffers of a queue, and how many times the buffer
    at address [i] sits on the queue of endpoint [a]. *)
Definition ids (q : list net_buf) : list Z := map nb_id q.

Definition queued (i a : Z) (st : udc_state) : nat :=
  count_occ Z.eq_dec (ids (fifo (eps st a))) i.

(** A buffer enqueued on endpoint [a] has been handed upstream at most once,
    and exactly once if it is no longer on the queue. *)
Definition reported_exactly_once (st : udc_state) (a : Z) (buf : net_buf) : Prop :=
  (delivered (nb_id buf) (trace st) <= 1)%nat /\
  (queued (nb_id buf) a st = 0%nat -> delivered (nb_id buf) (trace st) = 1%nat).

(** The buffer at address [i] is neither on a queue other than that of
    endpoint [a] nor free in the control pool. *)
Definition others_clean (i a : Z) (st : udc_state) : Prop :=
  (forall ep, ep <> a -> ~ In i (ids (fifo (eps st ep)))) /\
  ~ In i (pool st).

(** Occurrences on the queue of [a] plus hand-overs. *)
Definition balance (i a : Z) (st : udc_state) : nat :=
  (queued i a st + delivered i (trace st))%nat.

(** A message for endpoint [a] that reports a failed transfer. *)
Definition failed_on (a : Z) (e : usbd_event_t) : Prop :=
  event_id e = USBD_EVENT_XFER_COMPLETE /\
  xc_ep_addr (xfer_complete e) = a /\
  xc_result (xfer_complete e) <> USBD_XFER_RESULT_SUCCESS.

(** What the environment may do around the buffer at address [i] queued on
    endpoint [a]: it does not enqueue that buffer a second time, and the
    Controller reports no failed transfer on [a]. *)
Definition act_ok (i a : Z) (act : action) : Prop :=
  match act with
  | Enqueue _ buf => nb_id buf <> i
  | Isr e => ~ failed_on a e
  | _ => True
  end.

(** A whole control read of 10 bytes: SETUP, the IN data buffer enqueued by
    the upper stack and sent, the status-stage OUT transfer completed. *)
Definition st_ctrl_read_done : udc_state :=
  run controller_ok 8
      [Isr (setup_received_evt setup_in_10); Worker;
       Enqueue 128 buf_ctrl_in; Worker;
       Isr (xfer_complete_evt 128 USBD_XFER_RESULT_SUCCESS 10); Worker;
       Isr (xfer_complete_evt 0 USBD_XFER_RESULT_SUCCESS 0); Worker]
      (init_state [100; 101; 102]).

(** A terminal notification for the buffer at address [i]: an upstream
    event that hands the buffer over does so as a request reported with
    status 0 (ok) or with [-ECONNABORTED] (aborted). *)
Definition terminal_report (i : Z) (e : udc_event) : Prop :=
  In i (reported_ids e) ->
  exists chain err,
    e = EpRequest chain err /\ (err = 0 \/ err = - ECONNABORTED).

(** Every hand-over of the buffer at address [i] in the trace is a terminal
    notification. *)
Definition terminal_only (i : Z) (t : list obs) : Prop :=
  Forall (terminal_report i) (upstream t).

(** [kept i a st n]: the invariant of the buffer at address [i] for
    endpoint [a], with balance [n]. *)
Definition kept (i a : Z) (st : udc_state) (n : nat) : Prop :=
  (others_clean i a st /\ balance i a st = n) /\
  terminal_only i (trace st).

(** [quiet st st']: going from [st] to [st'] no outstanding transfer was
    forgotten, and no busy flag was raised without a transfer being
    outstanding. *)
Definition quiet (st st' : udc_state) : Prop :=
  (forall ep, xfer_outstanding ep (trace st) = true ->
              xfer_outstanding ep (trace st') = true) /\
  (forall ep, stat_busy (eps st' ep) = true ->
              stat_busy (eps st ep) = true \/
              xfer_outstanding ep (trace st') = true).

(** No message waiting in [drv_msgq] reports a failed transfer on
    endpoint [a]. *)
Definition msgq_ok (a : Z) (st : udc_state) : Prop :=
  forall m, In m (drv_msgq st) ->
            evt_type m = UDC_RENESAS_RA_EVT_HAL -> ~ failed_on a (evt_hal_evt m).

(** The messages the worker has taken, in the order it took them. *)
Fixpoint gots (t : list obs) : list udc_renesas_ra_evt :=
  match t with
  | [] => []
  | Got e :: t' => e :: gots t'
  | _ :: t' => gots t'
  end.

(** A Controller that accepts every call but [R_USBD_XferAbort]. *)
Definition controller_no_abort : list obs -> hal_call -> Z :=
  fun _ c => match c with R_USBD_XferAbort _ => 1 | _ => FSP_SUCCESS end.

(** A Controller that accepts the first start of a transfer and refuses a
    zero-length start. *)
Definition controller_no_zlp : list obs -> hal_call -> Z :=
  fun _ c => match c with R_USBD_XferStart _ None _ => 1 | _ => FSP_SUCCESS end.

(** A buffer with the zero-length-terminator flag for the OUT endpoint
    0x01, and a zero-length buffer for the status stage IN. *)
Definition buf_out_zlp : net_buf := mk_net_buf 13 [] 0 64 1 false true.

(** A transfer with zero-length terminator in flight on endpoint 0x81. *)
Definition st_in_zlp_flight : udc_state :=
  run controller_ok 8 [Enqueue 129 buf_in_zlp; Worker] (init_state []).

(** A transfer in flight on the OUT endpoint 0x01, its buffer carrying the
    zero-length-terminator flag. *)
Definition st_out_flight : udc_state :=
  run controller_ok 8 [Enqueue 1 buf_out_zlp; Worker] (init_state []).

(** The buffer [udc_event_xfer_setup] builds for a SETUP packet out of the
    pool buffer at address [z]: capacity 8, the setup flag set, the 8 bytes
    of the packet copied in. *)
Definition setup_buf (z : Z) (pkt : list Z) : net_buf :=
  net_buf_add_mem
    (udc_ep_buf_set_setup (mk_net_buf z [] 0 8 USB_CONTROL_EP_OUT false false))
    (firstn 8 pkt).

(** The message the worker finds for a received SETUP packet. *)
Definition setup_msg (pkt : list Z) : udc_renesas_ra_evt :=
  hal_msg (setup_received_evt pkt).

(** An event of the Controller the worker has no handler for, and a bus
    reset. *)
Definition func_call_evt : usbd_event_t :=
  mk_hal_evt USBD_EVENT_FUNC_CALL (repeat 0 8)
             (mk_xfer_complete 0 USBD_XFER_RESULT_SUCCESS 0).

Definition bus_reset_evt : usbd_event_t :=
  mk_hal_evt USBD_EVENT_BUS_RESET (repeat 0 8)
             (mk_xfer_complete 0 USBD_XFER_RESULT_SUCCESS 0).

(** The callback has queued an event the worker has no handler for. *)
Definition st_func_call : udc_state :=
  run controller_ok 8 [Isr func_call_evt] (init_state []).

(** The start message [ep_enqueue] posts for an endpoint other than the
    control-IN endpoint. *)
Definition xfer_msg (a : Z) : udc_renesas_ra_evt :=
  mk_evt UDC_RENESAS_RA_EVT_XFER hal_evt_zero a.

(** What a whole-transfer argument follows from step to step: the queue and
    the busy flag of endpoint [a], the message queue, the Controller calls
    and the upstream events so far. *)
Definition at_state (a : Z) (s : udc_state) (q : list net_buf) (b : bool)
           (m : list udc_renesas_ra_evt) (h : list hal_call)
           (u : list udc_event) : Prop :=
  fifo (eps s a) = q /\ stat_busy (eps s a) = b /\ drv_msgq s = m /\
  hal_calls (trace s) = h /\ upstream (trace s) = u.

(** A busy endpoint has a buffer on its queue. *)
Definition busy_has_buffer (a : Z) (st : udc_state) : Prop :=
  stat_busy (eps st a) = true -> fifo (eps st a) <> [].

(** ** Driver set-up: build options, clocks and endpoint table *)

Definition EINVAL : Z := 22.
Definition ENODEV : Z := 19.
Definition ENOTSUP : Z := 134.

Definition BSP_IRQ_DISABLED : Z := 255.
Definition MHZ (x : Z) : Z := x * 1000 * 1000.

Inductive udc_bus_speed : Type :=
| UDC_BUS_UNKNOWN
| UDC_BUS_SPEED_FS
| UDC_BUS_SPEED_HS
| UDC_BUS_SPEED_SS.

Inductive usbd_speed_t : Type :=
| USBD_SPEED_LS
| USBD_SPEED_FS
| USBD_SPEED_HS
| USBD_SPEED_INVALID.

Definition bus_speed_is_hs (s : udc_bus_speed) : bool :=
  match s with UDC_BUS_SPEED_HS => true | _ => false end.

Definition usbd_speed_is_hs (s : usbd_speed_t) : bool :=
  match s with USBD_SPEED_HS => true | _ => false end.

Definition usbd_speed_is_fs (s : usbd_speed_t) : bool :=
  match s with USBD_SPEED_FS => true | _ => false end.

(** What the preprocessor decides: the two conditions of the [#if]s and
    the crystal frequency of the board. *)
Record build_opts : Type := mk_build {
  USBHS_PHY_CLOCK_SOURCE_IS_XTAL : bool;
  HAS_RENESAS_RA_USBHS : bool;
  BSP_CFG_XTAL_HZ : Z
}.

(** A clock device of [config->clocks] as the check sees it: its name,
    whether [device_is_ready], the rate [R_BSP_SourceClockHzGet] gives for
    its source and its divider. *)
Record clock_dev : Type := mk_clock {
  clk_name : String.string;
  clk_ready : bool;
  clk_src_rate : Z;
  clk_div : Z
}.

(** [clk_src_rate / clock_cfg->clk_div] on [uint32_t].  The C division is
    undefined for a divider of 0; here it gives 0. *)
Definition clock_rate (c : clock_dev) : Z := clk_src_rate c / clk_div c.

(** The loop of [udc_renesas_ra_clock_check]. *)
Fixpoint clock_check_loop (opts : build_opts) (clocks : list clock_dev) : Z :=
  match clocks with
  | [] => 0
  | c :: rest =>
      if negb (clk_ready c) then - ENODEV
      else if String.eqb (clk_name c) "uclk"
              && negb (clock_rate c =? MHZ 48) then - ENOTSUP
      else if HAS_RENESAS_RA_USBHS opts
              && (String.eqb (clk_name c) "u60clk"
                  && negb (clock_rate c =? MHZ 60)) then - ENOTSUP
      else clock_check_loop opts rest
  end.

Definition udc_renesas_ra_clock_check (opts : build_opts)
           (speed_idx : udc_bus_speed) (clocks : list clock_dev) : Z :=
  if USBHS_PHY_CLOCK_SOURCE_IS_XTAL opts && bus_speed_is_hs speed_idx then
    if BSP_CFG_XTAL_HZ opts =? 0 then - EINVAL else 0
  else clock_check_loop opts clocks.

(** A clock the loop lets pass. *)
Definition clock_ok (opts : build_opts) (c : clock_dev) : Prop :=
  clk_ready c = true /\
  (clk_name c = "uclk"%string -> clock_rate c = MHZ 48) /\
  (HAS_RENESAS_RA_USBHS opts = true -> clk_name c = "u60clk"%string ->
   clock_rate c = MHZ 60).

(** [struct udc_ep_caps] and an entry of the [ep_cfg_out]/[ep_cfg_in]
    arrays as [udc_renesas_ra_driver_preinit] fills it in. *)
Record udc_ep_caps : Type := mk_caps {
  caps_out : bool;
  caps_in : bool;
  caps_control : bool;
  caps_bulk : bool;
  caps_interrupt : bool;
  caps_iso : bool;
  caps_mps : Z
}.

Record ep_cfg_entry : Type := mk_entry {
  ent_addr : Z;
  ent_caps : udc_ep_caps
}.

Definition out_entry (mps : Z) (i : nat) : ep_cfg_entry :=
  mk_entry (Z.lor USB_EP_DIR_OUT (Z.of_nat i) mod 256)
           (match i with
            | O => mk_caps true false true false false false 64
            | _ => mk_caps true false false true true true mps
            end).

Definition in_entry (mps : Z) (i : nat) : ep_cfg_entry :=
  mk_entry (Z.lor USB_EP_DIR_IN (Z.of_nat i) mod 256)
           (match i with
            | O => mk_caps false true true false false false 64
            | _ => mk_caps false true false true true true mps
            end).

(** One of the two registration loops: the entries written so far and the
    addresses registered so far are threaded through; the loop stops at the
    first endpoint [udc_register_ep] refuses. *)
Fixpoint register_loop (mk : nat -> ep_cfg_entry) (udc_register_ep : Z -> Z)
         (idxs : list nat) (written : list ep_cfg_entry) (registered : list Z)
  : Z * list ep_cfg_entry * list Z :=
  match idxs with
  | [] => (0, written, registered)
  | i :: rest =>
      let e := mk i in
      let err := udc_register_ep (ent_addr e) in
      if negb (err =? 0) then (err, written ++ [e], registered)
      else register_loop mk udc_register_ep rest (written ++ [e])
                         (registered ++ [ent_addr e])
  end.

Inductive elc_event : Type :=
| ELC_EVENT_USBHS_USB_INT_RESUME
| ELC_EVENT_USBFS_INT
| ELC_EVENT_USBFS_RESUME.

(** The parts of [struct udc_renesas_ra_config] and of [priv->udc_cfg] the
    set-up reads. *)
Record udc_renesas_ra_config : Type := mk_config {
  cfg_clocks : list clock_dev;
  cfg_num_of_eps : nat;
  cfg_speed_idx : udc_bus_speed
}.

Record st_usbd_cfg : Type := mk_usbd_cfg {
  ucfg_usb_speed : usbd_speed_t;
  ucfg_irq : Z;
  ucfg_irq_r : Z;
  ucfg_hs_irq : Z
}.

(** What [udc_renesas_ra_driver_preinit] has written when it returns. *)
Record preinit_out : Type := mk_preinit {
  po_mutex_init : bool;
  po_caps_rwup : bool;
  po_caps_mps0_64 : bool;
  po_caps_hs : bool;
  po_ep_cfg_out : list ep_cfg_entry;
  po_ep_cfg_in : list ep_cfg_entry;
  po_registered : list Z;
  po_ielsr : list (Z * elc_event);
  po_thread : bool
}.

Definition preinit_untouched : preinit_out :=
  mk_preinit false false false false [] [] [] [] false.

Definition ielsr_writes (opts : build_opts) (u : st_usbd_cfg)
  : list (Z * elc_event) :=
  (if HAS_RENESAS_RA_USBHS opts && negb (ucfg_hs_irq u =? BSP_IRQ_DISABLED)
   then [(ucfg_hs_irq u, ELC_EVENT_USBHS_USB_INT_RESUME)] else []) ++
  (if negb (ucfg_irq u =? BSP_IRQ_DISABLED)
   then [(ucfg_irq u, ELC_EVENT_USBFS_INT)] else []) ++
  (if negb (ucfg_irq_r u =? BSP_IRQ_DISABLED)
   then [(ucfg_irq_r u, ELC_EVENT_USBFS_RESUME)] else []).

(** [udc_renesas_ra_driver_preinit].  [pinctrl] is the result of
    [pinctrl_apply_state] and [udc_register_ep] that of the common layer's
    function of this name for an endpoint address. *)
Definition udc_renesas_ra_driver_preinit (opts : build_opts)
           (config : udc_renesas_ra_config) (u : st_usbd_cfg) (pinctrl : Z)
           (udc_register_ep : Z -> Z) : Z * preinit_out :=
  if negb (USBHS_PHY_CLOCK_SOURCE_IS_XTAL opts)
     && usbd_speed_is_hs (ucfg_usb_speed u)
  then (- ENOTSUP, preinit_untouched)
  else if (if bus_speed_is_hs (cfg_speed_idx config)
           then negb (usbd_speed_is_hs (ucfg_usb_speed u)
                      || usbd_speed_is_fs (ucfg_usb_speed u))
           else negb (usbd_speed_is_fs (ucfg_usb_speed u)))
  then (- ENOTSUP, preinit_untouched)
  else
    let err := udc_renesas_ra_clock_check opts (cfg_speed_idx config)
                                          (cfg_clocks config) in
    if err <? 0 then (err, preinit_untouched)
    else if pinctrl <? 0 then (pinctrl, preinit_untouched)
    else
      let hs := usbd_speed_is_hs (ucfg_usb_speed u) in
      let mps := if hs then 1024 else 1023 in
      let idxs := seq 0 (cfg_num_of_eps config) in
      match register_loop (out_entry mps) udc_register_ep idxs [] [] with
      | (err1, out_w, reg1) =>
          if negb (err1 =? 0)
          then (err1, mk_preinit true true true hs out_w [] reg1 [] false)
          else
            match register_loop (in_entry mps) udc_register_ep idxs [] reg1 with
            | (err2, in_w, reg2) =>
                if negb (err2 =? 0)
                then (err2, mk_preinit true true true hs out_w in_w reg2 [] false)
                else (0, mk_preinit true true true hs out_w in_w reg2
                                    (ielsr_writes opts u) true)
            end
      end.

(** [udc_renesas_ra_device_speed], from the [hs] capability. *)
Definition udc_renesas_ra_device_speed (caps_hs : bool) : udc_bus_speed :=
  if caps_hs then UDC_BUS_SPEED_HS else UDC_BUS_SPEED_FS.

(** ** Halting an endpoint *)

(** The two Controller calls of the halt operations; their results are
    recorded beside the state of the data path, in call order. *)
Inductive ctl_call : Type :=
| R_USBD_EdptStall (ep : Z)
| R_USBD_EdptClearStall (ep : Z).

Record udc_dev : Type := mk_dev {
  dev_core : udc_state;
  dev_ctl : list (ctl_call * Z)
}.

Definition set_halted (c : udc_ep_config) (h : bool) : udc_ep_config :=
  mk_ep (stat_busy c) h (fifo c) (attributes c) (mps c) (interval c).

Definition halt_ep (st : udc_state) (addr : Z) (h : bool) : udc_state :=
  with_eps st (upd_ep (eps st) addr (set_halted (eps st addr) h)).

Section Halt.

Variable ctl : list (ctl_call * Z) -> ctl_call -> Z.

Definition ctl_do (d : udc_dev) (c : ctl_call) : Z * udc_dev :=
  let r := ctl (dev_ctl d) c in (r, mk_dev (dev_core d) (dev_ctl d ++ [(c, r)])).

Definition udc_renesas_ra_ep_set_halt (d : udc_dev) (addr : Z) : Z * udc_dev :=
  let (r, d1) := ctl_do d (R_USBD_EdptStall addr) in
  if negb (r =? FSP_SUCCESS) then (- EIO, d1)
  else (0, mk_dev (halt_ep (dev_core d1) addr true) (dev_ctl d1)).

Definition udc_renesas_ra_ep_clear_halt (d : udc_dev) (addr : Z) : Z * udc_dev :=
  let (r, d1) := ctl_do d (R_USBD_EdptClearStall addr) in
  if negb (r =? FSP_SUCCESS) then (- EIO, d1)
  else (0, mk_dev (halt_ep (dev_core d1) addr false) (dev_ctl d1)).

End Halt.

(** Two endpoint configurations that differ at most in the "halted" flag,
    and two states that differ at most in the "halted" flags. *)
Definition same_but_halted (c c' : udc_ep_config) : Prop :=
  stat_busy c = stat_busy c' /\ fifo c = fifo c' /\
  attributes c = attributes c' /\ mps c = mps c' /\ interval c = interval c'.

Definition same_but_halts (st st' : udc_state) : Prop :=
  (forall a, same_but_halted (eps st a) (eps st' a)) /\
  stage st = stage st' /\ drv_msgq st = drv_msgq st' /\
  trace st = trace st' /\ pool st = pool st' /\ irq_locked st = irq_locked st'.

(** Example inputs of the set-up. *)
Definition opts_fs : build_opts := mk_build false false 0.
Definition opts_hs_xtal : build_opts := mk_build true true 24000000.

Definition uclk_48 : clock_dev := mk_clock "uclk" true 240000000 5.
Definition uclk_40 : clock_dev := mk_clock "uclk" true 240000000 6.
Definition u60clk_60 : clock_dev := mk_clock "u60clk" true 240000000 4.
Definition u60clk_48 : clock_dev := mk_clock "u60clk" true 240000000 5.
Definition pclk_down : clock_dev := mk_clock "pclkb" false 240000000 4.

Definition config_fs : udc_renesas_ra_config :=
  mk_config [uclk_48] 3 UDC_BUS_SPEED_FS.
Definition config_hs : udc_renesas_ra_config :=
  mk_config [uclk_48; u60clk_60] 3 UDC_BUS_SPEED_HS.

Definition usbd_cfg_fs : st_usbd_cfg := mk_usbd_cfg USBD_SPEED_FS 20 21 BSP_IRQ_DISABLED.
Definition usbd_cfg_hs : st_usbd_cfg :=
  mk_usbd_cfg USBD_SPEED_HS BSP_IRQ_DISABLED BSP_IRQ_DISABLED 22.

Definition register_all : Z -> Z := fun _ => 0.
Definition register_refuses (addr : Z) : Z -> Z :=
  fun a => if a =? addr then - 22 else 0.

(** ** Properties *)

Lemma upstream_app (t u : list obs) :
  upstream (t ++ u) = upstream t ++ upstream u.
Proof.
  induction t as [|o t IH]; simpl; [reflexivity|].
  destruct o; simpl; rewrite IH; reflexivity.
Qed.

Lemma hal_calls_app (t u : list obs) :
  hal_calls (t ++ u) = hal_calls t ++ hal_calls u.
Proof.
  induction t as [|o t IH]; simpl; [reflexivity|].
  destruct o; simpl; rewrite IH; reflexivity.
Qed.

Lemma upd_ep_same (f : Z -> udc_ep_config) (ep : Z) (c : udc_ep_config) :
  upd_ep f ep c ep = c.
Proof. unfold upd_ep. rewrite Z.eqb_refl. reflexivity. Qed.

Lemma upd_ep_other (f : Z -> udc_ep_config) (ep a : Z) (c : udc_ep_config) :
  a <> ep -> upd_ep f ep c a = f a.
Proof.
  intro H. unfold upd_ep. destruct (Z.eqb_spec a ep); [contradiction|reflexivity].
Qed.

(** Case analysis on whether a Controller call returned [FSP_SUCCESS]. *)
Ltac case_result :=
  match goal with
  | |- context [?r =? FSP_SUCCESS] =>
      let E := fresh "Hres" in destruct (r =? FSP_SUCCESS) eqn:E
  end.

Section Properties.

Variable controller : list obs -> hal_call -> Z.
Variable CONFIG_UDC_RENESAS_RA_MAX_QMESSAGES : nat.

(** *** Status-stage IN with nothing queued *)

(** C7: a status-stage IN request processed while the control-IN queue is
    empty changes nothing: the handler returns the state it was given (no
    Controller call, no upstream event, endpoints and stage untouched), and
    the worker turn that takes the message adds only the taking of the
    message to the trace. *)
Theorem status_in_empty_queue_ignored (st : udc_state) :
  fifo (eps st USB_CONTROL_EP_IN) = [] ->
  udc_event_status_in controller st = st /\
  forall (e : udc_renesas_ra_evt) (q : list udc_renesas_ra_evt),
    evt_type e = UDC_RENESAS_RA_EVT_STATUS ->
    drv_msgq st = e :: q ->
    exists st',
      renesas_ra_thread_step controller st = Some st' /\
      hal_calls (trace st') = hal_calls (trace st) /\
      upstream (trace st') = upstream (trace st) /\
      eps st' = eps st /\ stage st' = stage st /\ pool st' = pool st.
Proof.
  intro Hq. split.
  - unfold udc_event_status_in, udc_buf_get. rewrite Hq. reflexivity.
  - intros e q Ht Hm.
    unfold renesas_ra_thread_step, k_msgq_get. rewrite Hm, Ht.
    eexists. split; [reflexivity|].
    unfold udc_event_status_in, udc_buf_get. simpl. rewrite Hq. simpl.
    rewrite hal_calls_app, upstream_app. simpl. rewrite !app_nil_r.
    repeat split; reflexivity.
Qed.

(** *** Enabling and disabling the control endpoint *)

(** C10: for an endpoint address whose index is 0, [ep_enable] and
    [ep_disable] return 0 at once and give back the state unchanged, so
    that no endpoint_open or endpoint_close reaches the Controller. *)
Theorem control_ep_enable_disable_noop (st : udc_state) (addr : Z) :
  USB_EP_GET_IDX addr = 0 ->
  udc_renesas_ra_ep_enable controller st addr = (0, st) /\
  udc_renesas_ra_ep_disable controller st addr = (0, st).
Proof.
  intro H. unfold udc_renesas_ra_ep_enable, udc_renesas_ra_ep_disable.
  rewrite H. split; reflexivity.
Qed.

(** *** Dequeue *)

Lemma dequeue_trace (st : udc_state) (addr : Z) :
  let r := controller
             (trace st ++
              match fifo (eps st addr) with
              | [] => []
              | q => [Up (EpRequest q (- ECONNABORTED))]
              end) (R_USBD_XferAbort addr) in
  trace (snd (udc_renesas_ra_ep_dequeue controller st addr)) =
    trace st ++
    match fifo (eps st addr) with
    | [] => []
    | q => [Up (EpRequest q (- ECONNABORTED))]
    end ++ [Hal (R_USBD_XferAbort addr) r] /\
  fst (udc_renesas_ra_ep_dequeue controller st addr) =
    (if r =? FSP_SUCCESS then 0 else - EIO).
Proof.
  unfold udc_renesas_ra_ep_dequeue, irq_lock, udc_buf_get_all. simpl.
  destruct (fifo (eps st addr)) as [|b q] eqn:Hq; simpl.
  - rewrite app_nil_r. case_result; simpl; split; reflexivity.
  - case_result; simpl; rewrite <- app_assoc; split; reflexivity.
Qed.


End Properties.

(** *** Posting messages *)

Section Messages.

Variable CONFIG_UDC_RENESAS_RA_MAX_QMESSAGES : nat.

Lemma k_msgq_put_room (st : udc_state) (evt : udc_renesas_ra_evt) (t : k_timeout_t) :
  (length (drv_msgq st) < CONFIG_UDC_RENESAS_RA_MAX_QMESSAGES)%nat ->
  k_msgq_put CONFIG_UDC_RENESAS_RA_MAX_QMESSAGES st evt t =
    Some (0, emit (with_msgq st (drv_msgq st ++ [evt])) (Put evt 0)).
Proof.
  intro H. unfold k_msgq_put.
  destruct (Nat.ltb_spec (length (drv_msgq st)) CONFIG_UDC_RENESAS_RA_MAX_QMESSAGES);
    [reflexivity|lia].
Qed.

Lemma k_msgq_put_full (st : udc_state) (evt : udc_renesas_ra_evt) :
  (CONFIG_UDC_RENESAS_RA_MAX_QMESSAGES <= length (drv_msgq st))%nat ->
  k_msgq_put CONFIG_UDC_RENESAS_RA_MAX_QMESSAGES st evt K_NO_WAIT =
    Some (- ENOMSG, emit st (Put evt (- ENOMSG))).
Proof.
  intro H. unfold k_msgq_put.
  destruct (Nat.ltb_spec (length (drv_msgq st)) CONFIG_UDC_RENESAS_RA_MAX_QMESSAGES);
    [lia|reflexivity].
Qed.

Lemma k_msgq_put_no_wait (st : udc_state) (evt : udc_renesas_ra_evt) :
  k_msgq_put CONFIG_UDC_RENESAS_RA_MAX_QMESSAGES st evt K_NO_WAIT <> None.
Proof.
  unfold k_msgq_put.
  destruct (length (drv_msgq st) <? CONFIG_UDC_RENESAS_RA_MAX_QMESSAGES)%nat;
    discriminate.
Qed.

Lemma enqueue_evt_right_kind (addr : Z) (buf : net_buf) :
  right_kind addr buf
    (mk_evt (if (addr =? USB_CONTROL_EP_IN) && (nb_len buf =? 0)
             then UDC_RENESAS_RA_EVT_STATUS else UDC_RENESAS_RA_EVT_XFER)
            hal_evt_zero addr).
Proof.
  split; simpl.
  - intros [Ha Hl]. rewrite Ha, Hl. reflexivity.
  - intro Hn. split; [|reflexivity].
    destruct (Z.eqb_spec addr USB_CONTROL_EP_IN) as [Ha|Ha]; [|reflexivity].
    destruct (Z.eqb_spec (nb_len buf) 0) as [Hl|Hl]; [|reflexivity].
    exfalso. apply Hn. split; assumption.
Qed.

(** C8 (amended): a call of [ep_enqueue] while the message queue has room
    appends the buffer to the endpoint's queue (leaving the other endpoints
    alone), then posts exactly one message, which joins the message queue:
    of the status kind for a zero-length buffer on the control-IN endpoint
    and of the start-next-transfer kind with the endpoint's address
    otherwise; and it returns 0. *)
Theorem enqueue_posts_one_event (st : udc_state) (addr : Z) (buf : net_buf) :
  (length (drv_msgq st) < CONFIG_UDC_RENESAS_RA_MAX_QMESSAGES)%nat ->
  exists st' evt,
    udc_renesas_ra_ep_enqueue CONFIG_UDC_RENESAS_RA_MAX_QMESSAGES st addr buf =
      Some (0, st') /\
    fifo (eps st' addr) = fifo (eps st addr) ++ [buf] /\
    (forall ep, ep <> addr -> eps st' ep = eps st ep) /\
    trace st' = trace st ++ [Put evt 0] /\
    drv_msgq st' = drv_msgq st ++ [evt] /\
    right_kind addr buf evt.
Proof.
  intro Hroom. unfold udc_renesas_ra_ep_enqueue.
  rewrite k_msgq_put_room by exact Hroom.
  eexists. eexists. split; [reflexivity|]. simpl.
  rewrite upd_ep_same. simpl.
  split; [reflexivity|]. split; [intros ep He; apply upd_ep_other; exact He|].
  split; [reflexivity|]. split; [reflexivity|apply enqueue_evt_right_kind].
Qed.

(** C9 (amended): posting a message never suspends the caller, neither in
    the callback nor in [ep_enqueue]; when the queue is full the message is
    dropped and nothing else happens: the callback changes nothing but the
    trace, which records the refused post, so nothing is reported upstream,
    and [ep_enqueue] still returns 0 with the buffer left on the endpoint's
    queue. *)
Theorem full_queue_drops_silently (st : udc_state) :
  (forall e, udc_renesas_ra_event_handler
               CONFIG_UDC_RENESAS_RA_MAX_QMESSAGES st e <> None) /\
  (forall addr buf, udc_renesas_ra_ep_enqueue
                      CONFIG_UDC_RENESAS_RA_MAX_QMESSAGES st addr buf <> None) /\
  ((CONFIG_UDC_RENESAS_RA_MAX_QMESSAGES <= length (drv_msgq st))%nat ->
   (forall e, is_bus_event e = false ->
              udc_renesas_ra_event_handler
                CONFIG_UDC_RENESAS_RA_MAX_QMESSAGES st e =
                Some (emit st (Put (hal_msg e) (- ENOMSG))) /\
              upstream (trace (emit st (Put (hal_msg e) (- ENOMSG)))) =
                upstream (trace st)) /\
   (forall addr buf,
     exists evt,
       udc_renesas_ra_ep_enqueue CONFIG_UDC_RENESAS_RA_MAX_QMESSAGES st addr buf =
         Some (0, emit (udc_buf_put st addr buf) (Put evt (- ENOMSG))) /\
       upstream (trace (emit (udc_buf_put st addr buf) (Put evt (- ENOMSG)))) =
         upstream (trace st))).
Proof.
  split; [|split].
  - intro e. unfold udc_renesas_ra_event_handler.
    pose proof (k_msgq_put_no_wait st (mk_evt UDC_RENESAS_RA_EVT_HAL e 0)) as Hp.
    destruct (k_msgq_put _ st (mk_evt UDC_RENESAS_RA_EVT_HAL e 0) K_NO_WAIT)
      as [[r s]|]; [|contradiction].
    destruct (event_id e); discriminate.
  - intros addr buf. unfold udc_renesas_ra_ep_enqueue.
    match goal with
    | |- context [k_msgq_put ?m ?s ?e K_NO_WAIT] =>
        pose proof (k_msgq_put_no_wait s e) as Hp;
        destruct (k_msgq_put m s e K_NO_WAIT) as [[r s']|]
    end; [discriminate|contradiction].
  - intro Hfull. split.
    + intros e He. split.
      * unfold udc_renesas_ra_event_handler.
        rewrite k_msgq_put_full by exact Hfull.
        unfold is_bus_event in He.
        destruct (event_id e); try discriminate; reflexivity.
      * simpl. rewrite upstream_app. simpl. apply app_nil_r.
    + intros addr buf. unfold udc_renesas_ra_ep_enqueue.
      rewrite k_msgq_put_full by exact Hfull.
      eexists. split; [reflexivity|].
      simpl. rewrite upstream_app. simpl. apply app_nil_r.
Qed.

End Messages.

(** C8, as stated, fails: with the message queue full, [ep_enqueue]
    appends the buffer and returns 0, but no event is posted; the message
    queue is as it was. *)
Lemma enqueue_on_full_queue_posts_nothing :
  (exists st',
     udc_renesas_ra_ep_enqueue 1 st_full 129 buf_in_b = Some (0, st') /\
     fifo (eps st' 129) = [buf_in_a; buf_in_b] /\
     drv_msgq st' = drv_msgq st_full) /\
  ~ enqueue_posted 1 st_full 129 buf_in_b.
Proof.
  split.
  - eexists. split; [reflexivity|]. split; reflexivity.
  - intros (st' & evt & He & Hq & _).
    vm_compute in He. inversion He; subst; clear He.
    apply (f_equal (@length udc_renesas_ra_evt)) in Hq.
    rewrite length_app in Hq. simpl in Hq. lia.
Qed.

Lemma enqueue_posts_one_event_witness :
  exists st' evt,
    udc_renesas_ra_ep_enqueue 8 st_in_flight 129 buf_in_b = Some (0, st') /\
    fifo (eps st' 129) = [buf_in_a; buf_in_b] /\
    drv_msgq st' = [evt] /\
    evt_type evt = UDC_RENESAS_RA_EVT_XFER /\ evt_ep evt = 129.
Proof.
  assert (Hroom : (length (drv_msgq st_in_flight) < 8)%nat) by (simpl; lia).
  destruct (enqueue_posts_one_event 8 st_in_flight 129 buf_in_b Hroom)
    as (st' & evt & He & Hq & _ & _ & Hm & _ & Hk).
  exists st', evt. split; [exact He|]. split; [exact Hq|].
  split; [exact Hm|]. apply Hk. intros [H _]. discriminate H.
Defined.

(** C9, as stated, fails: on a full queue the callback drops a
    transfer-complete event and reports nothing upstream. *)
Lemma full_queue_not_reported :
  ~ full_queue_reported 1 st_full
      (xfer_complete_evt 129 USBD_XFER_RESULT_SUCCESS 10).
Proof.
  intros (st' & He & _ & Hu).
  vm_compute in He. inversion He; subst; clear He.
  apply Hu. reflexivity.
Qed.

Lemma full_queue_drops_silently_witness :
  udc_renesas_ra_event_handler 1 st_full
    (xfer_complete_evt 129 USBD_XFER_RESULT_SUCCESS 10) =
    Some (emit st_full
               (Put (hal_msg (xfer_complete_evt 129 USBD_XFER_RESULT_SUCCESS 10))
                    (- ENOMSG))).
Proof.
  destruct (full_queue_drops_silently 1 st_full) as (_ & _ & H).
  assert (Hfull : (1 <= length (drv_msgq st_full))%nat) by (vm_compute; lia).
  destruct (H Hfull) as [H1 _].
  exact (proj1 (H1 (xfer_complete_evt 129 USBD_XFER_RESULT_SUCCESS 10) eq_refl)).
Defined.

(** *** Starting and completing transfers *)


Section Transfers.

Variable controller : list obs -> hal_call -> Z.

(** An accepted start: one Controller call, the endpoint busy, the queue
    as it was. *)
Lemma xfer_next_accepted (st : udc_state) (ep : Z) (buf : net_buf)
      (q : list net_buf) :
  stat_busy (eps st ep) = false ->
  fifo (eps st ep) = buf :: q ->
  controller (trace st) (start_call ep buf) = FSP_SUCCESS ->
  let st' := udc_event_xfer_next controller st ep in
  trace st' = trace st ++ [Hal (start_call ep buf) FSP_SUCCESS] /\
  stat_busy (eps st' ep) = true /\
  fifo (eps st' ep) = buf :: q.
Proof.
  intros Hb Hq Hr st'. subst st'. revert Hr.
  unfold udc_event_xfer_next, udc_ep_is_busy, udc_buf_peek, start_call.
  rewrite Hb, Hq. simpl.
  destruct (USB_EP_DIR_IS_IN ep); unfold hal_do; simpl; intro Hr;
    rewrite Hr; simpl; rewrite upd_ep_same; simpl; rewrite Hq; auto.
Qed.



(** A successful completion on a non-control endpoint whose head buffer
    needs no (further) zero-length packet: the head leaves the queue and is
    reported with status 0, with the received length added on an OUT
    endpoint. *)
Lemma complete_reports_head (st : udc_state) (ep len : Z) (buf : net_buf)
      (q : list net_buf) :
  ep <> USB_CONTROL_EP_IN -> ep <> USB_CONTROL_EP_OUT ->
  fifo (eps st ep) = buf :: q ->
  USB_EP_DIR_IS_IN ep && bi_zlp buf = false ->
  let st' := udc_event_xfer_complete controller st
               (hal_msg (xfer_complete_evt ep USBD_XFER_RESULT_SUCCESS len)) in
  trace st' = trace st ++
              [Up (EpRequest [if USB_EP_DIR_IS_OUT ep then net_buf_add buf len
                              else buf] 0)] /\
  fifo (eps st' ep) = q /\
  stat_busy (eps st' ep) = false.
Proof.
  intros Hi Ho Hq Hz st'. subst st'.
  unfold udc_event_xfer_complete, udc_buf_peek, udc_buf_get, udc_ep_set_busy.
  simpl. rewrite upd_ep_same. simpl. rewrite Hq. simpl.
  unfold udc_ep_buf_has_zlp. rewrite Hz. simpl.
  destruct (Z.eqb_spec ep USB_CONTROL_EP_IN); [contradiction|].
  destruct (Z.eqb_spec ep USB_CONTROL_EP_OUT); [contradiction|].
  simpl. rewrite upd_ep_same. simpl. repeat split; reflexivity.
Qed.



End Transfers.

(** A failed completion, in general: the head buffer is reported with -EIO
    and is still the head of the queue afterwards. *)
Lemma complete_failure_reports_head (controller : list obs -> hal_call -> Z)
      (st : udc_state) (ep len : Z) (res : usbd_xfer_result_t) (buf : net_buf)
      (q : list net_buf) :
  res <> USBD_XFER_RESULT_SUCCESS ->
  fifo (eps st ep) = buf :: q ->
  let st' := udc_event_xfer_complete controller st
               (hal_msg (xfer_complete_evt ep res len)) in
  trace st' = trace st ++ [Up (EpRequest [buf] (- EIO))] /\
  fifo (eps st' ep) = buf :: q /\
  stat_busy (eps st' ep) = false.
Proof.
  intros Hr Hq st'. subst st'.
  unfold udc_event_xfer_complete, udc_buf_peek, udc_ep_set_busy. simpl.
  rewrite upd_ep_same. simpl. rewrite Hq. simpl.
  destruct res; [contradiction| | |]; simpl; rewrite upd_ep_same; simpl;
    rewrite Hq; repeat split; reflexivity.
Qed.



(** C3 at a failing input: a transfer is in flight on endpoint 0x81 and the
    Controller reports it failed.  The worker clears busy and reports the
    buffer with -EIO, but the buffer is still queued on the endpoint. *)
Theorem failed_completion_keeps_head :
  let st' := run controller_ok 8
                 [Isr (xfer_complete_evt 129 USBD_XFER_RESULT_FAILED 0); Worker]
                 st_in_flight in
  fifo (eps st_in_flight 129) = [buf_in_a] /\
  upstream (trace st') = [EpRequest [buf_in_a] (- EIO)] /\
  stat_busy (eps st' 129) = false /\
  fifo (eps st' 129) = [buf_in_a].
Proof. vm_compute. repeat split; reflexivity. Qed.



Lemma status_in_empty_queue_ignored_witness :
  udc_event_status_in controller_ok (init_state []) = init_state [].
Proof.
  exact (proj1 (status_in_empty_queue_ignored controller_ok (init_state [])
                                              eq_refl)).
Defined.

Lemma control_ep_enable_disable_noop_witness :
  udc_renesas_ra_ep_enable controller_ok st_two_out 128 = (0, st_two_out) /\
  udc_renesas_ra_ep_disable controller_ok st_two_out 0 = (0, st_two_out).
Proof.
  split.
  - exact (proj1 (control_ep_enable_disable_noop controller_ok st_two_out 128
                                                 eq_refl)).
  - exact (proj2 (control_ep_enable_disable_noop controller_ok st_two_out 0
                                                 eq_refl)).
Defined.


(** *** The busy flag *)

Lemma xfer_outstanding_snoc (ep : Z) (t : list obs) (o : obs) :
  xfer_outstanding ep (t ++ [o]) = track ep (xfer_outstanding ep t) o.
Proof. unfold xfer_outstanding. rewrite fold_left_app. reflexivity. Qed.

Lemma quiet_refl (st : udc_state) : quiet st st.
Proof. split; auto. Qed.

Lemma quiet_same (st x x' : udc_state) :
  trace x' = trace x ->
  (forall ep, stat_busy (eps x' ep) = true -> stat_busy (eps x ep) = true) ->
  quiet st x -> quiet st x'.
Proof.
  intros Ht Hb [H1 H2]. split; intros ep H; rewrite Ht.
  - auto.
  - apply H2. auto.
Qed.

Lemma quiet_emit (st x : udc_state) (o : obs) :
  (forall e, o <> Got e) -> quiet st x -> quiet st (emit x o).
Proof.
  intros Ho [H1 H2].
  assert (Hm : forall ep, xfer_outstanding ep (trace x) = true ->
                          xfer_outstanding ep (trace (emit x o)) = true).
  { intros ep H. simpl. rewrite xfer_outstanding_snoc, H.
    destruct o as [c r| | |e]; simpl;
      [|reflexivity|reflexivity|exfalso; eapply Ho; reflexivity].
    destruct c; try reflexivity.
    destruct ((ep0 =? ep) && (r =? FSP_SUCCESS)); reflexivity. }
  split; intros ep H.
  - auto.
  - destruct (H2 ep H); auto.
Qed.

Lemma quiet_fifo (st x : udc_state) (ep : Z) (q : list net_buf) :
  quiet st x ->
  quiet st (with_eps x (upd_ep (eps x) ep (set_fifo (eps x ep) q))).
Proof.
  apply quiet_same; [reflexivity|]. intros a. simpl. unfold upd_ep.
  destruct (a =? ep) eqn:E; [|auto]. apply Z.eqb_eq in E. subst. auto.
Qed.

Lemma quiet_busy_false (st x : udc_state) (ep : Z) :
  quiet st x -> quiet st (udc_ep_set_busy x ep false).
Proof.
  apply quiet_same; [reflexivity|]. intros a. simpl. unfold upd_ep.
  destruct (a =? ep); [discriminate|auto].
Qed.

Lemma quiet_started (st x : udc_state) (ep : Z) (d : option Z) (l r : Z) :
  (r =? FSP_SUCCESS) = true ->
  quiet st x ->
  quiet st (udc_ep_set_busy (emit x (Hal (R_USBD_XferStart ep d l) r)) ep true).
Proof.
  intros Hr Hx.
  assert (Hq : quiet st (emit x (Hal (R_USBD_XferStart ep d l) r)))
    by (apply quiet_emit; [discriminate|exact Hx]).
  destruct Hq as [H1 H2]. split; [exact H1|].
  intros a. simpl. unfold upd_ep. destruct (Z.eqb_spec a ep) as [->|Hne].
  - intros _. right. rewrite xfer_outstanding_snoc. simpl.
    rewrite Z.eqb_refl, Hr. reflexivity.
  - intro H. apply (H2 a). exact H.
Qed.

Lemma quiet_field (st x : udc_state) :
  quiet st x ->
  (forall s, quiet st (with_stage x s)) /\
  (forall p, quiet st (with_pool x p)) /\
  (forall q, quiet st (with_msgq x q)) /\
  (forall l, quiet st (with_irq x l)).
Proof.
  intro H.
  repeat split; intros; apply (quiet_same st x); auto.
Qed.

(** Reduce a handler to the primitive updates, split its branches and
    discharge each by the lemmas above. *)
Ltac quiet_prims :=
  repeat first
    [ apply quiet_refl
    | assumption
    | apply quiet_started; [assumption|]
    | apply quiet_emit; [discriminate|]
    | apply quiet_fifo
    | apply quiet_busy_false
    | apply quiet_field ].

Ltac split_branches :=
  repeat match goal with
    | |- context [match fifo ?c with _ => _ end] => destruct (fifo c)
    | |- context [match pool ?s with _ => _ end] => destruct (pool s)
    | |- context [negb (?r =? FSP_SUCCESS)] =>
        let E := fresh "Hres" in
        destruct (r =? FSP_SUCCESS) eqn:E; cbv beta iota zeta delta [negb]
    | |- context [if ?b then _ else _] => destruct b
    | |- context [match ?r with USBD_XFER_RESULT_SUCCESS => _ | _ => _ end] =>
        destruct r
    end; cbv beta iota zeta delta [negb].

Ltac unfold_handlers :=
  unfold udc_event_xfer_complete, udc_event_status_in, udc_event_xfer_setup,
    udc_event_xfer_ctrl_in, udc_event_xfer_ctrl_out, usbd_ctrl_feed_dout,
    udc_event_xfer_next, udc_renesas_ra_ep_dequeue, irq_lock, irq_unlock,
    udc_ctrl_submit_status, udc_ctrl_submit_s_in_status,
    udc_ctrl_submit_s_status, udc_ctrl_submit_s_out_status,
    udc_ctrl_update_stage, udc_submit_ep_event, udc_submit_event,
    udc_ctrl_alloc, net_buf_unref, udc_buf_put, udc_buf_get, udc_buf_get_all,
    udc_buf_peek, set_head, hal_do, hd_error, snd, fst;
  cbv beta iota zeta.

Section BusyFlag.

Variable controller : list obs -> hal_call -> Z.
Variable CONFIG_UDC_RENESAS_RA_MAX_QMESSAGES : nat.

Lemma quiet_xfer_next (st x : udc_state) (ep : Z) :
  quiet st x -> quiet st (udc_event_xfer_next controller x ep).
Proof. intro H. unfold_handlers. split_branches; quiet_prims. Qed.

Lemma quiet_setup (st x : udc_state) (e : udc_renesas_ra_evt) :
  quiet st x -> quiet st (snd (udc_event_xfer_setup controller x e)).
Proof. intro H. unfold_handlers. split_branches; quiet_prims. Qed.

Lemma quiet_status_in (st x : udc_state) :
  quiet st x -> quiet st (udc_event_status_in controller x).
Proof. intro H. unfold_handlers. split_branches; quiet_prims. Qed.

Lemma quiet_complete (st x : udc_state) (e : udc_renesas_ra_evt) :
  quiet st (udc_ep_set_busy x (xc_ep_addr (xfer_complete (evt_hal_evt e))) false) ->
  quiet st (udc_event_xfer_complete controller x e).
Proof. intro H. unfold_handlers. split_branches; quiet_prims. Qed.

Lemma quiet_dequeue (st x : udc_state) (addr : Z) :
  quiet st x -> quiet st (snd (udc_renesas_ra_ep_dequeue controller x addr)).
Proof. intro H. unfold_handlers. split_branches; quiet_prims. Qed.

Lemma busy_sound_quiet (st st' : udc_state) :
  busy_sound st -> quiet st st' -> busy_sound st'.
Proof.
  intros Hs [H1 H2] ep Hb. destruct (H2 ep Hb) as [H|H]; auto.
Qed.

Lemma busy_sound_got (st : udc_state) (e : udc_renesas_ra_evt) :
  busy_sound st ->
  (forall ep, is_complete_for ep e = true -> stat_busy (eps st ep) = false) ->
  busy_sound (emit st (Got e)).
Proof.
  intros Hs Hc ep Hb. simpl in *. rewrite xfer_outstanding_snoc. simpl.
  destruct (is_complete_for ep e) eqn:E.
  - rewrite (Hc ep E) in Hb. discriminate Hb.
  - apply Hs. exact Hb.
Qed.

Lemma busy_sound_worker (st : udc_state) :
  busy_sound st ->
  forall st', renesas_ra_thread_step controller st = Some st' -> busy_sound st'.
Proof.
  intros Hs st'. unfold renesas_ra_thread_step, k_msgq_get.
  destruct (drv_msgq st) as [|e q]; [discriminate|].
  intro E. inversion E; subst; clear E.
  assert (Hs0 : busy_sound (with_msgq st q)) by exact Hs.
  destruct (evt_type e) eqn:Ety.
  - destruct (event_id (evt_hal_evt e)) eqn:Eid;
      try (apply busy_sound_got; [exact Hs0|];
           intros ep Hc; unfold is_complete_for in Hc;
           rewrite Ety, Eid in Hc; discriminate Hc).
    + eapply busy_sound_quiet; [|apply quiet_setup; apply quiet_refl].
      apply busy_sound_got; [exact Hs0|].
      intros ep Hc. unfold is_complete_for in Hc.
      rewrite Ety, Eid in Hc. discriminate Hc.
    + eapply busy_sound_quiet; [|apply quiet_complete; apply quiet_refl].
      intros ep Hb. simpl in Hb. simpl. rewrite xfer_outstanding_snoc. simpl.
      unfold is_complete_for. rewrite Ety, Eid.
      unfold upd_ep in Hb. rewrite Z.eqb_sym.
      destruct (ep =? xc_ep_addr (xfer_complete (evt_hal_evt e)));
        [discriminate Hb|].
      apply Hs. exact Hb.
  - eapply busy_sound_quiet; [|apply quiet_xfer_next; apply quiet_refl].
    apply busy_sound_got; [exact Hs0|].
    intros ep Hc. unfold is_complete_for in Hc. rewrite Ety in Hc. discriminate Hc.
  - eapply busy_sound_quiet; [|apply quiet_status_in; apply quiet_refl].
    apply busy_sound_got; [exact Hs0|].
    intros ep Hc. unfold is_complete_for in Hc. rewrite Ety in Hc. discriminate Hc.
Qed.

Lemma busy_sound_put (st : udc_state) (evt : udc_renesas_ra_evt) (r : Z)
      (st' : udc_state) :
  busy_sound st ->
  k_msgq_put CONFIG_UDC_RENESAS_RA_MAX_QMESSAGES st evt K_NO_WAIT = Some (r, st') ->
  busy_sound st'.
Proof.
  intros Hs. unfold k_msgq_put.
  destruct (length (drv_msgq st) <? CONFIG_UDC_RENESAS_RA_MAX_QMESSAGES)%nat;
    intro E; inversion E; subst;
    (eapply busy_sound_quiet; [exact Hs|]);
    (apply quiet_emit; [discriminate|]);
    try apply quiet_field; apply quiet_refl.
Qed.

Lemma busy_sound_step (st : udc_state) (a : action) :
  busy_sound st ->
  busy_sound (step controller CONFIG_UDC_RENESAS_RA_MAX_QMESSAGES st a).
Proof.
  intro Hs. destruct a as [e| |addr buf|addr]; simpl.
  - unfold udc_renesas_ra_event_handler.
    destruct (k_msgq_put _ st (mk_evt UDC_RENESAS_RA_EVT_HAL e 0) K_NO_WAIT)
      as [[r s']|] eqn:Ep.
    + pose proof (busy_sound_put _ _ _ _ Hs Ep) as Hs'.
      destruct (event_id e); try exact Hs';
        (eapply busy_sound_quiet; [exact Hs|]; unfold udc_submit_event;
         apply quiet_emit; [discriminate|apply quiet_refl]).
    + destruct (event_id e); try exact Hs;
        (eapply busy_sound_quiet; [exact Hs|]; unfold udc_submit_event;
         apply quiet_emit; [discriminate|apply quiet_refl]).
  - destruct (renesas_ra_thread_step controller st) as [st'|] eqn:E; [|exact Hs].
    eapply busy_sound_worker; eassumption.
  - unfold udc_renesas_ra_ep_enqueue.
    match goal with
    | |- context [k_msgq_put ?m ?s ?e K_NO_WAIT] =>
        destruct (k_msgq_put m s e K_NO_WAIT) as [[r s']|] eqn:Ep
    end; [|exact Hs].
    eapply busy_sound_put; [|exact Ep].
    eapply busy_sound_quiet; [exact Hs|]. unfold udc_buf_put.
    apply quiet_fifo. apply quiet_refl.
  - eapply busy_sound_quiet; [exact Hs|]. apply quiet_dequeue. apply quiet_refl.
Qed.

Lemma busy_sound_run (acts : list action) (st : udc_state) :
  busy_sound st ->
  busy_sound (run controller CONFIG_UDC_RENESAS_RA_MAX_QMESSAGES acts st).
Proof.
  revert st. induction acts as [|a acts IH]; intros st Hs; [exact Hs|].
  simpl. apply IH. apply busy_sound_step. exact Hs.
Qed.

(** C5 (amended): in every state the driver reaches from its initial state,
    whatever the Controller, the upper stack and the worker do, an endpoint
    whose busy flag is set has a transfer outstanding: the Controller has
    accepted a [R_USBD_XferStart] for it and the worker has not taken a
    transfer-complete event for it since. *)
Theorem busy_implies_outstanding (acts : list action) (free : list Z) (ep : Z) :
  stat_busy (eps (run controller CONFIG_UDC_RENESAS_RA_MAX_QMESSAGES acts
                      (init_state free)) ep) = true ->
  xfer_outstanding ep
    (trace (run controller CONFIG_UDC_RENESAS_RA_MAX_QMESSAGES acts
                (init_state free))) = true.
Proof.
  apply (busy_sound_run acts (init_state free)).
  intros a Hb. discriminate Hb.
Qed.

End BusyFlag.

(** C5, as stated, fails: once the data stage of a control write is armed,
    the Controller has accepted a transfer on the control-OUT endpoint and
    no completion has been processed, yet the endpoint is not busy. *)
Lemma armed_control_out_not_busy :
  xfer_outstanding USB_CONTROL_EP_OUT (trace st_ctrl_write) = true /\
  stat_busy (eps st_ctrl_write USB_CONTROL_EP_OUT) = false /\
  ~ busy_iff_outstanding st_ctrl_write.
Proof.
  split; [reflexivity|]. split; [reflexivity|].
  intro H. specialize (H USB_CONTROL_EP_OUT). vm_compute in H. discriminate H.
Qed.

Lemma busy_implies_outstanding_witness :
  xfer_outstanding 129 (trace st_in_flight) = true.
Proof.
  exact (busy_implies_outstanding controller_ok 8
           [Enqueue 129 buf_in_a; Worker] [] 129 eq_refl).
Defined.

(** *** Ownership of a queued buffer *)

(** C1, as stated, fails: in a control read the IN data buffer the upper
    stack enqueued on the control-IN endpoint is sent, taken off the queue
    and released by the driver; by the end of the transfer (stage back at
    SETUP, nothing queued, no message pending) it has not been handed
    upstream at all. *)
Lemma ctrl_in_data_buffer_never_reported :
  fifo (eps st_ctrl_read_done 128) = [] /\
  drv_msgq st_ctrl_read_done = [] /\
  stage st_ctrl_read_done = CTRL_PIPE_STAGE_SETUP /\
  delivered (nb_id buf_ctrl_in) (trace st_ctrl_read_done) = 0%nat /\
  ~ reported_exactly_once st_ctrl_read_done 128 buf_ctrl_in.
Proof.
  repeat (split; [reflexivity|]).
  intros [_ H]. specialize (H eq_refl). vm_compute in H. discriminate H.
Qed.

Lemma delivered_snoc_up (i : Z) (t : list obs) (e : udc_event) :
  delivered i (t ++ [Up e]) =
    (delivered i t + count_occ Z.eq_dec (reported_ids e) i)%nat.
Proof.
  unfold delivered. rewrite upstream_app, flat_map_app, count_occ_app.
  simpl. rewrite app_nil_r. reflexivity.
Qed.

Lemma delivered_snoc_other (i : Z) (t : list obs) (o : obs) :
  (forall e, o <> Up e) -> delivered i (t ++ [o]) = delivered i t.
Proof.
  intro H. unfold delivered. rewrite upstream_app.
  destruct o; simpl; try (rewrite app_nil_r; reflexivity).
  exfalso. eapply H. reflexivity.
Qed.

Lemma terminal_snoc_other (i : Z) (t : list obs) (o : obs) :
  (forall e, o <> Up e) -> terminal_only i t -> terminal_only i (t ++ [o]).
Proof.
  intros H Ht. unfold terminal_only. rewrite upstream_app.
  destruct o; simpl; try (rewrite app_nil_r; exact Ht).
  exfalso. eapply H. reflexivity.
Qed.

Lemma terminal_snoc_clean (i : Z) (t : list obs) (e : udc_event) :
  ~ In i (reported_ids e) -> terminal_only i t ->
  terminal_only i (t ++ [Up e]).
Proof.
  intros H Ht. unfold terminal_only. rewrite upstream_app.
  apply Forall_app. split; [exact Ht|].
  constructor; [|constructor]. intro Hin. contradiction.
Qed.

Lemma terminal_snoc_report (i : Z) (t : list obs) (chain : list net_buf)
      (err : Z) :
  err = 0 \/ err = - ECONNABORTED -> terminal_only i t ->
  terminal_only i (t ++ [Up (EpRequest chain err)]).
Proof.
  intros H Ht. unfold terminal_only. rewrite upstream_app.
  apply Forall_app. split; [exact Ht|].
  constructor; [|constructor]. intros _. exists chain, err. auto.
Qed.

Lemma count_occ_zero (l : list Z) (i : Z) :
  ~ In i l -> count_occ Z.eq_dec l i = 0%nat.
Proof. apply count_occ_not_In. Qed.

Section Ownership.

Variables i a : Z.


Lemma kept_same (y y' : udc_state) (n : nat) :
  eps y' = eps y -> pool y' = pool y -> delivered i (trace y') = delivered i (trace y) ->
  (terminal_only i (trace y) -> terminal_only i (trace y')) ->
  kept i a y n -> kept i a y' n.
Proof.
  intros He Hp Hd Ht [[[Ho Hpl] Hb] Hter].
  unfold kept, others_clean, balance, queued in *.
  rewrite He, Hp, Hd. auto.
Qed.

Lemma kept_emit_hal (y : udc_state) (n : nat) (c : hal_call) (r : Z) :
  kept i a y n -> kept i a (emit y (Hal c r)) n.
Proof.
  apply kept_same; try reflexivity; simpl.
  - apply delivered_snoc_other. discriminate.
  - apply terminal_snoc_other. discriminate.
Qed.

Lemma kept_emit_got (y : udc_state) (n : nat) (e : udc_renesas_ra_evt) :
  kept i a y n -> kept i a (emit y (Got e)) n.
Proof.
  apply kept_same; try reflexivity; simpl.
  - apply delivered_snoc_other. discriminate.
  - apply terminal_snoc_other. discriminate.
Qed.

Lemma kept_emit_put (y : udc_state) (n : nat) (e : udc_renesas_ra_evt) (r : Z) :
  kept i a y n -> kept i a (emit y (Put e r)) n.
Proof.
  apply kept_same; try reflexivity; simpl.
  - apply delivered_snoc_other. discriminate.
  - apply terminal_snoc_other. discriminate.
Qed.

Lemma kept_emit_up (y : udc_state) (n : nat) (e : udc_event) :
  ~ In i (reported_ids e) -> kept i a y n -> kept i a (emit y (Up e)) n.
Proof.
  intro Hn. apply kept_same; try reflexivity; simpl.
  - rewrite delivered_snoc_up, (count_occ_zero _ _ Hn). lia.
  - apply terminal_snoc_clean. exact Hn.
Qed.

Lemma kept_stage (y : udc_state) (n : nat) (s : ctrl_stage) :
  kept i a y n -> kept i a (with_stage y s) n.
Proof. apply kept_same; try reflexivity. exact (fun H => H). Qed.

Lemma kept_msgq (y : udc_state) (n : nat) (q : list udc_renesas_ra_evt) :
  kept i a y n -> kept i a (with_msgq y q) n.
Proof. apply kept_same; try reflexivity. exact (fun H => H). Qed.

Lemma kept_irq (y : udc_state) (n : nat) (l : bool) :
  kept i a y n -> kept i a (with_irq y l) n.
Proof. apply kept_same; try reflexivity. exact (fun H => H). Qed.

Lemma kept_pool (y : udc_state) (n : nat) (p : list Z) :
  ~ In i p -> kept i a y n -> kept i a (with_pool y p) n.
Proof.
  intros Hp [[[Ho _] Hb] Ht]. split; [split; [split|]|]; assumption.
Qed.

Lemma kept_unref (y : udc_state) (n : nat) (buf : net_buf) :
  nb_id buf <> i -> kept i a y n -> kept i a (net_buf_unref y buf) n.
Proof.
  intros Hb [[[Ho Hp] Hn] Ht].
  apply kept_pool; [|split; [split; [split|]|]; assumption].
  intro Hin. apply in_app_or in Hin. destruct Hin as [Hin|[Hin|[]]]; auto.
Qed.

(** Replacing the queue of an endpoint by one that holds the buffer as
    often as before. *)
Lemma kept_fifo (y : udc_state) (n : nat) (ep : Z) (q : list net_buf) :
  count_occ Z.eq_dec (ids q) i = count_occ Z.eq_dec (ids (fifo (eps y ep))) i ->
  kept i a y n ->
  kept i a (with_eps y (upd_ep (eps y) ep (set_fifo (eps y ep) q))) n.
Proof.
  intros Hc [[[Ho Hp] Hn] Ht].
  unfold kept, others_clean, balance, queued in *. simpl.
  split; [split; [split|]|exact Ht].
  - intros e He. unfold upd_ep. destruct (Z.eqb_spec e ep) as [->|Hne].
    + simpl. intro Hin. apply (Ho ep He).
      apply (count_occ_In Z.eq_dec). rewrite <- Hc.
      apply (count_occ_In Z.eq_dec). exact Hin.
    + apply Ho. exact He.
  - exact Hp.
  - unfold upd_ep. destruct (Z.eqb_spec a ep) as [->|Hne].
    + simpl. rewrite Hc. exact Hn.
    + exact Hn.
Qed.

Lemma kept_busy (y : udc_state) (n : nat) (ep : Z) (b : bool) :
  kept i a y n -> kept i a (udc_ep_set_busy y ep b) n.
Proof.
  intros [[[Ho Hp] Hn] Ht].
  unfold kept, others_clean, balance, queued in *. simpl.
  assert (Hf : forall e, fifo (upd_ep (eps y) ep (set_busy (eps y ep) b) e) =
                         fifo (eps y e)).
  { intro e. unfold upd_ep. destruct (Z.eqb_spec e ep) as [->|]; reflexivity. }
  split; [split; [split|]|exact Ht].
  - intros e He. rewrite Hf. apply Ho. exact He.
  - exact Hp.
  - rewrite Hf. exact Hn.
Qed.

Lemma kept_put (y : udc_state) (n : nat) (ep : Z) (buf : net_buf) :
  nb_id buf <> i -> kept i a y n -> kept i a (udc_buf_put y ep buf) n.
Proof.
  intro Hb. unfold udc_buf_put. apply kept_fifo.
  unfold ids. rewrite map_app, count_occ_app. simpl.
  destruct (Z.eq_dec (nb_id buf) i); [contradiction|lia].
Qed.

Lemma kept_set_head (y : udc_state) (n : nat) (ep : Z) (buf buf' : net_buf)
      (q : list net_buf) :
  fifo (eps y ep) = buf :: q -> nb_id buf' = nb_id buf ->
  kept i a y n -> kept i a (set_head y ep buf') n.
Proof.
  intros Hf Hid. unfold set_head. apply kept_fifo.
  rewrite Hf. simpl. rewrite Hid. reflexivity.
Qed.

(** Taking buffers off the front of a queue and handing exactly those
    upstream in one event. *)
Lemma kept_take_report (y : udc_state) (n : nat) (ep : Z)
      (front front' rest : list net_buf) (err : Z) :
  err = 0 \/ err = - ECONNABORTED ->
  fifo (eps y ep) = front ++ rest -> ids front' = ids front ->
  kept i a y n ->
  kept i a (emit (with_eps y (upd_ep (eps y) ep (set_fifo (eps y ep) rest)))
             (Up (EpRequest front' err))) n.
Proof.
  intros Herr Hf Hid [[[Ho Hp] Hn] Ht].
  unfold kept, others_clean, balance, queued in *.
  simpl. rewrite delivered_snoc_up. simpl. fold (ids front'). rewrite Hid.
  assert (Hids : ids (fifo (eps y ep)) = ids front ++ ids rest).
  { rewrite Hf. unfold ids. apply map_app. }
  split; [split; [split|]|apply terminal_snoc_report; assumption].
  - intros e He. unfold upd_ep. destruct (Z.eqb_spec e ep) as [->|Hne].
    + simpl. intro Hin. apply (Ho ep He). rewrite Hids.
      apply in_or_app. right. exact Hin.
    + apply Ho. exact He.
  - exact Hp.
  - unfold upd_ep. destruct (Z.eqb_spec a ep) as [->|Hne].
    + simpl. rewrite Hids, count_occ_app in Hn. lia.
    + assert (Hz : count_occ Z.eq_dec (ids front) i = 0%nat).
      { apply count_occ_zero. intro Hin. apply (Ho ep).
        - intro E. apply Hne. symmetry. exact E.
        - rewrite Hids. apply in_or_app. left. exact Hin. }
      rewrite Hz. lia.
Qed.

End Ownership.

Section OwnershipHandlers.

Variable controller : list obs -> hal_call -> Z.
Variable CONFIG_UDC_RENESAS_RA_MAX_QMESSAGES : nat.
Variables i a : Z.

Hypothesis a_not_ctrl_out : a <> USB_CONTROL_EP_OUT.
Hypothesis a_not_ctrl_in : a <> USB_CONTROL_EP_IN.
Hypothesis starts_accepted :
  forall t d l, controller t (R_USBD_XferStart a d l) = FSP_SUCCESS.

Lemma clean_head (y : udc_state) (n : nat) (ep : Z) (buf : net_buf)
      (q : list net_buf) :
  kept i a y n -> ep <> a -> fifo (eps y ep) = buf :: q ->
  nb_id buf <> i /\ ~ In i (ids q).
Proof.
  intros [[[Ho _] _] _] He Hf. specialize (Ho ep He). rewrite Hf in Ho.
  simpl in Ho.
  split; intro H; apply Ho; auto.
Qed.

Lemma clean_pool (y : udc_state) (n : nat) (z : Z) (p : list Z) :
  kept i a y n -> pool y = z :: p -> z <> i /\ ~ In i p.
Proof.
  intros [[[_ Hp] _] _] He. rewrite He in Hp. simpl in Hp.
  split; intro H; apply Hp; auto.
Qed.

Lemma kept_fifo_clean (y : udc_state) (n : nat) (ep : Z) (q : list net_buf) :
  ep <> a -> ~ In i (ids q) -> kept i a y n ->
  kept i a (with_eps y (upd_ep (eps y) ep (set_fifo (eps y ep) q))) n.
Proof.
  intros He Hq Hk. apply kept_fifo; [|exact Hk].
  rewrite (count_occ_zero _ _ Hq). symmetry. apply count_occ_zero.
  destruct Hk as [[[Ho _] _] _]. apply Ho. exact He.
Qed.

Ltac reduce_pairs := cbv beta iota zeta delta [snd fst negb hal_do].

Lemma kept_feed_dout (y : udc_state) (n : nat) (len : Z) :
  kept i a y n -> kept i a (snd (usbd_ctrl_feed_dout controller y len)) n.
Proof.
  intro Hk. unfold usbd_ctrl_feed_dout, udc_ctrl_alloc.
  destruct (pool y) as [|z p] eqn:Hp; [exact Hk|].
  destruct (clean_pool y n z p Hk Hp) as [Hz Hnp].
  reduce_pairs. case_result; reduce_pairs;
    apply kept_emit_hal; (apply kept_put; [exact Hz|]);
    (apply kept_pool; [exact Hnp|]); exact Hk.
Qed.

Lemma kept_ctrl_in (y : udc_state) (n : nat) (buf : net_buf) :
  nb_id buf <> i -> kept i a y n ->
  kept i a (udc_event_xfer_ctrl_in controller y buf) n.
Proof.
  intros Hb Hk. unfold udc_event_xfer_ctrl_in.
  assert (Hk1 : kept i a
                  (if udc_ctrl_stage_is_status_in y || udc_ctrl_stage_is_no_data y
                   then udc_ctrl_submit_status y buf else y) n).
  { destruct (udc_ctrl_stage_is_status_in y || udc_ctrl_stage_is_no_data y);
      [|exact Hk].
    apply kept_emit_up; [|exact Hk]. simpl. intros [H|[]]. contradiction. }
  cbv zeta.
  match goal with
  | |- context [if ?c then _ else _] => destruct c
  end.
  - apply kept_unref; [exact Hb|]. apply kept_feed_dout.
    apply kept_stage. exact Hk1.
  - apply kept_stage. exact Hk1.
Qed.

Lemma kept_ctrl_out (y : udc_state) (n : nat) (buf : net_buf) (len : Z) :
  nb_id buf <> i -> kept i a y n ->
  kept i a (udc_event_xfer_ctrl_out y buf len) n.
Proof.
  intros Hb Hk. unfold udc_event_xfer_ctrl_out. cbv zeta.
  assert (Hk1 : kept i a
                  (if udc_ctrl_stage_is_status_out y
                   then udc_ctrl_submit_status y (net_buf_add buf len) else y) n).
  { destruct (udc_ctrl_stage_is_status_out y); [|exact Hk].
    apply kept_emit_up; [|exact Hk]. simpl. intros [H|[]]. contradiction. }
  match goal with
  | |- context [if ?c then _ else _] => destruct c
  end.
  - simpl. apply kept_emit_up; [simpl; intros [H|[]]; contradiction|].
    apply kept_stage. exact Hk1.
  - apply kept_stage. exact Hk1.
Qed.

Lemma kept_status_in (y : udc_state) (n : nat) :
  kept i a y n -> kept i a (udc_event_status_in controller y) n.
Proof.
  intro Hk. unfold udc_event_status_in, udc_buf_get.
  destruct (fifo (eps y USB_CONTROL_EP_IN)) as [|buf q] eqn:Hf; [exact Hk|].
  assert (Hne : USB_CONTROL_EP_IN <> a) by (intro E; apply a_not_ctrl_in; auto).
  destruct (clean_head y n _ buf q Hk Hne Hf) as [Hb Hq].
  apply kept_ctrl_in; [exact Hb|]. reduce_pairs. apply kept_emit_hal.
  apply kept_fifo_clean; assumption.
Qed.

Lemma kept_setup (y : udc_state) (n : nat) (e : udc_renesas_ra_evt) :
  kept i a y n -> kept i a (snd (udc_event_xfer_setup controller y e)) n.
Proof.
  intro Hk. unfold udc_event_xfer_setup, udc_ctrl_alloc.
  destruct (pool y) as [|z p] eqn:Hp; [exact Hk|].
  destruct (clean_pool y n z p Hk Hp) as [Hz Hnp].
  cbv zeta.
  assert (Hk2 : forall buf, kept i a (udc_ctrl_update_stage (with_pool y p) buf) n).
  { intro buf. apply kept_stage. apply kept_pool; assumption. }
  match goal with
  | |- context [udc_ctrl_update_stage (with_pool y p) ?b] =>
      specialize (Hk2 b); set (buf := b) in *
  end.
  destruct (udc_ctrl_stage_is_data_out _).
  - pose proof (kept_feed_dout _ n (udc_data_stage_length buf) Hk2) as Hk3.
    destruct (usbd_ctrl_feed_dout controller _ _) as [err st3]. simpl in Hk3.
    destruct (err =? - ENOMEM); [|exact Hk3].
    simpl. apply kept_emit_up; [|exact Hk3].
    simpl. intros [H|[]]. contradiction.
  - destruct (udc_ctrl_stage_is_data_in _); simpl;
      (apply kept_emit_up; [simpl; tauto|exact Hk2]).
Qed.

Lemma kept_xfer_next (y : udc_state) (n : nat) (ep : Z) :
  kept i a y n -> kept i a (udc_event_xfer_next controller y ep) n.
Proof.
  intro Hk. unfold udc_event_xfer_next, udc_buf_peek.
  destruct (udc_ep_is_busy y ep); [exact Hk|].
  destruct (fifo (eps y ep)) as [|buf q] eqn:Hf; [exact Hk|]. simpl.
  destruct (USB_EP_DIR_IS_IN ep); reduce_pairs; case_result; reduce_pairs;
    try (apply kept_busy; apply kept_emit_hal; exact Hk);
    (unfold udc_submit_ep_event; reduce_pairs;
     apply kept_emit_up; [|apply kept_emit_hal; exact Hk];
     destruct (Z.eq_dec ep a) as [->|Hne];
     [rewrite starts_accepted in Hres; discriminate Hres|];
     destruct (clean_head y n ep buf q Hk Hne Hf) as [Hb _];
     simpl; intros [H|[]]; contradiction).
Qed.

Lemma kept_complete (y : udc_state) (n : nat) (e : udc_renesas_ra_evt) :
  ~ failed_on a
      (mk_hal_evt USBD_EVENT_XFER_COMPLETE (setup_received (evt_hal_evt e))
                  (xfer_complete (evt_hal_evt e))) ->
  kept i a y n -> kept i a (udc_event_xfer_complete controller y e) n.
Proof.
  intros Hok Hk. unfold udc_event_xfer_complete, udc_buf_peek, udc_buf_get.
  cbv zeta.
  set (ep := xc_ep_addr (xfer_complete (evt_hal_evt e))) in *.
  pose proof (kept_busy i a y n ep false Hk) as Hk1.
  set (y1 := udc_ep_set_busy y ep false) in *.
  assert (Hf1 : fifo (eps y1 ep) = fifo (eps y ep)).
  { unfold y1. simpl. rewrite upd_ep_same. reflexivity. }
  destruct (fifo (eps y1 ep)) as [|buf q] eqn:Hf; [exact Hk1|]. simpl.
  assert (Hother : ep <> a -> nb_id buf <> i).
  { intro Hne. apply (clean_head y1 n ep buf q Hk1 Hne Hf). }
  assert (Herr : forall (s : udc_state) (b : net_buf),
             nb_id b = nb_id buf -> ep <> a -> kept i a s n ->
             kept i a (snd (udc_submit_ep_event s [b] (- EIO))) n).
  { intros s b Hid Hne Hs. simpl. apply kept_emit_up; [|exact Hs].
    simpl. rewrite Hid. intros [H|[]]. exact (Hother Hne H). }
  destruct (xc_result (xfer_complete (evt_hal_evt e))) eqn:Hr;
    try (apply Herr; [reflexivity| |exact Hk1];
         intro E; apply Hok; repeat split;
         [exact E|simpl; rewrite Hr; discriminate]).
  destruct (USB_EP_DIR_IS_IN ep && udc_ep_buf_has_zlp buf).
  - reduce_pairs.
    assert (Hk2 : kept i a (set_head y1 ep (udc_ep_buf_clear_zlp buf)) n).
    { eapply kept_set_head; [exact Hf|reflexivity|exact Hk1]. }
    case_result; reduce_pairs.
    + apply kept_emit_hal. exact Hk2.
    + apply Herr; [reflexivity| |apply kept_emit_hal; exact Hk2].
      intro E. unfold ep in *. rewrite E, starts_accepted in Hres.
      discriminate Hres.
  - destruct (Z.eqb_spec ep USB_CONTROL_EP_IN) as [Ei|Ei].
    + assert (Hne : ep <> a) by (rewrite Ei; auto).
      destruct (clean_head y1 n ep buf q Hk1 Hne Hf) as [Hb Hq].
      apply kept_ctrl_in; [exact Hb|]. apply kept_fifo_clean; assumption.
    + destruct (Z.eqb_spec ep USB_CONTROL_EP_OUT) as [Eo|Eo].
      * assert (Hne : ep <> a) by (rewrite Eo; auto).
        destruct (clean_head y1 n ep buf q Hk1 Hne Hf) as [Hb Hq].
        apply kept_ctrl_out; [exact Hb|]. apply kept_fifo_clean; assumption.
      * simpl. apply (kept_take_report i a y1 n ep [buf]);
          [left; reflexivity|exact Hf| |exact Hk1].
        destruct (USB_EP_DIR_IS_OUT ep); reflexivity.
Qed.

Lemma kept_dequeue (y : udc_state) (n : nat) (addr : Z) :
  kept i a y n -> kept i a (snd (udc_renesas_ra_ep_dequeue controller y addr)) n.
Proof.
  intro Hk. unfold udc_renesas_ra_ep_dequeue, irq_lock, irq_unlock, udc_buf_get_all.
  reduce_pairs. pose proof (kept_irq i a y n true Hk) as Hk0.
  assert (Hf0 : fifo (eps (with_irq y true) addr) = fifo (eps y addr)) by reflexivity.
  destruct (fifo (eps (with_irq y true) addr)) as [|buf q] eqn:Hf; reduce_pairs.
  - case_result; reduce_pairs;
      [apply kept_irq; apply kept_busy|]; apply kept_emit_hal; exact Hk0.
  - assert (Hk1 : kept i a
                    (emit (with_eps (with_irq y true)
                             (upd_ep (eps (with_irq y true)) addr
                                (set_fifo (eps (with_irq y true) addr) [])))
                          (Up (EpRequest (buf :: q) (- ECONNABORTED)))) n).
    { apply (kept_take_report i a (with_irq y true) n addr (buf :: q));
        [right; reflexivity|rewrite app_nil_r; exact Hf|reflexivity|exact Hk0]. }
    unfold udc_submit_ep_event. reduce_pairs.
    case_result; reduce_pairs;
      [apply kept_irq; apply kept_busy|]; apply kept_emit_hal; exact Hk1.
Qed.

End OwnershipHandlers.

(** No handler of the worker and no endpoint operation other than
    [ep_enqueue] writes to the message queue. *)
Section MessageQueueFrame.

Variable controller : list obs -> hal_call -> Z.

Lemma msgq_xfer_next (y : udc_state) (ep : Z) :
  drv_msgq (udc_event_xfer_next controller y ep) = drv_msgq y.
Proof. unfold_handlers. split_branches; reflexivity. Qed.

Lemma msgq_setup (y : udc_state) (e : udc_renesas_ra_evt) :
  drv_msgq (snd (udc_event_xfer_setup controller y e)) = drv_msgq y.
Proof. unfold_handlers. split_branches; reflexivity. Qed.

Lemma msgq_status_in (y : udc_state) :
  drv_msgq (udc_event_status_in controller y) = drv_msgq y.
Proof. unfold_handlers. split_branches; reflexivity. Qed.

Lemma msgq_complete (y : udc_state) (e : udc_renesas_ra_evt) :
  drv_msgq (udc_event_xfer_complete controller y e) = drv_msgq y.
Proof. unfold_handlers. split_branches; reflexivity. Qed.

Lemma msgq_dequeue (y : udc_state) (addr : Z) :
  drv_msgq (snd (udc_renesas_ra_ep_dequeue controller y addr)) = drv_msgq y.
Proof. unfold_handlers. split_branches; reflexivity. Qed.

End MessageQueueFrame.

Lemma run_app (controller : list obs -> hal_call -> Z) (max : nat)
      (l1 l2 : list action) (st : udc_state) :
  run controller max (l1 ++ l2) st = run controller max l2 (run controller max l1 st).
Proof. unfold run. apply fold_left_app. Qed.

Section OwnershipRuns.

Variable controller : list obs -> hal_call -> Z.
Variable CONFIG_UDC_RENESAS_RA_MAX_QMESSAGES : nat.
Variables i a : Z.

Hypothesis a_not_ctrl_out : a <> USB_CONTROL_EP_OUT.
Hypothesis a_not_ctrl_in : a <> USB_CONTROL_EP_IN.
Hypothesis starts_accepted :
  forall t d l, controller t (R_USBD_XferStart a d l) = FSP_SUCCESS.

Lemma kept_worker (st : udc_state) (n : nat) :
  kept i a st n -> msgq_ok a st ->
  forall st', renesas_ra_thread_step controller st = Some st' ->
              kept i a st' n /\ msgq_ok a st'.
Proof.
  intros Hk Hm st'. unfold renesas_ra_thread_step, k_msgq_get.
  destruct (drv_msgq st) as [|e q] eqn:Hq; [discriminate|].
  intro E. inversion E; subst; clear E.
  assert (Hk1 : kept i a (emit (with_msgq st q) (Got e)) n).
  { apply kept_emit_got. apply kept_msgq. exact Hk. }
  assert (Hm1 : forall s, drv_msgq s = q -> msgq_ok a s).
  { intros s Hs m Hin. apply Hm. rewrite Hq. right. rewrite <- Hs. exact Hin. }
  destruct (evt_type e) eqn:Ety.
  - destruct (event_id (evt_hal_evt e)) eqn:Eid;
      try (split; [exact Hk1|apply Hm1; reflexivity]).
    + split; [apply kept_setup; assumption|].
      apply Hm1. apply msgq_setup.
    + split; [|apply Hm1; apply msgq_complete].
      apply kept_complete; try assumption.
      intros (_ & Hep & Hres). simpl in Hep, Hres.
      apply (Hm e); [rewrite Hq; left; reflexivity|exact Ety|].
      repeat split; assumption.
  - split; [apply kept_xfer_next; assumption|].
    apply Hm1. apply msgq_xfer_next.
  - split; [apply kept_status_in; assumption|].
    apply Hm1. apply msgq_status_in.
Qed.

Lemma msgq_ok_put (st : udc_state) (evt : udc_renesas_ra_evt) (r : Z)
      (st' : udc_state) :
  msgq_ok a st ->
  (evt_type evt = UDC_RENESAS_RA_EVT_HAL -> ~ failed_on a (evt_hal_evt evt)) ->
  k_msgq_put CONFIG_UDC_RENESAS_RA_MAX_QMESSAGES st evt K_NO_WAIT = Some (r, st') ->
  msgq_ok a st' /\ forall n, kept i a st n -> kept i a st' n.
Proof.
  intros Hm He. unfold k_msgq_put.
  destruct (length (drv_msgq st) <? CONFIG_UDC_RENESAS_RA_MAX_QMESSAGES)%nat;
    intro E; inversion E; subst; clear E.
  - split.
    + intros m Hin. simpl in Hin. apply in_app_or in Hin.
      destruct Hin as [Hin|[<-|[]]]; [apply Hm; exact Hin|exact He].
    + intros n Hk. apply kept_emit_put. apply kept_msgq. exact Hk.
  - split; [exact Hm|]. intros n Hk. apply kept_emit_put. exact Hk.
Qed.

Lemma kept_step (st : udc_state) (n : nat) (act : action) :
  kept i a st n -> msgq_ok a st -> act_ok i a act ->
  kept i a (step controller CONFIG_UDC_RENESAS_RA_MAX_QMESSAGES st act) n /\
  msgq_ok a (step controller CONFIG_UDC_RENESAS_RA_MAX_QMESSAGES st act).
Proof.
  intros Hk Hm Hact. destruct act as [e| |addr buf|addr]; simpl in *.
  - unfold udc_renesas_ra_event_handler.
    destruct (k_msgq_put _ st (mk_evt UDC_RENESAS_RA_EVT_HAL e 0) K_NO_WAIT)
      as [[r s']|] eqn:Ep.
    + destruct (msgq_ok_put st (mk_evt UDC_RENESAS_RA_EVT_HAL e 0) r s' Hm
                            (fun _ => Hact) Ep) as [Hm' Hk'].
      destruct (event_id e);
        try (split; [apply Hk'; exact Hk|exact Hm']);
        (split; [unfold udc_submit_event; apply kept_emit_up;
                 [simpl; tauto|exact Hk]|exact Hm]).
    + destruct (event_id e); try (split; assumption);
        (split; [unfold udc_submit_event; apply kept_emit_up;
                 [simpl; tauto|exact Hk]|exact Hm]).
  - destruct (renesas_ra_thread_step controller st) as [st'|] eqn:E;
      [|split; assumption].
    eapply kept_worker; eassumption.
  - unfold udc_renesas_ra_ep_enqueue.
    match goal with
    | |- context [k_msgq_put ?m ?s ?e K_NO_WAIT] =>
        destruct (k_msgq_put m s e K_NO_WAIT) as [[r s']|] eqn:Ep
    end; [|split; assumption].
    assert (Hm0 : msgq_ok a (udc_buf_put st addr buf)) by exact Hm.
    eapply msgq_ok_put in Ep; [|exact Hm0|].
    + destruct Ep as [Hm' Hk']. split; [|exact Hm'].
      apply Hk'. apply kept_put; assumption.
    + simpl. destruct ((addr =? USB_CONTROL_EP_IN) && (nb_len buf =? 0));
        discriminate.
  - split; [apply kept_dequeue; assumption|].
    intros m Hin. apply Hm. rewrite <- (msgq_dequeue controller st addr).
    exact Hin.
Qed.

Lemma kept_run (acts : list action) (st : udc_state) (n : nat) :
  kept i a st n -> msgq_ok a st -> Forall (act_ok i a) acts ->
  kept i a (run controller CONFIG_UDC_RENESAS_RA_MAX_QMESSAGES acts st) n /\
  msgq_ok a (run controller CONFIG_UDC_RENESAS_RA_MAX_QMESSAGES acts st).
Proof.
  revert st. induction acts as [|act acts IH]; intros st Hk Hm Hall.
  - split; assumption.
  - inversion Hall; subst. simpl.
    destruct (kept_step st n act Hk Hm) as [Hk' Hm']; [assumption|].
    apply IH; assumption.
Qed.

(** Enqueuing the tracked buffer itself on [a] puts it on the queue once. *)
Lemma kept_enqueue_tracked (st : udc_state) (n : nat) (buf : net_buf) :
  nb_id buf = i -> kept i a st n -> msgq_ok a st ->
  kept i a (step controller CONFIG_UDC_RENESAS_RA_MAX_QMESSAGES st
                 (Enqueue a buf)) (S n) /\
  msgq_ok a (step controller CONFIG_UDC_RENESAS_RA_MAX_QMESSAGES st
                  (Enqueue a buf)).
Proof.
  intros Hid Hk Hm. simpl. unfold udc_renesas_ra_ep_enqueue.
  assert (Hk1 : kept i a (udc_buf_put st a buf) (S n)).
  { destruct Hk as [[[Ho Hp] Hb] Ht].
    unfold kept, others_clean, balance, queued in *.
    simpl. split; [split; [split|]|exact Ht].
    - intros ep He. rewrite upd_ep_other by exact He. apply Ho. exact He.
    - exact Hp.
    - rewrite upd_ep_same. simpl. unfold ids. rewrite map_app, count_occ_app.
      simpl. destruct (Z.eq_dec (nb_id buf) i); [|contradiction].
      fold (ids (fifo (eps st a))). lia. }
  match goal with
  | |- context [k_msgq_put ?m ?s ?e K_NO_WAIT] =>
      pose proof (k_msgq_put_no_wait m s e) as Hnb;
      destruct (k_msgq_put m s e K_NO_WAIT) as [[r s']|] eqn:Ep
  end; [|contradiction].
  assert (Hm0 : msgq_ok a (udc_buf_put st a buf)) by exact Hm.
  eapply msgq_ok_put in Ep; [|exact Hm0|].
  - destruct Ep as [Hm' Hk']. split; [apply Hk'; exact Hk1|exact Hm'].
  - simpl. destruct ((a =? USB_CONTROL_EP_IN) && (nb_len buf =? 0)); discriminate.
Qed.

End OwnershipRuns.

(** C1 (amended): take a buffer enqueued on an endpoint other than the two
    control endpoints, where the Controller accepts every transfer_start on
    that endpoint and reports no failed transfer on it, and the upper stack
    does not enqueue the same buffer a second time.  Whatever else happens
    before and after (transfers on other endpoints, control transfers,
    dequeues, lost messages), the buffer is at every later point either
    still on the endpoint's queue and not yet handed upstream, or off the
    queue and handed upstream exactly once; and every hand-over of it is a
    terminal notification, a request reported with status 0 (ok) or
    [-ECONNABORTED] (aborted). *)
Theorem queued_buffer_reported_once
        (controller : list obs -> hal_call -> Z) (max : nat) (a : Z)
        (buf : net_buf) (before after : list action) (free : list Z) :
  a <> USB_CONTROL_EP_OUT -> a <> USB_CONTROL_EP_IN ->
  (forall t d l, controller t (R_USBD_XferStart a d l) = FSP_SUCCESS) ->
  ~ In (nb_id buf) free ->
  Forall (act_ok (nb_id buf) a) (before ++ after) ->
  let st := run controller max (before ++ Enqueue a buf :: after)
                (init_state free) in
  reported_exactly_once st a buf /\
  terminal_only (nb_id buf) (trace st) /\
  ((queued (nb_id buf) a st = 1%nat /\ delivered (nb_id buf) (trace st) = 0%nat) \/
   (queued (nb_id buf) a st = 0%nat /\ delivered (nb_id buf) (trace st) = 1%nat)).
Proof.
  intros Ho Hi Hacc Hfree Hall st.
  apply Forall_app in Hall. destruct Hall as [Hb Ha].
  assert (H0 : kept (nb_id buf) a (init_state free) 0 /\
               msgq_ok a (init_state free)).
  { split; [split; [split; [split|]|]|].
    - intros ep _ [].
    - exact Hfree.
    - reflexivity.
    - constructor.
    - intros m []. }
  destruct H0 as [Hk0 Hm0].
  destruct (kept_run controller max (nb_id buf) a Ho Hi Hacc before _ 0 Hk0 Hm0 Hb)
    as [Hk1 Hm1].
  destruct (kept_enqueue_tracked controller max (nb_id buf) a _ 0 buf eq_refl Hk1 Hm1)
    as [Hk2 Hm2].
  destruct (kept_run controller max (nb_id buf) a Ho Hi Hacc after _ 1%nat Hk2 Hm2 Ha)
    as [[[_ Hbal] Hter] _].
  assert (Hst : st = run controller max after
                       (step controller max
                             (run controller max before (init_state free))
                             (Enqueue a buf))).
  { unfold st. rewrite run_app. reflexivity. }
  rewrite <- Hst in Hbal, Hter. unfold balance in Hbal.
  split; [unfold reported_exactly_once; lia|].
  split; [exact Hter|lia].
Qed.

Lemma queued_buffer_reported_once_witness :
  reported_exactly_once
    (run controller_ok 8
         ([Enqueue 1 buf_out_a] ++ Enqueue 129 buf_in_a ::
          [Worker; Worker; Isr (xfer_complete_evt 129 USBD_XFER_RESULT_SUCCESS 10);
           Worker; Dequeue 1])
         (init_state [100; 101]))
    129 buf_in_a /\
  terminal_only (nb_id buf_in_a)
    (trace (run controller_ok 8
              ([Enqueue 1 buf_out_a] ++ Enqueue 129 buf_in_a ::
               [Worker; Worker;
                Isr (xfer_complete_evt 129 USBD_XFER_RESULT_SUCCESS 10);
                Worker; Dequeue 1])
              (init_state [100; 101]))).
Proof.
  refine ((fun H => conj (proj1 H) (proj1 (proj2 H)))
            (queued_buffer_reported_once controller_ok 8 129 buf_in_a
               [Enqueue 1 buf_out_a]
               [Worker; Worker;
                Isr (xfer_complete_evt 129 USBD_XFER_RESULT_SUCCESS 10);
                Worker; Dequeue 1]
               [100; 101] _ _ _ _ _)).
  - discriminate.
  - discriminate.
  - reflexivity.
  - simpl. intros [H|[H|[]]]; discriminate H.
  - repeat constructor; simpl; try discriminate.
    intros (_ & _ & H). apply H. reflexivity.
Defined.

(** ** Further properties of the transfer engine *)

Lemma out_is_not_in (ep : Z) :
  USB_EP_DIR_IS_OUT ep = true -> USB_EP_DIR_IS_IN ep = false.
Proof.
  unfold USB_EP_DIR_IS_IN, USB_EP_DIR_IS_OUT. intro H.
  apply Z.eqb_eq in H. rewrite H. reflexivity.
Qed.

Section Engine.

Variable controller : list obs -> hal_call -> Z.

(** X1: start_next does nothing at all on an endpoint that is busy or whose
    queue is empty: the state, trace included, is returned as it was. *)
Theorem xfer_next_idle (st : udc_state) (ep : Z) :
  stat_busy (eps st ep) = true \/ fifo (eps st ep) = [] ->
  udc_event_xfer_next controller st ep = st.
Proof.
  intros [Hb|Hq]; unfold udc_event_xfer_next, udc_ep_is_busy, udc_buf_peek.
  - rewrite Hb. reflexivity.
  - rewrite Hq. destruct (stat_busy (eps st ep)); reflexivity.
Qed.

(** X2: a transfer-complete event for an endpoint with nothing queued only
    clears the busy flag, whatever result and length it carries: no
    Controller call, no upstream event, no queue touched. *)
Theorem complete_on_empty_queue (st : udc_state) (e : udc_renesas_ra_evt) :
  fifo (eps st (xc_ep_addr (xfer_complete (evt_hal_evt e)))) = [] ->
  let ep := xc_ep_addr (xfer_complete (evt_hal_evt e)) in
  let st' := udc_event_xfer_complete controller st e in
  st' = udc_ep_set_busy st ep false /\
  trace st' = trace st /\
  stat_busy (eps st' ep) = false /\
  (forall a, fifo (eps st' a) = fifo (eps st a)) /\
  (forall a, a <> ep -> eps st' a = eps st a).
Proof.
  intros Hq ep st'.
  assert (E : st' = udc_ep_set_busy st ep false).
  { unfold st', udc_event_xfer_complete, udc_buf_peek. fold ep. simpl.
    rewrite upd_ep_same. simpl. fold ep in Hq. rewrite Hq. reflexivity. }
  rewrite E. split; [reflexivity|]. split; [reflexivity|]. simpl.
  split; [rewrite upd_ep_same; reflexivity|]. split.
  - intro a. unfold upd_ep. destruct (Z.eqb_spec a ep) as [->|]; reflexivity.
  - intros a Ha. apply upd_ep_other. exact Ha.
Qed.

(** X3: on an OUT endpoint other than the control-OUT endpoint the
    zero-length-terminator flag plays no role: a successful completion
    takes the head buffer off the queue at once, adds the received length
    to its length (16 bits, wrapping) and reports it once with status 0,
    without any Controller call. *)
Theorem complete_out_adds_length (st : udc_state) (ep len : Z) (buf : net_buf)
        (q : list net_buf) :
  USB_EP_DIR_IS_OUT ep = true ->
  ep <> USB_CONTROL_EP_OUT ->
  fifo (eps st ep) = buf :: q ->
  let st' := udc_event_xfer_complete controller st
               (hal_msg (xfer_complete_evt ep USBD_XFER_RESULT_SUCCESS len)) in
  exists buf',
    trace st' = trace st ++ [Up (EpRequest [buf'] 0)] /\
    nb_id buf' = nb_id buf /\
    nb_len buf' = (nb_len buf + len) mod 65536 /\
    bi_zlp buf' = bi_zlp buf /\
    fifo (eps st' ep) = q /\
    stat_busy (eps st' ep) = false.
Proof.
  intros Ho Hne Hq st'.
  pose proof (out_is_not_in ep Ho) as Hi.
  assert (Hni : ep <> USB_CONTROL_EP_IN).
  { intro E. rewrite E in Ho. discriminate Ho. }
  assert (Hz : USB_EP_DIR_IS_IN ep && bi_zlp buf = false) by (rewrite Hi; reflexivity).
  destruct (complete_reports_head controller st ep len buf q Hni Hne Hq Hz)
    as (Ht & Hf & Hb).
  rewrite Ho in Ht. exists (net_buf_add buf len).
  repeat split; try assumption.
Qed.

(** X4: when the Controller refuses the zero-length start that is to
    terminate an IN transfer, the buffer is reported upstream with -EIO.
    Its flag has been cleared by then, the endpoint is not busy, and the
    buffer is still at the head of the queue. *)
Theorem complete_zlp_refused (st : udc_state) (ep len : Z) (buf : net_buf)
        (q : list net_buf) :
  USB_EP_DIR_IS_IN ep = true ->
  fifo (eps st ep) = buf :: q ->
  bi_zlp buf = true ->
  controller (trace st) (R_USBD_XferStart ep None 0) <> FSP_SUCCESS ->
  let r := controller (trace st) (R_USBD_XferStart ep None 0) in
  let st' := udc_event_xfer_complete controller st
               (hal_msg (xfer_complete_evt ep USBD_XFER_RESULT_SUCCESS len)) in
  trace st' = trace st ++ [Hal (R_USBD_XferStart ep None 0) r;
                           Up (EpRequest [udc_ep_buf_clear_zlp buf] (- EIO))] /\
  fifo (eps st' ep) = udc_ep_buf_clear_zlp buf :: q /\
  stat_busy (eps st' ep) = false.
Proof.
  intros Hin Hq Hz Hr r st'. subst r st'.
  unfold udc_event_xfer_complete, udc_buf_peek, udc_ep_set_busy. simpl.
  rewrite upd_ep_same. simpl. rewrite Hq. simpl.
  unfold udc_ep_buf_has_zlp. rewrite Hin, Hz. simpl.
  unfold hal_do. simpl.
  apply Z.eqb_neq in Hr. rewrite Hr. simpl.
  rewrite !upd_ep_same. simpl. rewrite ?upd_ep_same, ?Hq. simpl.
  rewrite <- app_assoc. repeat split; reflexivity.
Qed.

End Engine.

Lemma xfer_next_idle_witness :
  udc_event_xfer_next controller_fail st_in_flight 129 = st_in_flight.
Proof.
  apply (xfer_next_idle controller_fail st_in_flight 129). left. reflexivity.
Defined.

Lemma complete_on_empty_queue_witness :
  trace (udc_event_xfer_complete controller_ok (init_state [])
           (hal_msg (xfer_complete_evt 1 USBD_XFER_RESULT_FAILED 7))) = [].
Proof.
  exact (proj1 (proj2 (complete_on_empty_queue controller_ok (init_state [])
                         (hal_msg (xfer_complete_evt 1 USBD_XFER_RESULT_FAILED 7))
                         eq_refl))).
Defined.

Lemma complete_out_adds_length_witness :
  exists buf',
    trace (udc_event_xfer_complete controller_ok st_out_flight
             (hal_msg (xfer_complete_evt 1 USBD_XFER_RESULT_SUCCESS 24))) =
      trace st_out_flight ++ [Up (EpRequest [buf'] 0)] /\
    nb_len buf' = 24 /\ bi_zlp buf' = true.
Proof.
  destruct (complete_out_adds_length controller_ok st_out_flight 1 24
              buf_out_zlp [] eq_refl) as (b & Ht & _ & Hl & Hz & _).
  - discriminate.
  - reflexivity.
  - exists b. repeat split; assumption.
Defined.

Lemma complete_zlp_refused_witness :
  fifo (eps (udc_event_xfer_complete controller_no_zlp st_in_zlp_flight
               (hal_msg (xfer_complete_evt 129 USBD_XFER_RESULT_SUCCESS 64)))
            129) = [udc_ep_buf_clear_zlp buf_in_zlp].
Proof.
  refine (proj1 (proj2 (complete_zlp_refused controller_no_zlp st_in_zlp_flight
                          129 64 buf_in_zlp [] eq_refl eq_refl eq_refl _))).
  discriminate.
Defined.

(** Look through the state updates at one endpoint that none of them
    addresses. *)
Ltac other_endpoint :=
  unfold udc_ep_set_busy;
  cbn [eps with_eps with_stage with_pool with_msgq with_irq emit];
  repeat rewrite upd_ep_other by assumption;
  reflexivity.

Section Isolation.

Variable controller : list obs -> hal_call -> Z.

Lemma eps_xfer_next (st : udc_state) (ep a : Z) :
  a <> ep -> eps (udc_event_xfer_next controller st ep) a = eps st a.
Proof. intro H. unfold_handlers. split_branches; other_endpoint. Qed.

Lemma eps_complete (st : udc_state) (e : udc_renesas_ra_evt) (a : Z) :
  a <> xc_ep_addr (xfer_complete (evt_hal_evt e)) -> a <> USB_CONTROL_EP_OUT ->
  eps (udc_event_xfer_complete controller st e) a = eps st a.
Proof. intros H H0. unfold_handlers. split_branches; other_endpoint. Qed.

Lemma eps_dequeue (st : udc_state) (addr a : Z) :
  a <> addr -> eps (snd (udc_renesas_ra_ep_dequeue controller st addr)) a = eps st a.
Proof. intro H. unfold_handlers. split_branches; other_endpoint. Qed.

Lemma eps_setup (st : udc_state) (e : udc_renesas_ra_evt) (a : Z) :
  a <> USB_CONTROL_EP_OUT ->
  eps (snd (udc_event_xfer_setup controller st e)) a = eps st a.
Proof. intro H. unfold_handlers. split_branches; other_endpoint. Qed.

Lemma eps_status_in (st : udc_state) (a : Z) :
  a <> USB_CONTROL_EP_IN -> a <> USB_CONTROL_EP_OUT ->
  eps (udc_event_status_in controller st) a = eps st a.
Proof. intros H H0. unfold_handlers. split_branches; other_endpoint. Qed.

(** X5: the handlers keep to their endpoint.  Starting or dequeuing on one
    endpoint changes no other endpoint; a completion changes, besides its
    own endpoint, at most the control-OUT endpoint (where the status stage
    of a control read is armed); SETUP handling changes at most the
    control-OUT endpoint and the status-stage IN handler at most the two
    control endpoints.  Busy flag, halted flag, queue and configuration of
    every other endpoint are as before. *)
Theorem handlers_keep_to_their_endpoint (st : udc_state) (a : Z) :
  (forall ep, a <> ep -> eps (udc_event_xfer_next controller st ep) a = eps st a) /\
  (forall addr, a <> addr ->
     eps (snd (udc_renesas_ra_ep_dequeue controller st addr)) a = eps st a) /\
  (forall e, a <> xc_ep_addr (xfer_complete (evt_hal_evt e)) ->
             a <> USB_CONTROL_EP_OUT ->
             eps (udc_event_xfer_complete controller st e) a = eps st a) /\
  (forall e, a <> USB_CONTROL_EP_OUT ->
             eps (snd (udc_event_xfer_setup controller st e)) a = eps st a) /\
  (a <> USB_CONTROL_EP_IN -> a <> USB_CONTROL_EP_OUT ->
   eps (udc_event_status_in controller st) a = eps st a).
Proof.
  split; [|split; [|split; [|split]]].
  - intros ep H. apply eps_xfer_next. exact H.
  - intros addr H. apply eps_dequeue. exact H.
  - intros e H H0. apply eps_complete; assumption.
  - intros e H. apply eps_setup. exact H.
  - intros H H0. apply eps_status_in; assumption.
Qed.

(** The effect of [usbd_ctrl_feed_dout] when the pool holds a buffer. *)
Lemma feed_dout_with_buffer (st : udc_state) (len z : Z) (p : list Z) :
  pool st = z :: p ->
  let buf := mk_net_buf z [] 0 len USB_CONTROL_EP_OUT false false in
  let call := R_USBD_XferStart USB_CONTROL_EP_OUT (Some z) len in
  let r := controller (trace st) call in
  let res := usbd_ctrl_feed_dout controller st len in
  fst res = (if r =? FSP_SUCCESS then 0 else - EIO) /\
  trace (snd res) = trace st ++ [Hal call r] /\
  fifo (eps (snd res) USB_CONTROL_EP_OUT) =
    fifo (eps st USB_CONTROL_EP_OUT) ++ [buf] /\
  pool (snd res) = p /\
  stage (snd res) = stage st.
Proof.
  intros Hp buf call r res. subst buf call r res.
  unfold usbd_ctrl_feed_dout, udc_ctrl_alloc. rewrite Hp.
  unfold hal_do, udc_buf_put. cbv beta iota zeta.
  cbn [nb_id nb_size trace with_eps with_pool].
  case_result; cbv beta iota zeta delta [negb fst snd];
    cbn [trace eps emit with_eps with_pool pool stage fifo];
    rewrite upd_ep_same; repeat split; reflexivity.
Qed.

(** X6: arming a control-OUT receive of [len] bytes.  With the control pool
    exhausted the function returns -ENOMEM and changes nothing.  Otherwise
    it takes a buffer of capacity [len] from the pool, appends it to the
    control-OUT queue and makes one [R_USBD_XferStart] call for it; it
    returns 0 if the Controller accepts and -EIO if not, and in either case
    the buffer stays on the queue. *)
Theorem feed_dout_outcomes (st : udc_state) (len : Z) :
  (pool st = [] -> usbd_ctrl_feed_dout controller st len = (- ENOMEM, st)) /\
  (forall z p,
      pool st = z :: p ->
      let buf := mk_net_buf z [] 0 len USB_CONTROL_EP_OUT false false in
      let call := R_USBD_XferStart USB_CONTROL_EP_OUT (Some z) len in
      let r := controller (trace st) call in
      let res := usbd_ctrl_feed_dout controller st len in
      fst res = (if r =? FSP_SUCCESS then 0 else - EIO) /\
      trace (snd res) = trace st ++ [Hal call r] /\
      fifo (eps (snd res) USB_CONTROL_EP_OUT) =
        fifo (eps st USB_CONTROL_EP_OUT) ++ [buf] /\
      pool (snd res) = p /\
      stage (snd res) = stage st).
Proof.
  split.
  - intro Hp. unfold usbd_ctrl_feed_dout, udc_ctrl_alloc. rewrite Hp. reflexivity.
  - intros z p Hp. apply feed_dout_with_buffer. exact Hp.
Qed.

End Isolation.

Lemma handlers_keep_to_their_endpoint_witness :
  eps (udc_event_xfer_complete controller_ok st_in_flight
         (hal_msg (xfer_complete_evt 129 USBD_XFER_RESULT_SUCCESS 10))) 1 =
  eps st_in_flight 1.
Proof.
  destruct (handlers_keep_to_their_endpoint controller_ok st_in_flight 1)
    as (_ & _ & H & _).
  apply H; discriminate.
Defined.

Lemma feed_dout_outcomes_witness :
  usbd_ctrl_feed_dout controller_ok (init_state []) 8 = (- ENOMEM, init_state []) /\
  fst (usbd_ctrl_feed_dout controller_fail (init_state [100]) 8) = - EIO /\
  fifo (eps (snd (usbd_ctrl_feed_dout controller_fail (init_state [100]) 8)) 0) =
    [mk_net_buf 100 [] 0 8 0 false false].
Proof.
  split.
  - exact (proj1 (feed_dout_outcomes controller_ok (init_state []) 8) eq_refl).
  - destruct (proj2 (feed_dout_outcomes controller_fail (init_state [100]) 8)
                    100 [] eq_refl) as (H1 & _ & H3 & _).
    split; [exact H1|exact H3].
Defined.

(** ** Further properties of the control-endpoint handlers *)

Section ControlHandlers.

Variable controller : list obs -> hal_call -> Z.

(** X7: what a failed allocation does to a SETUP packet.  With the control
    pool exhausted the packet is dropped: -ENOMEM is returned and the state
    is unchanged (stage included, nothing reported).  When the SETUP buffer
    is the last one of the pool and the stage after it is DATA_OUT, the
    receive buffer cannot be allocated: the SETUP buffer itself is reported
    upstream with -ENOMEM, no Controller call is made and no queue
    changes. *)
Theorem setup_allocation_failures (st : udc_state) (pkt : list Z) :
  (pool st = [] ->
   udc_event_xfer_setup controller st (setup_msg pkt) = (- ENOMEM, st)) /\
  (forall z,
      pool st = [z] ->
      ctrl_next_stage (stage st) (setup_buf z pkt) = CTRL_PIPE_STAGE_DATA_OUT ->
      let st' := snd (udc_event_xfer_setup controller st (setup_msg pkt)) in
      trace st' = trace st ++ [Up (EpRequest [setup_buf z pkt] (- ENOMEM))] /\
      eps st' = eps st /\
      pool st' = [] /\
      stage st' = CTRL_PIPE_STAGE_DATA_OUT).
Proof.
  split.
  - intro Hp. unfold udc_event_xfer_setup, udc_ctrl_alloc. rewrite Hp. reflexivity.
  - intros z Hp Hs st'. subst st'.
    unfold udc_event_xfer_setup, udc_ctrl_alloc. rewrite Hp. cbv zeta.
    change (net_buf_add_mem
              (udc_ep_buf_set_setup
                 (mk_net_buf z [] 0 8 USB_CONTROL_EP_OUT false false))
              (firstn 8 (setup_received (evt_hal_evt (setup_msg pkt)))))
      with (setup_buf z pkt).
    unfold udc_ctrl_stage_is_data_out, udc_ctrl_update_stage.
    cbn [stage with_stage with_pool]. rewrite Hs. simpl.
    repeat split; reflexivity.
Qed.

(** X8: how a SETUP packet is dispatched once its buffer is allocated (the
    pool holds the buffers [z] and, for a data stage OUT, [z2]).  If the
    stage after the packet is DATA_OUT, a receive buffer whose capacity is
    the data-stage length of the packet is queued on the control-OUT
    endpoint and one [R_USBD_XferStart] is made for it; nothing is
    reported upstream.  If the stage is DATA_IN, the only effect besides
    the stage is the upstream marker that status follows the IN data; in
    every other stage it is the status-only marker.  In these two cases no
    Controller call is made and no queue changes. *)
Theorem setup_dispatch (st : udc_state) (pkt : list Z) (z : Z) (p : list Z) :
  pool st = z :: p ->
  let sbuf := setup_buf z pkt in
  let next := ctrl_next_stage (stage st) sbuf in
  let res := udc_event_xfer_setup controller st (setup_msg pkt) in
  stage (snd res) = next /\
  (next = CTRL_PIPE_STAGE_DATA_OUT ->
   forall z2 p2,
     p = z2 :: p2 ->
     let call := R_USBD_XferStart USB_CONTROL_EP_OUT (Some z2)
                                  (udc_data_stage_length sbuf) in
     let r := controller (trace st) call in
     trace (snd res) = trace st ++ [Hal call r] /\
     fst res = (if r =? FSP_SUCCESS then 0 else - EIO) /\
     fifo (eps (snd res) USB_CONTROL_EP_OUT) =
       fifo (eps st USB_CONTROL_EP_OUT) ++
       [mk_net_buf z2 [] 0 (udc_data_stage_length sbuf) USB_CONTROL_EP_OUT
                   false false]) /\
  (next = CTRL_PIPE_STAGE_DATA_IN ->
   res = (0, emit (with_stage (with_pool st p) next) (Up CtrlSInStatus))) /\
  (next <> CTRL_PIPE_STAGE_DATA_OUT -> next <> CTRL_PIPE_STAGE_DATA_IN ->
   res = (0, emit (with_stage (with_pool st p) next) (Up CtrlSStatus))).
Proof.
  intros Hp sbuf next res.
  assert (Hres : res =
    let st2 := with_stage (with_pool st p) next in
    if stage_eqb next CTRL_PIPE_STAGE_DATA_OUT then
      let (err, st3) := usbd_ctrl_feed_dout controller st2
                                            (udc_data_stage_length sbuf) in
      if err =? - ENOMEM then udc_submit_ep_event st3 [sbuf] err else (err, st3)
    else if stage_eqb next CTRL_PIPE_STAGE_DATA_IN
         then udc_ctrl_submit_s_in_status st2
         else udc_ctrl_submit_s_status st2).
  { unfold res, udc_event_xfer_setup, udc_ctrl_alloc. rewrite Hp. reflexivity. }
  split; [|split; [|split]].
  - rewrite Hres. cbv zeta.
    destruct (stage_eqb next CTRL_PIPE_STAGE_DATA_OUT).
    + unfold usbd_ctrl_feed_dout, udc_ctrl_alloc. cbn [pool with_stage with_pool].
      destruct p as [|z2 p2]; [reflexivity|].
      unfold hal_do. cbv zeta. case_result; reflexivity.
    + destruct (stage_eqb next CTRL_PIPE_STAGE_DATA_IN); reflexivity.
  - intros Hn z2 p2 Hp2 call r. rewrite Hres, Hn. cbv zeta. simpl stage_eqb.
    cbv iota.
    destruct (feed_dout_with_buffer controller
                (with_stage (with_pool st p) CTRL_PIPE_STAGE_DATA_OUT)
                (udc_data_stage_length sbuf) z2 p2)
      as (Hf & Ht & Hq & _); [rewrite Hp2; reflexivity|].
    cbv zeta in Hf, Ht, Hq. cbn [trace with_stage with_pool eps] in Hf, Ht, Hq.
    fold call in Hf, Ht. fold r in Hf, Ht.
    destruct (usbd_ctrl_feed_dout controller _ _) as [err st3].
    cbn [fst snd] in Hf, Ht, Hq.
    assert (He : (err =? - ENOMEM) = false).
    { rewrite Hf. destruct (r =? FSP_SUCCESS); reflexivity. }
    rewrite He. cbn [fst snd]. repeat split; assumption.
  - intro Hn. rewrite Hres, Hn. reflexivity.
  - intros Ho Hi. rewrite Hres. cbv zeta.
    destruct next; try contradiction; reflexivity.
Qed.


End ControlHandlers.

Lemma setup_allocation_failures_witness :
  upstream
    (trace (snd (udc_event_xfer_setup controller_ok (init_state [100])
                   (setup_msg setup_out_8)))) =
    [EpRequest [setup_buf 100 setup_out_8] (- ENOMEM)].
Proof.
  destruct (proj2 (setup_allocation_failures controller_ok (init_state [100])
                     setup_out_8) 100 eq_refl eq_refl) as (Ht & _).
  rewrite Ht. reflexivity.
Defined.

Lemma setup_dispatch_witness :
  hal_calls
    (trace (snd (udc_event_xfer_setup controller_ok (init_state [100; 101])
                   (setup_msg setup_out_8)))) =
    [R_USBD_XferStart USB_CONTROL_EP_OUT (Some 101) 8] /\
  udc_event_xfer_setup controller_ok (init_state [100; 101]) (setup_msg setup_in_10) =
    (0, emit (with_stage (with_pool (init_state [100; 101]) [101])
                         CTRL_PIPE_STAGE_DATA_IN) (Up CtrlSInStatus)).
Proof.
  split.
  - destruct (setup_dispatch controller_ok (init_state [100; 101]) setup_out_8
                             100 [101] eq_refl) as (_ & H & _).
    destruct (H eq_refl 101 [] eq_refl) as (Ht & _).
    rewrite Ht. reflexivity.
  - destruct (setup_dispatch controller_ok (init_state [100; 101]) setup_in_10
                             100 [101] eq_refl) as (_ & _ & H & _).
    exact (H eq_refl).
Defined.


(** ** Further properties of the worker and of the callback *)

Lemma gots_app (t u : list obs) : gots (t ++ u) = gots t ++ gots u.
Proof.
  induction t as [|o t IH]; simpl; [reflexivity|].
  destruct o; simpl; rewrite IH; reflexivity.
Qed.

(** No handler takes a message itself. *)
Ltac no_got :=
  unfold udc_ep_set_busy;
  cbn [trace with_eps with_stage with_pool with_msgq with_irq emit];
  repeat rewrite gots_app; simpl; rewrite ?app_nil_r; reflexivity.

Section Worker.

Variable controller : list obs -> hal_call -> Z.

Lemma gots_xfer_next (y : udc_state) (ep : Z) :
  gots (trace (udc_event_xfer_next controller y ep)) = gots (trace y).
Proof. unfold_handlers. split_branches; no_got. Qed.

Lemma gots_setup (y : udc_state) (e : udc_renesas_ra_evt) :
  gots (trace (snd (udc_event_xfer_setup controller y e))) = gots (trace y).
Proof. unfold_handlers. split_branches; no_got. Qed.

Lemma gots_status_in (y : udc_state) :
  gots (trace (udc_event_status_in controller y)) = gots (trace y).
Proof. unfold_handlers. split_branches; no_got. Qed.

Lemma gots_complete (y : udc_state) (e : udc_renesas_ra_evt) :
  gots (trace (udc_event_xfer_complete controller y e)) = gots (trace y).
Proof. unfold_handlers. split_branches; no_got. Qed.

(** One turn of the worker on a non-empty queue: the head message is taken,
    and nothing else is taken from or added to the queue. *)
Lemma worker_turn (st : udc_state) (e : udc_renesas_ra_evt)
      (q : list udc_renesas_ra_evt) :
  drv_msgq st = e :: q ->
  exists st1,
    renesas_ra_thread_step controller st = Some st1 /\
    drv_msgq st1 = q /\
    gots (trace st1) = gots (trace st) ++ [e].
Proof.
  intro Hq. unfold renesas_ra_thread_step, k_msgq_get. rewrite Hq.
  eexists. split; [reflexivity|].
  assert (H0 : gots (trace (emit (with_msgq st q) (Got e))) = gots (trace st) ++ [e]).
  { simpl. rewrite gots_app. reflexivity. }
  destruct (evt_type e).
  - destruct (event_id (evt_hal_evt e));
      try (split; [reflexivity|exact H0]).
    + rewrite msgq_setup, gots_setup. split; [reflexivity|exact H0].
    + rewrite msgq_complete, gots_complete. split; [reflexivity|exact H0].
  - rewrite msgq_xfer_next, gots_xfer_next. split; [reflexivity|exact H0].
  - rewrite msgq_status_in, gots_status_in. split; [reflexivity|exact H0].
Qed.

(** X10: the worker handles messages strictly in the order of the queue and
    its handlers never post messages themselves.  After at most [n] turns
    the messages it has taken are the first [n] of the queue, in order, and
    the queue holds exactly the rest. *)
Theorem worker_fifo_order (n : nat) (st : udc_state) :
  let st' := renesas_ra_thread_handler controller n st in
  drv_msgq st' = skipn n (drv_msgq st) /\
  gots (trace st') = gots (trace st) ++ firstn n (drv_msgq st).
Proof.
  revert st. induction n as [|n IH]; intro st; simpl.
  - split; [reflexivity|]. symmetry. apply app_nil_r.
  - destruct (drv_msgq st) as [|e q] eqn:Hq.
    + unfold renesas_ra_thread_step, k_msgq_get. rewrite Hq.
      split; [exact Hq|]. symmetry. apply app_nil_r.
    + destruct (worker_turn st e q Hq) as (st1 & Hs & Hq1 & Hg1).
      rewrite Hs. destruct (IH st1) as [Hm Hg].
      rewrite Hm, Hg, Hq1, Hg1, <- app_assoc. split; reflexivity.
Qed.

(** X11: a queued event of the Controller that is neither a received SETUP
    packet nor a transfer completion is consumed without any effect: the
    turn only takes it off the queue. *)
Theorem worker_ignores_other_events (st : udc_state) (e : udc_renesas_ra_evt)
        (q : list udc_renesas_ra_evt) :
  drv_msgq st = e :: q ->
  evt_type e = UDC_RENESAS_RA_EVT_HAL ->
  event_id (evt_hal_evt e) <> USBD_EVENT_SETUP_RECEIVED ->
  event_id (evt_hal_evt e) <> USBD_EVENT_XFER_COMPLETE ->
  renesas_ra_thread_step controller st = Some (emit (with_msgq st q) (Got e)).
Proof.
  intros Hq Ht Hs Hc. unfold renesas_ra_thread_step, k_msgq_get.
  rewrite Hq, Ht. destruct (event_id (evt_hal_evt e)); try reflexivity;
    contradiction.
Qed.

End Worker.

Section Callback.

Variable CONFIG_UDC_RENESAS_RA_MAX_QMESSAGES : nat.

(** X12: bus events do not go through the message queue: the callback
    forwards each as one upstream bus event of the matching kind - reset as
    [UDC_EVT_RESET], VBUS ready as [UDC_EVT_VBUS_READY], VBUS removed as
    [UDC_EVT_VBUS_REMOVED], suspend as [UDC_EVT_SUSPEND], resume as
    [UDC_EVT_RESUME], start of frame as [UDC_EVT_SOF] - and changes nothing
    else, also when the queue is full. *)
Theorem bus_events_bypass_queue (st : udc_state) (e : usbd_event_t)
        (kind : udc_event_type) :
  In (event_id e, kind)
     [(USBD_EVENT_BUS_RESET, UDC_EVT_RESET);
      (USBD_EVENT_VBUS_RDY, UDC_EVT_VBUS_READY);
      (USBD_EVENT_VBUS_REMOVED, UDC_EVT_VBUS_REMOVED);
      (USBD_EVENT_SUSPEND, UDC_EVT_SUSPEND);
      (USBD_EVENT_RESUME, UDC_EVT_RESUME);
      (USBD_EVENT_SOF, UDC_EVT_SOF)] ->
  udc_renesas_ra_event_handler CONFIG_UDC_RENESAS_RA_MAX_QMESSAGES st e =
    Some (emit st (Up (BusEvent kind))).
Proof.
  unfold udc_renesas_ra_event_handler, udc_submit_event. simpl.
  intros [H|[H|[H|[H|[H|[H|[]]]]]]]; inversion H as [[Hid Hk]];
    reflexivity.
Qed.

Lemma callback_queues (st : udc_state) (e : usbd_event_t) :
  is_bus_event e = false ->
  exists st',
    udc_renesas_ra_event_handler CONFIG_UDC_RENESAS_RA_MAX_QMESSAGES st e = Some st' /\
    drv_msgq st' =
      (if (length (drv_msgq st) <? CONFIG_UDC_RENESAS_RA_MAX_QMESSAGES)%nat
       then drv_msgq st ++ [hal_msg e] else drv_msgq st).
Proof.
  intro Hb. unfold udc_renesas_ra_event_handler, k_msgq_put.
  destruct (length (drv_msgq st) <? CONFIG_UDC_RENESAS_RA_MAX_QMESSAGES)%nat;
    unfold is_bus_event in Hb;
    destruct (event_id e); try discriminate; eexists; split; reflexivity.
Qed.

Lemma callback_queue_contents (controller : list obs -> hal_call -> Z)
      (es : list usbd_event_t) (st : udc_state) :
  (length (drv_msgq st) <= CONFIG_UDC_RENESAS_RA_MAX_QMESSAGES)%nat ->
  Forall (fun e => is_bus_event e = false) es ->
  drv_msgq (run controller CONFIG_UDC_RENESAS_RA_MAX_QMESSAGES (map Isr es) st) =
    firstn CONFIG_UDC_RENESAS_RA_MAX_QMESSAGES (drv_msgq st ++ map hal_msg es).
Proof.
  revert st. induction es as [|e es IH]; intros st Hlen Hall.
  - simpl. rewrite app_nil_r. symmetry. apply firstn_all2. exact Hlen.
  - inversion Hall as [|e' es' He Hes]; subst. simpl.
    destruct (callback_queues st e He) as (st' & Hs & Hq). rewrite Hs.
    destruct (Nat.ltb_spec (length (drv_msgq st)) CONFIG_UDC_RENESAS_RA_MAX_QMESSAGES)
      as [Hlt|Hge].
    + fold (run controller CONFIG_UDC_RENESAS_RA_MAX_QMESSAGES (map Isr es) st').
      rewrite IH; [|rewrite Hq, length_app; simpl; lia|exact Hes].
      rewrite Hq, <- app_assoc. reflexivity.
    + fold (run controller CONFIG_UDC_RENESAS_RA_MAX_QMESSAGES (map Isr es) st').
      rewrite IH; [|rewrite Hq; exact Hlen|exact Hes].
      rewrite Hq.
      rewrite !firstn_app.
      replace (CONFIG_UDC_RENESAS_RA_MAX_QMESSAGES - length (drv_msgq st))%nat
        with 0%nat by lia.
      reflexivity.
Qed.

(** X13: events the callback queues keep their order, and when the queue
    overflows it is the latest events that are lost.  Starting from a queue
    within its capacity, after any sequence of events (none of them a bus
    event) the types and Controller events of the queued messages are those
    of the first CONFIG_UDC_RENESAS_RA_MAX_QMESSAGES entries of the old
    queue followed by the events in order, each with type
    [UDC_RENESAS_RA_EVT_HAL].  The [ep] member of these messages, which the
    callback does not write, is left out of the statement. *)
Theorem callback_keeps_order (controller : list obs -> hal_call -> Z)
        (es : list usbd_event_t) (st : udc_state) :
  (length (drv_msgq st) <= CONFIG_UDC_RENESAS_RA_MAX_QMESSAGES)%nat ->
  Forall (fun e => is_bus_event e = false) es ->
  map msg_payload
      (drv_msgq (run controller CONFIG_UDC_RENESAS_RA_MAX_QMESSAGES
                     (map Isr es) st)) =
    firstn CONFIG_UDC_RENESAS_RA_MAX_QMESSAGES
           (map msg_payload (drv_msgq st) ++
            map (fun e => (UDC_RENESAS_RA_EVT_HAL, e)) es).
Proof.
  intros Hlen Hall.
  rewrite (callback_queue_contents controller es st Hlen Hall).
  rewrite <- firstn_map, map_app, map_map. reflexivity.
Qed.

(** X14: neither the callback nor [ep_enqueue] calls into the Controller,
    and neither changes the control stage, the control pool, the interrupt
    lock or the busy flag of any endpoint; the callback changes no endpoint
    at all. *)
Theorem producers_do_not_touch_transfers (st : udc_state) :
  (forall e st',
      udc_renesas_ra_event_handler CONFIG_UDC_RENESAS_RA_MAX_QMESSAGES st e = Some st' ->
      eps st' = eps st /\ hal_calls (trace st') = hal_calls (trace st) /\
      stage st' = stage st /\ pool st' = pool st /\ irq_locked st' = irq_locked st) /\
  (forall addr buf r st',
      udc_renesas_ra_ep_enqueue CONFIG_UDC_RENESAS_RA_MAX_QMESSAGES st addr buf =
        Some (r, st') ->
      (forall a, stat_busy (eps st' a) = stat_busy (eps st a)) /\
      hal_calls (trace st') = hal_calls (trace st) /\
      stage st' = stage st /\ pool st' = pool st /\ irq_locked st' = irq_locked st).
Proof.
  split.
  - intros e st'. unfold udc_renesas_ra_event_handler, k_msgq_put, udc_submit_event.
    destruct (length (drv_msgq st) <? CONFIG_UDC_RENESAS_RA_MAX_QMESSAGES)%nat;
      destruct (event_id e); intro E; inversion E; subst; simpl;
      rewrite hal_calls_app; simpl; rewrite app_nil_r; repeat split; reflexivity.
  - intros addr buf r st'. unfold udc_renesas_ra_ep_enqueue, k_msgq_put, udc_buf_put.
    destruct (length _ <? CONFIG_UDC_RENESAS_RA_MAX_QMESSAGES)%nat;
      intro E; inversion E; subst; simpl;
      rewrite hal_calls_app; simpl; rewrite app_nil_r;
      (split; [|repeat split; reflexivity]);
      intro a; unfold upd_ep; destruct (Z.eqb_spec a addr) as [->|];
      reflexivity.
Qed.

End Callback.

Lemma worker_ignores_other_events_witness :
  renesas_ra_thread_step controller_fail st_func_call =
    Some (emit (with_msgq st_func_call []) (Got (hal_msg func_call_evt))).
Proof.
  apply (worker_ignores_other_events controller_fail st_func_call
           (hal_msg func_call_evt) []); try reflexivity; discriminate.
Defined.

Lemma bus_events_bypass_queue_witness :
  udc_renesas_ra_event_handler 1 st_full bus_reset_evt =
    Some (emit st_full (Up (BusEvent UDC_EVT_RESET))).
Proof.
  apply (bus_events_bypass_queue 1 st_full bus_reset_evt UDC_EVT_RESET).
  simpl. left. reflexivity.
Defined.

Lemma callback_keeps_order_witness :
  map msg_payload
      (drv_msgq
         (run controller_ok 2
              (map Isr [xfer_complete_evt 1 USBD_XFER_RESULT_SUCCESS 8;
                        func_call_evt;
                        xfer_complete_evt 129 USBD_XFER_RESULT_SUCCESS 10])
              (init_state []))) =
    [(UDC_RENESAS_RA_EVT_HAL, xfer_complete_evt 1 USBD_XFER_RESULT_SUCCESS 8);
     (UDC_RENESAS_RA_EVT_HAL, func_call_evt)].
Proof.
  refine (callback_keeps_order 2 controller_ok
            [xfer_complete_evt 1 USBD_XFER_RESULT_SUCCESS 8; func_call_evt;
             xfer_complete_evt 129 USBD_XFER_RESULT_SUCCESS 10]
            (init_state []) _ _).
  - simpl. lia.
  - repeat constructor.
Defined.

Lemma producers_do_not_touch_transfers_witness :
  hal_calls
    (trace (step controller_ok 8 st_in_flight (Enqueue 129 buf_in_b))) =
    hal_calls (trace st_in_flight).
Proof.
  destruct (producers_do_not_touch_transfers 8 st_in_flight) as [_ H].
  destruct (H 129 buf_in_b 0
              (step controller_ok 8 st_in_flight (Enqueue 129 buf_in_b)) eq_refl)
    as (_ & Hc & _).
  exact Hc.
Defined.

(** ** Further properties of the endpoint operations *)

Section EndpointOperations.

Variable controller : list obs -> hal_call -> Z.

Lemma dequeue_empties (st : udc_state) (addr : Z) :
  fifo (eps (snd (udc_renesas_ra_ep_dequeue controller st addr)) addr) = [].
Proof.
  unfold udc_renesas_ra_ep_dequeue, irq_lock, irq_unlock, udc_buf_get_all,
    udc_submit_ep_event, hal_do, udc_ep_set_busy.
  cbv beta iota zeta. cbn [eps with_irq].
  destruct (fifo (eps st addr)) as [|b q] eqn:Hq; cbv beta iota zeta;
    case_result; cbv beta iota zeta delta [negb snd];
    cbn [eps with_irq with_eps emit snd];
    rewrite ?upd_ep_same; cbn [fifo set_busy set_fifo];
    rewrite ?upd_ep_same; try exact Hq; reflexivity.
Qed.

(** X15: the interrupt lock of [ep_dequeue].  When the call returns 0 the
    lock is back in the state it had before the call.  Otherwise the result
    is -EIO, the Controller has refused the abort, the interrupts are left
    locked and the busy flag is as it was, while the queue has been emptied
    all the same. *)
Theorem dequeue_interrupt_lock (st : udc_state) (addr : Z) :
  let res := udc_renesas_ra_ep_dequeue controller st addr in
  (fst res = 0 -> irq_locked (snd res) = irq_locked st) /\
  (fst res <> 0 ->
   fst res = - EIO /\
   irq_locked (snd res) = true /\
   stat_busy (eps (snd res) addr) = stat_busy (eps st addr) /\
   fifo (eps (snd res) addr) = []).
Proof.
  intro res.
  assert (Hq : fifo (eps (snd res) addr) = []) by apply dequeue_empties.
  revert Hq. unfold res, udc_renesas_ra_ep_dequeue, irq_lock, irq_unlock,
    udc_buf_get_all, udc_submit_ep_event, hal_do, udc_ep_set_busy.
  cbv beta iota zeta. cbn [eps with_irq].
  destruct (fifo (eps st addr)) as [|b q]; cbv beta iota zeta;
    case_result; cbv beta iota zeta delta [negb snd fst];
    cbn [eps with_irq with_eps emit irq_locked]; intro Hq;
    (split; [intro H; try reflexivity; discriminate H|]);
    intro H; try (exfalso; apply H; reflexivity);
    (split; [reflexivity|]); (split; [reflexivity|]);
    (split; [|exact Hq]);
    rewrite ?upd_ep_same; reflexivity.
Qed.

(** X16: after [ep_dequeue], whatever it returned, the endpoint's queue is
    empty; so a start message still pending for the endpoint does nothing
    when the worker gets to it, and a second [ep_dequeue] reports nothing
    upstream: it only repeats the abort call. *)
Theorem dequeue_then_nothing_to_do (st : udc_state) (addr : Z) :
  let st1 := snd (udc_renesas_ra_ep_dequeue controller st addr) in
  let st2 := snd (udc_renesas_ra_ep_dequeue controller st1 addr) in
  fifo (eps st1 addr) = [] /\
  udc_event_xfer_next controller st1 addr = st1 /\
  upstream (trace st2) = upstream (trace st1) /\
  hal_calls (trace st2) = hal_calls (trace st1) ++ [R_USBD_XferAbort addr].
Proof.
  intros st1 st2.
  assert (Hq : fifo (eps st1 addr) = []) by apply dequeue_empties.
  split; [exact Hq|]. split.
  - unfold udc_event_xfer_next, udc_buf_peek. rewrite Hq.
    destruct (udc_ep_is_busy st1 addr); reflexivity.
  - pose proof (dequeue_trace controller st1 addr) as [Ht _].
    rewrite Hq in Ht. simpl in Ht. fold st2 in Ht. rewrite Ht.
    rewrite upstream_app, hal_calls_app. simpl. rewrite app_nil_r.
    split; reflexivity.
Qed.

(** X17: enabling or disabling an endpoint other than the control
    endpoints makes exactly one Controller call ([R_USBD_EdptOpen] with the
    address, attributes, maximum packet size and interval of the endpoint's
    configuration, or [R_USBD_EdptClose] with the address), returns 0 if the
    Controller accepts it and -EIO otherwise, and changes nothing in the
    driver: no endpoint flag, no queue. *)
Theorem ep_enable_disable_outcomes (st : udc_state) (addr : Z) :
  USB_EP_GET_IDX addr <> 0 ->
  let cfg := eps st addr in
  let open := R_USBD_EdptOpen addr (attributes cfg) (mps cfg) (interval cfg) in
  let close := R_USBD_EdptClose addr in
  udc_renesas_ra_ep_enable controller st addr =
    ((if controller (trace st) open =? FSP_SUCCESS then 0 else - EIO),
     emit st (Hal open (controller (trace st) open))) /\
  udc_renesas_ra_ep_disable controller st addr =
    ((if controller (trace st) close =? FSP_SUCCESS then 0 else - EIO),
     emit st (Hal close (controller (trace st) close))).
Proof.
  intros Hi cfg open close. subst cfg open close.
  unfold udc_renesas_ra_ep_enable, udc_renesas_ra_ep_disable, hal_do.
  apply Z.eqb_neq in Hi. rewrite Hi. cbv zeta.
  split; case_result; reflexivity.
Qed.

End EndpointOperations.

Lemma dequeue_interrupt_lock_witness :
  fst (udc_renesas_ra_ep_dequeue controller_no_abort st_in_flight 129) = - EIO /\
  irq_locked (snd (udc_renesas_ra_ep_dequeue controller_no_abort st_in_flight 129))
    = true /\
  stat_busy (eps (snd (udc_renesas_ra_ep_dequeue controller_no_abort
                         st_in_flight 129)) 129) = true.
Proof.
  destruct (dequeue_interrupt_lock controller_no_abort st_in_flight 129) as [_ H].
  destruct H as (H1 & H2 & H3 & _); [discriminate|].
  repeat split; assumption.
Defined.

Lemma ep_enable_disable_outcomes_witness :
  fst (udc_renesas_ra_ep_enable controller_fail st_two_out 1) = - EIO /\
  fst (udc_renesas_ra_ep_disable controller_ok st_two_out 129) = 0.
Proof.
  split.
  - destruct (ep_enable_disable_outcomes controller_fail st_two_out 1) as [H _];
      [discriminate|]. rewrite H. reflexivity.
  - destruct (ep_enable_disable_outcomes controller_ok st_two_out 129) as [_ H];
      [discriminate|]. rewrite H. reflexivity.
Defined.

(** ** Whole transfers *)

Section Lifecycle.

Variable controller : list obs -> hal_call -> Z.
Variable CONFIG_UDC_RENESAS_RA_MAX_QMESSAGES : nat.

(** The steps of the system, one equation each. *)
Lemma step_enqueue_room (st : udc_state) (addr : Z) (buf : net_buf) :
  (length (drv_msgq st) < CONFIG_UDC_RENESAS_RA_MAX_QMESSAGES)%nat ->
  addr <> USB_CONTROL_EP_IN ->
  let evt := mk_evt UDC_RENESAS_RA_EVT_XFER hal_evt_zero addr in
  step controller CONFIG_UDC_RENESAS_RA_MAX_QMESSAGES st (Enqueue addr buf) =
    emit (with_msgq (udc_buf_put st addr buf) (drv_msgq st ++ [evt])) (Put evt 0).
Proof.
  intros Hroom Hne evt. simpl. unfold udc_renesas_ra_ep_enqueue.
  apply Z.eqb_neq in Hne. rewrite Hne. simpl andb. cbv iota.
  rewrite k_msgq_put_room by exact Hroom. reflexivity.
Qed.

Lemma step_isr_room (st : udc_state) (e : usbd_event_t) :
  (length (drv_msgq st) < CONFIG_UDC_RENESAS_RA_MAX_QMESSAGES)%nat ->
  is_bus_event e = false ->
  step controller CONFIG_UDC_RENESAS_RA_MAX_QMESSAGES st (Isr e) =
    emit (with_msgq st (drv_msgq st ++ [hal_msg e])) (Put (hal_msg e) 0).
Proof.
  intros Hroom Hb. simpl. unfold udc_renesas_ra_event_handler.
  rewrite k_msgq_put_room by exact Hroom.
  unfold is_bus_event in Hb. destruct (event_id e); try discriminate; reflexivity.
Qed.

Lemma step_worker_xfer (st : udc_state) (ep : Z) (h : usbd_event_t)
      (q : list udc_renesas_ra_evt) :
  drv_msgq st = mk_evt UDC_RENESAS_RA_EVT_XFER h ep :: q ->
  step controller CONFIG_UDC_RENESAS_RA_MAX_QMESSAGES st Worker =
    udc_event_xfer_next controller
      (emit (with_msgq st q) (Got (mk_evt UDC_RENESAS_RA_EVT_XFER h ep))) ep.
Proof.
  intro Hq. simpl. unfold renesas_ra_thread_step, k_msgq_get. rewrite Hq.
  reflexivity.
Qed.

Lemma step_worker_complete (st : udc_state) (ep len : Z) (res : usbd_xfer_result_t)
      (q : list udc_renesas_ra_evt) :
  drv_msgq st = hal_msg (xfer_complete_evt ep res len) :: q ->
  step controller CONFIG_UDC_RENESAS_RA_MAX_QMESSAGES st Worker =
    udc_event_xfer_complete controller
      (emit (with_msgq st q) (Got (hal_msg (xfer_complete_evt ep res len))))
      (hal_msg (xfer_complete_evt ep res len)).
Proof.
  intro Hq. simpl. unfold renesas_ra_thread_step, k_msgq_get. rewrite Hq.
  reflexivity.
Qed.

(** X18: a whole transfer on an idle OUT endpoint other than the
    control-OUT endpoint, with an empty message queue and a Controller that
    accepts the start: the buffer is enqueued, the worker starts it, the
    Controller reports success with [len] bytes received and the worker
    completes it.  In all there is one [R_USBD_XferStart], made for the
    buffer with its capacity as length, and one upstream event, the buffer
    with the received length added and status 0; afterwards the endpoint is
    idle again, its queue and the message queue empty. *)
Theorem out_transfer_lifecycle (st : udc_state) (a len : Z) (buf : net_buf) :
  USB_EP_DIR_IS_OUT a = true ->
  a <> USB_CONTROL_EP_OUT ->
  stat_busy (eps st a) = false ->
  fifo (eps st a) = [] ->
  drv_msgq st = [] ->
  (1 <= CONFIG_UDC_RENESAS_RA_MAX_QMESSAGES)%nat ->
  (forall t, controller t (start_call a buf) = FSP_SUCCESS) ->
  let st' := run controller CONFIG_UDC_RENESAS_RA_MAX_QMESSAGES
                 [Enqueue a buf; Worker;
                  Isr (xfer_complete_evt a USBD_XFER_RESULT_SUCCESS len); Worker]
                 st in
  hal_calls (trace st') =
    hal_calls (trace st) ++ [R_USBD_XferStart a (Some (nb_id buf)) (nb_size buf)] /\
  upstream (trace st') =
    upstream (trace st) ++ [EpRequest [net_buf_add buf len] 0] /\
  fifo (eps st' a) = [] /\
  stat_busy (eps st' a) = false /\
  drv_msgq st' = [].
Proof.
  intros Ho Hne Hb Hq Hm Hmax Hacc st'.
  pose proof (out_is_not_in a Ho) as Hi.
  assert (Hni : a <> USB_CONTROL_EP_IN).
  { intro E. rewrite E in Ho. discriminate Ho. }
  unfold st', run. cbn [fold_left].
  (* enqueue *)
  rewrite step_enqueue_room; [|rewrite Hm; simpl; lia|exact Hni].
  rewrite Hm. cbn [app].
  (* the worker starts the transfer *)
  match goal with
  | |- context [step _ _ (step _ _ ?x Worker) (Isr _)] =>
      rewrite (step_worker_xfer x a hal_evt_zero []) by reflexivity
  end.
  match goal with
  | |- context [udc_event_xfer_next controller ?x a] => set (s1 := x)
  end.
  assert (Hq1 : fifo (eps s1 a) = [buf]).
  { unfold s1, udc_buf_put. cbn [eps emit with_msgq with_eps].
    rewrite upd_ep_same. cbn [fifo set_fifo]. rewrite Hq. reflexivity. }
  assert (Hb1 : stat_busy (eps s1 a) = false).
  { unfold s1, udc_buf_put. cbn [eps emit with_msgq with_eps].
    rewrite upd_ep_same. exact Hb. }
  assert (Hm1 : drv_msgq s1 = []) by reflexivity.
  assert (Ht1 : hal_calls (trace s1) = hal_calls (trace st) /\
                upstream (trace s1) = upstream (trace st)).
  { unfold s1, udc_buf_put. cbn [trace emit with_msgq with_eps].
    rewrite !hal_calls_app, !upstream_app. simpl. rewrite !app_nil_r.
    split; reflexivity. }
  destruct Ht1 as [Hh1 Hu1].
  destruct (xfer_next_accepted controller s1 a buf [] Hb1 Hq1 (Hacc _))
    as (Ht2 & Hb2 & Hq2).
  pose proof (msgq_xfer_next controller s1 a) as Hm2. rewrite Hm1 in Hm2.
  clearbody s1.
  set (s2 := udc_event_xfer_next controller s1 a) in *.
  (* the Controller reports the completion *)
  rewrite step_isr_room; [|rewrite Hm2; simpl; lia|reflexivity].
  rewrite Hm2. cbn [app].
  (* the worker completes the transfer *)
  erewrite step_worker_complete by reflexivity.
  match goal with
  | |- context [udc_event_xfer_complete controller ?x _] => set (s3 := x)
  end.
  assert (Hq3 : fifo (eps s3 a) = [buf]) by exact Hq2.
  assert (Ht3 : trace s3 =
                trace s2 ++
                [Put (hal_msg (xfer_complete_evt a USBD_XFER_RESULT_SUCCESS len)) 0;
                 Got (hal_msg (xfer_complete_evt a USBD_XFER_RESULT_SUCCESS len))]).
  { unfold s3. cbn [trace emit with_msgq]. rewrite <- app_assoc. reflexivity. }
  assert (Hm3 : drv_msgq s3 = []) by reflexivity.
  assert (Hz : USB_EP_DIR_IS_IN a && bi_zlp buf = false) by (rewrite Hi; reflexivity).
  destruct (complete_reports_head controller s3 a len buf [] Hni Hne Hq3 Hz)
    as (Ht4 & Hq4 & Hb4).
  pose proof (msgq_complete controller s3
                (hal_msg (xfer_complete_evt a USBD_XFER_RESULT_SUCCESS len))) as Hm4.
  rewrite Hm3 in Hm4. rewrite Ho in Ht4.
  split; [|split; [|split; [|split]]]; try assumption.
  - rewrite Ht4, Ht3, Ht2. repeat rewrite hal_calls_app. simpl.
    rewrite !app_nil_r, Hh1. unfold start_call. rewrite Hi. reflexivity.
  - rewrite Ht4, Ht3, Ht2. repeat rewrite upstream_app. simpl.
    rewrite !app_nil_r, Hu1. reflexivity.
Qed.

End Lifecycle.

Lemma out_transfer_lifecycle_witness :
  upstream
    (trace (run controller_ok 4
                [Enqueue 1 buf_out_a; Worker;
                 Isr (xfer_complete_evt 1 USBD_XFER_RESULT_SUCCESS 24); Worker]
                (init_state []))) =
    [EpRequest [net_buf_add buf_out_a 24] 0].
Proof.
  refine (proj1 (proj2 (out_transfer_lifecycle controller_ok 4 (init_state [])
                          1 24 buf_out_a eq_refl _ eq_refl eq_refl eq_refl _ _))).
  - discriminate.
  - lia.
  - reflexivity.
Defined.

Section Simulation.

Variable controller : list obs -> hal_call -> Z.
Variable CONFIG_UDC_RENESAS_RA_MAX_QMESSAGES : nat.
Variable a : Z.

Hypothesis a_out : USB_EP_DIR_IS_OUT a = true.
Hypothesis a_not_ctrl : a <> USB_CONTROL_EP_OUT.

Lemma a_not_ctrl_in_ep : a <> USB_CONTROL_EP_IN.
Proof. intro E. rewrite E in a_out. discriminate a_out. Qed.

Lemma sim_enqueue (s : udc_state) q b m h u (buf : net_buf) :
  at_state a s q b m h u ->
  (length m < CONFIG_UDC_RENESAS_RA_MAX_QMESSAGES)%nat ->
  at_state a (step controller CONFIG_UDC_RENESAS_RA_MAX_QMESSAGES s (Enqueue a buf))
           (q ++ [buf]) b (m ++ [xfer_msg a]) h u.
Proof.
  intros (Hq & Hb & Hm & Hh & Hu) Hroom.
  rewrite step_enqueue_room; [|rewrite Hm; exact Hroom|exact a_not_ctrl_in_ep].
  unfold at_state, udc_buf_put. cbn [eps trace drv_msgq emit with_msgq with_eps].
  rewrite upd_ep_same, hal_calls_app, upstream_app. simpl.
  rewrite !app_nil_r, Hq, Hb, Hm, Hh, Hu. repeat split; reflexivity.
Qed.

Lemma sim_isr (s : udc_state) q b m h u (e : usbd_event_t) :
  at_state a s q b m h u ->
  (length m < CONFIG_UDC_RENESAS_RA_MAX_QMESSAGES)%nat ->
  is_bus_event e = false ->
  at_state a (step controller CONFIG_UDC_RENESAS_RA_MAX_QMESSAGES s (Isr e))
           q b (m ++ [hal_msg e]) h u.
Proof.
  intros (Hq & Hb & Hm & Hh & Hu) Hroom He.
  rewrite step_isr_room; [|rewrite Hm; exact Hroom|exact He].
  unfold at_state. cbn [eps trace drv_msgq emit with_msgq].
  rewrite hal_calls_app, upstream_app. simpl.
  rewrite !app_nil_r, Hm. repeat split; assumption.
Qed.

Lemma sim_start (s : udc_state) (buf : net_buf) q m h u :
  at_state a s (buf :: q) false (xfer_msg a :: m) h u ->
  (forall t, controller t (start_call a buf) = FSP_SUCCESS) ->
  at_state a (step controller CONFIG_UDC_RENESAS_RA_MAX_QMESSAGES s Worker)
           (buf :: q) true m (h ++ [start_call a buf]) u.
Proof.
  intros (Hq & Hb & Hm & Hh & Hu) Hacc.
  rewrite (step_worker_xfer controller _ s a hal_evt_zero m) by exact Hm.
  set (s1 := emit (with_msgq s m) (Got _)).
  destruct (xfer_next_accepted controller s1 a buf q Hb Hq (Hacc _))
    as (Ht & Hb' & Hq').
  pose proof (msgq_xfer_next controller s1 a) as Hm'.
  unfold at_state. rewrite Ht, Hm'. unfold s1.
  cbn [trace drv_msgq emit with_msgq].
  rewrite !hal_calls_app, !upstream_app. simpl. rewrite !app_nil_r, Hh, Hu.
  repeat split; assumption.
Qed.

Lemma sim_start_while_busy (s : udc_state) q m h u :
  at_state a s q true (xfer_msg a :: m) h u ->
  at_state a (step controller CONFIG_UDC_RENESAS_RA_MAX_QMESSAGES s Worker)
           q true m h u.
Proof.
  intros (Hq & Hb & Hm & Hh & Hu).
  rewrite (step_worker_xfer controller _ s a hal_evt_zero m) by exact Hm.
  unfold udc_event_xfer_next, udc_ep_is_busy.
  cbn [eps emit with_msgq]. rewrite Hb.
  unfold at_state. cbn [eps trace drv_msgq emit with_msgq].
  rewrite hal_calls_app, upstream_app. simpl. rewrite !app_nil_r.
  repeat split; assumption.
Qed.

Lemma sim_complete (s : udc_state) (buf : net_buf) (len : Z) q b m h u :
  at_state a s (buf :: q) b
           (hal_msg (xfer_complete_evt a USBD_XFER_RESULT_SUCCESS len) :: m) h u ->
  at_state a (step controller CONFIG_UDC_RENESAS_RA_MAX_QMESSAGES s Worker)
           q false m h (u ++ [EpRequest [net_buf_add buf len] 0]).
Proof.
  intros (Hq & Hb & Hm & Hh & Hu).
  rewrite (step_worker_complete controller _ s a len USBD_XFER_RESULT_SUCCESS m)
    by exact Hm.
  set (s1 := emit (with_msgq s m) (Got _)).
  assert (Hz : USB_EP_DIR_IS_IN a && bi_zlp buf = false)
    by (rewrite (out_is_not_in a a_out); reflexivity).
  destruct (complete_reports_head controller s1 a len buf q a_not_ctrl_in_ep
                                  a_not_ctrl Hq Hz) as (Ht & Hq' & Hb').
  pose proof (msgq_complete controller s1
                (hal_msg (xfer_complete_evt a USBD_XFER_RESULT_SUCCESS len))) as Hm'.
  rewrite a_out in Ht.
  unfold at_state. rewrite Ht, Hm'. unfold s1.
  cbn [trace drv_msgq emit with_msgq].
  rewrite !hal_calls_app, !upstream_app. simpl. rewrite !app_nil_r, Hh, Hu.
  repeat split; assumption.
Qed.

(** X19: the driver starts a queued buffer only when a start message
    arrives.  Two buffers are enqueued back to back on an idle OUT endpoint
    (not the control-OUT endpoint); the worker starts the first, finds the
    endpoint busy at the second start message, and later completes the
    first.  At that point the second buffer is at the head of the queue,
    the endpoint is not busy, no [R_USBD_XferStart] has been made for the
    second buffer and no message is left: the worker blocks, and the second
    buffer waits for the next start message. *)
Theorem second_buffer_waits (st : udc_state) (len : Z) (b1 b2 : net_buf) :
  stat_busy (eps st a) = false ->
  fifo (eps st a) = [] ->
  drv_msgq st = [] ->
  (2 <= CONFIG_UDC_RENESAS_RA_MAX_QMESSAGES)%nat ->
  (forall t, controller t (start_call a b1) = FSP_SUCCESS) ->
  let st' := run controller CONFIG_UDC_RENESAS_RA_MAX_QMESSAGES
                 [Enqueue a b1; Enqueue a b2; Worker; Worker;
                  Isr (xfer_complete_evt a USBD_XFER_RESULT_SUCCESS len); Worker]
                 st in
  fifo (eps st' a) = [b2] /\
  stat_busy (eps st' a) = false /\
  hal_calls (trace st') = hal_calls (trace st) ++ [start_call a b1] /\
  upstream (trace st') = upstream (trace st) ++ [EpRequest [net_buf_add b1 len] 0] /\
  drv_msgq st' = [] /\
  renesas_ra_thread_step controller st' = None.
Proof.
  intros Hb Hq Hm Hmax Hacc st'.
  assert (H0 : at_state a st [] false [] (hal_calls (trace st)) (upstream (trace st))).
  { repeat split; assumption. }
  apply (sim_enqueue _ _ _ _ _ _ b1) in H0; [|simpl; lia].
  apply (sim_enqueue _ _ _ _ _ _ b2) in H0; [|simpl; lia].
  apply sim_start in H0; [|exact Hacc].
  apply sim_start_while_busy in H0.
  apply (sim_isr _ _ _ _ _ _ (xfer_complete_evt a USBD_XFER_RESULT_SUCCESS len))
    in H0; [|simpl; lia|reflexivity].
  apply sim_complete in H0.
  destruct H0 as (Hq' & Hb' & Hm' & Hh' & Hu').
  change (fifo (eps st' a) = [b2]) in Hq'.
  change (stat_busy (eps st' a) = false) in Hb'.
  change (drv_msgq st' = []) in Hm'.
  change (hal_calls (trace st') = hal_calls (trace st) ++ [start_call a b1]) in Hh'.
  change (upstream (trace st') =
          upstream (trace st) ++ [EpRequest [net_buf_add b1 len] 0]) in Hu'.
  repeat split; try assumption.
  unfold renesas_ra_thread_step, k_msgq_get. rewrite Hm'. reflexivity.
Qed.

End Simulation.

Lemma second_buffer_waits_witness :
  fifo (eps (run controller_ok 8
               [Enqueue 1 buf_out_a; Enqueue 1 buf_out_b; Worker; Worker;
                Isr (xfer_complete_evt 1 USBD_XFER_RESULT_SUCCESS 24); Worker]
               (init_state [])) 1) = [buf_out_b].
Proof.
  refine (proj1 (second_buffer_waits controller_ok 8 1 eq_refl _ (init_state [])
                   24 buf_out_a buf_out_b eq_refl eq_refl eq_refl _ _)).
  - discriminate.
  - lia.
  - reflexivity.
Defined.

(** ** The in-flight buffer stays queued *)

Section BusyBuffer.

Variable controller : list obs -> hal_call -> Z.
Variable CONFIG_UDC_RENESAS_RA_MAX_QMESSAGES : nat.
Variable a : Z.

Hypothesis a_not_ctrl_out : a <> USB_CONTROL_EP_OUT.
Hypothesis a_not_ctrl_in : a <> USB_CONTROL_EP_IN.
Hypothesis aborts_accepted :
  forall t, controller t (R_USBD_XferAbort a) = FSP_SUCCESS.

Lemma complete_clears_busy (st : udc_state) (e : udc_renesas_ra_evt) :
  xc_ep_addr (xfer_complete (evt_hal_evt e)) <> USB_CONTROL_EP_OUT ->
  stat_busy (eps (udc_event_xfer_complete controller st e)
                 (xc_ep_addr (xfer_complete (evt_hal_evt e)))) = false.
Proof.
  intro H. unfold_handlers. unfold udc_ep_set_busy.
  split_branches;
    cbn [eps with_eps with_stage with_pool with_msgq with_irq emit];
    repeat (first [rewrite upd_ep_same | rewrite upd_ep_other by assumption];
            cbn [stat_busy set_fifo set_busy]);
    reflexivity.
Qed.

Lemma xfer_next_keeps_buffer (st : udc_state) :
  busy_has_buffer a st -> busy_has_buffer a (udc_event_xfer_next controller st a).
Proof.
  unfold busy_has_buffer, udc_event_xfer_next, udc_ep_is_busy, udc_buf_peek.
  intro H. destruct (stat_busy (eps st a)) eqn:Hb;
    [cbv iota; intros _; apply H; reflexivity|].
  destruct (fifo (eps st a)) as [|buf q] eqn:Hq;
    [simpl; rewrite Hb; intro H1; discriminate H1|].
  simpl. unfold hal_do, udc_submit_ep_event, udc_ep_set_busy.
  destruct (USB_EP_DIR_IS_IN a); cbv beta iota zeta; case_result;
    cbv beta iota zeta delta [negb snd];
    cbn [eps with_eps emit]; rewrite ?upd_ep_same; cbn [fifo stat_busy set_busy];
    rewrite ?Hq, ?Hb; intro H1; discriminate.
Qed.

Lemma dequeue_keeps_buffer (st : udc_state) :
  busy_has_buffer a (snd (udc_renesas_ra_ep_dequeue controller st a)).
Proof.
  unfold busy_has_buffer.
  unfold udc_renesas_ra_ep_dequeue, irq_lock, irq_unlock, udc_buf_get_all,
    udc_submit_ep_event, hal_do, udc_ep_set_busy.
  cbv beta iota zeta. cbn [eps with_irq trace].
  destruct (fifo (eps st a)) as [|b q]; cbv beta iota zeta;
    cbn [trace emit with_eps with_irq]; rewrite aborts_accepted;
    cbv beta iota zeta delta [negb snd]; simpl;
    rewrite ?upd_ep_same; simpl; intro H; discriminate H.
Qed.

Lemma busy_has_buffer_same (s s' : udc_state) :
  eps s' a = eps s a -> busy_has_buffer a s -> busy_has_buffer a s'.
Proof. unfold busy_has_buffer. intros E H. rewrite E. exact H. Qed.

Lemma busy_buffer_step (st : udc_state) (act : action) :
  busy_has_buffer a st ->
  busy_has_buffer a (step controller CONFIG_UDC_RENESAS_RA_MAX_QMESSAGES st act).
Proof.
  intro H. destruct act as [e| |addr buf|addr]; simpl.
  - destruct (udc_renesas_ra_event_handler _ st e) as [st'|] eqn:E; [|exact H].
    apply (busy_has_buffer_same st); [|exact H].
    revert E. unfold udc_renesas_ra_event_handler, k_msgq_put, udc_submit_event.
    destruct (length (drv_msgq st) <? CONFIG_UDC_RENESAS_RA_MAX_QMESSAGES)%nat;
      destruct (event_id e); intro E; inversion E; reflexivity.
  - unfold renesas_ra_thread_step, k_msgq_get.
    destruct (drv_msgq st) as [|e q]; [exact H|].
    assert (H0 : busy_has_buffer a (emit (with_msgq st q) (Got e))) by exact H.
    destruct (evt_type e).
    + destruct (event_id (evt_hal_evt e)); try exact H0.
      * apply (busy_has_buffer_same (emit (with_msgq st q) (Got e))); [|exact H0].
        apply eps_setup. exact a_not_ctrl_out.
      * destruct (Z.eq_dec a (xc_ep_addr (xfer_complete (evt_hal_evt e))))
          as [Ea|Ea].
        -- intro Hb. exfalso. rewrite Ea in Hb.
           rewrite complete_clears_busy in Hb; [discriminate Hb|].
           rewrite <- Ea. exact a_not_ctrl_out.
        -- apply (busy_has_buffer_same (emit (with_msgq st q) (Got e)));
             [|exact H0].
           apply eps_complete; assumption.
    + destruct (Z.eq_dec a (evt_ep e)) as [Ea|Ea].
      * rewrite <- Ea. apply xfer_next_keeps_buffer. exact H0.
      * apply (busy_has_buffer_same (emit (with_msgq st q) (Got e))); [|exact H0].
        apply eps_xfer_next. exact Ea.
    + apply (busy_has_buffer_same (emit (with_msgq st q) (Got e))); [|exact H0].
      apply eps_status_in; assumption.
  - unfold udc_renesas_ra_ep_enqueue, k_msgq_put, udc_buf_put.
    destruct (length _ <? CONFIG_UDC_RENESAS_RA_MAX_QMESSAGES)%nat;
      unfold busy_has_buffer in *; cbn [eps emit with_msgq with_eps];
      unfold upd_ep; destruct (Z.eqb_spec a addr) as [->|];
      cbn [stat_busy fifo set_fifo]; try exact H;
      intros Hb Hq; apply app_eq_nil in Hq; destruct Hq as [_ Hq];
      discriminate Hq.
  - destruct (Z.eq_dec a addr) as [<-|Ea].
    + apply dequeue_keeps_buffer.
    + apply (busy_has_buffer_same st); [|exact H].
      apply eps_dequeue. exact Ea.
Qed.

(** X20: on an endpoint other than the control endpoints, for which the
    Controller accepts every abort, the busy flag is never set over an
    empty queue: in every state the driver reaches from its initial state,
    a busy endpoint still has a buffer queued. *)
Theorem busy_endpoint_has_buffer (acts : list action) (free : list Z) :
  stat_busy (eps (run controller CONFIG_UDC_RENESAS_RA_MAX_QMESSAGES acts
                      (init_state free)) a) = true ->
  fifo (eps (run controller CONFIG_UDC_RENESAS_RA_MAX_QMESSAGES acts
                 (init_state free)) a) <> [].
Proof.
  assert (H : forall st, busy_has_buffer a st ->
                         busy_has_buffer a
                           (run controller CONFIG_UDC_RENESAS_RA_MAX_QMESSAGES acts st)).
  { induction acts as [|act acts' IH]; intros st Hst; [exact Hst|].
    simpl. apply IH. apply busy_buffer_step. exact Hst. }
  apply (H (init_state free)). intro Hb. discriminate Hb.
Qed.

End BusyBuffer.

Lemma busy_endpoint_has_buffer_witness :
  fifo (eps st_in_flight 129) <> [].
Proof.
  refine (busy_endpoint_has_buffer controller_ok 8 129 _ _ _
            [Enqueue 129 buf_in_a; Worker] [] eq_refl).
  - discriminate.
  - discriminate.
  - reflexivity.
Defined.

(** *** The clock check *)

Lemma clock_passes (opts : build_opts) (c : clock_dev) (rest : list clock_dev) :
  clock_ok opts c ->
  clock_check_loop opts (c :: rest) = clock_check_loop opts rest.
Proof.
  intros [Hr [Hu Hh]]. simpl. rewrite Hr. simpl.
  destruct (String.eqb_spec (clk_name c) "uclk") as [Hn|Hn].
  - rewrite (Hu Hn), Z.eqb_refl. simpl.
    destruct (HAS_RENESAS_RA_USBHS opts); [|reflexivity].
    rewrite Hn. reflexivity.
  - simpl. destruct (HAS_RENESAS_RA_USBHS opts) eqn:Hhs; [|reflexivity].
    destruct (String.eqb_spec (clk_name c) "u60clk") as [Hm|Hm]; [|reflexivity].
    rewrite (Hh eq_refl Hm), Z.eqb_refl. reflexivity.
Qed.

Lemma clock_fails (opts : build_opts) (c : clock_dev) (rest : list clock_dev) :
  ~ clock_ok opts c ->
  clock_check_loop opts (c :: rest) =
  if clk_ready c then - ENOTSUP else - ENODEV.
Proof.
  intro Hno. simpl. destruct (clk_ready c) eqn:Hr; [|reflexivity]. simpl.
  destruct (String.eqb_spec (clk_name c) "uclk") as [Hn|Hn];
    destruct (Z.eqb_spec (clock_rate c) (MHZ 48)) as [H48|H48]; simpl;
      try reflexivity;
      destruct (HAS_RENESAS_RA_USBHS opts) eqn:Hhs; simpl;
        try (exfalso; apply Hno; repeat split; intros; congruence);
        destruct (String.eqb_spec (clk_name c) "u60clk") as [Hm|Hm]; simpl;
          try (exfalso; apply Hno; repeat split; intros; congruence);
          destruct (Z.eqb_spec (clock_rate c) (MHZ 60)) as [H60|H60]; simpl;
            try reflexivity;
            exfalso; apply Hno; repeat split; intros; congruence.
Qed.

Lemma clock_ok_dec (opts : build_opts) (c : clock_dev) :
  clock_ok opts c \/ ~ clock_ok opts c.
Proof.
  unfold clock_ok.
  destruct (clk_ready c); [|right; intros [H _]; discriminate].
  destruct (String.eqb_spec (clk_name c) "uclk") as [Hn|Hn];
    destruct (Z.eqb_spec (clock_rate c) (MHZ 48)) as [H48|H48];
    destruct (HAS_RENESAS_RA_USBHS opts);
    destruct (String.eqb_spec (clk_name c) "u60clk") as [Hm|Hm];
    destruct (Z.eqb_spec (clock_rate c) (MHZ 60)) as [H60|H60];
    try (left; repeat split; intros; congruence);
    right; intros [_ [H1 H2]]; auto.
Qed.

Lemma clock_check_loop_zero (opts : build_opts) (clocks : list clock_dev) :
  clock_check_loop opts clocks = 0 <-> Forall (clock_ok opts) clocks.
Proof.
  induction clocks as [|c rest IH].
  - split; [constructor|reflexivity].
  - destruct (clock_ok_dec opts c) as [Hc|Hc].
    + rewrite (clock_passes opts c rest Hc), IH. split.
      * intro H. constructor; assumption.
      * intro H. inversion H. assumption.
    + rewrite (clock_fails opts c rest Hc). split.
      * destruct (clk_ready c); discriminate.
      * intro H. inversion H. contradiction.
Qed.

Lemma clock_check_range (opts : build_opts) (speed : udc_bus_speed)
      (clocks : list clock_dev) :
  udc_renesas_ra_clock_check opts speed clocks = 0 \/
  udc_renesas_ra_clock_check opts speed clocks < 0.
Proof.
  unfold udc_renesas_ra_clock_check.
  destruct (USBHS_PHY_CLOCK_SOURCE_IS_XTAL opts && bus_speed_is_hs speed).
  - destruct (BSP_CFG_XTAL_HZ opts =? 0); [right|left]; reflexivity.
  - induction clocks as [|c rest IH]; [left; reflexivity|].
    destruct (clock_ok_dec opts c) as [Hc|Hc].
    + rewrite (clock_passes opts c rest Hc). exact IH.
    + rewrite (clock_fails opts c rest Hc).
      destruct (clk_ready c); right; reflexivity.
Qed.

Lemma bus_speed_is_hs_true (s : udc_bus_speed) :
  bus_speed_is_hs s = true <-> s = UDC_BUS_SPEED_HS.
Proof. destruct s; simpl; split; congruence. Qed.

(** X21: [udc_renesas_ra_clock_check] returns 0 in exactly two situations:
    the PHY clock comes from the crystal, the module is the high-speed one
    and the crystal frequency is not zero (the clock devices are then not
    looked at); or that short cut does not apply and every clock device is
    ready, "uclk" runs at 48 MHz and, where a high-speed module exists,
    "u60clk" runs at 60 MHz. *)
Theorem clock_check_passes_iff (opts : build_opts) (speed : udc_bus_speed)
        (clocks : list clock_dev) :
  udc_renesas_ra_clock_check opts speed clocks = 0 <->
  (USBHS_PHY_CLOCK_SOURCE_IS_XTAL opts = true /\ speed = UDC_BUS_SPEED_HS /\
   BSP_CFG_XTAL_HZ opts <> 0) \/
  (~ (USBHS_PHY_CLOCK_SOURCE_IS_XTAL opts = true /\ speed = UDC_BUS_SPEED_HS) /\
   Forall (clock_ok opts) clocks).
Proof.
  unfold udc_renesas_ra_clock_check.
  destruct (USBHS_PHY_CLOCK_SOURCE_IS_XTAL opts) eqn:Hx; simpl.
  - destruct (bus_speed_is_hs speed) eqn:Hs.
    + apply bus_speed_is_hs_true in Hs.
      destruct (Z.eqb_spec (BSP_CFG_XTAL_HZ opts) 0) as [Hz|Hz]; split.
      * discriminate.
      * intros [[_ [_ H]]|[H _]]; [contradiction|]. exfalso. apply H. auto.
      * intros _. left. auto.
      * reflexivity.
    + assert (speed <> UDC_BUS_SPEED_HS) as Hn
          by (intro H; apply bus_speed_is_hs_true in H; congruence).
      rewrite clock_check_loop_zero. split.
      * intro H. right. split; [intros [_ H1]; contradiction|exact H].
      * intros [[_ [H _]]|[_ H]]; [contradiction|exact H].
  - rewrite clock_check_loop_zero. split.
    + intro H. right. split; [intros [H1 _]; discriminate|exact H].
    + intros [[H _]|[_ H]]; [discriminate|exact H].
Qed.

(** X22: when the crystal short cut does not apply, the first clock device
    that is not as required decides the result of
    [udc_renesas_ra_clock_check], whatever follows it: [-ENODEV] when it is
    not ready, [-ENOTSUP] when it is ready but runs at the wrong rate. *)
Theorem clock_check_first_failure (opts : build_opts) (speed : udc_bus_speed)
        (pre post : list clock_dev) (c : clock_dev) :
  USBHS_PHY_CLOCK_SOURCE_IS_XTAL opts && bus_speed_is_hs speed = false ->
  Forall (clock_ok opts) pre ->
  ~ clock_ok opts c ->
  udc_renesas_ra_clock_check opts speed (pre ++ c :: post) =
  if clk_ready c then - ENOTSUP else - ENODEV.
Proof.
  intros Hx Hpre Hc. unfold udc_renesas_ra_clock_check. rewrite Hx.
  induction Hpre as [|p pre Hp Hpre IH].
  - apply clock_fails. exact Hc.
  - rewrite <- app_comm_cons, (clock_passes opts p _ Hp). exact IH.
Qed.

Lemma clock_check_first_failure_witness :
  udc_renesas_ra_clock_check opts_hs_xtal UDC_BUS_SPEED_FS
    ([uclk_48; u60clk_60] ++ pclk_down :: [uclk_40]) = - ENODEV /\
  udc_renesas_ra_clock_check opts_hs_xtal UDC_BUS_SPEED_FS
    ([uclk_48] ++ u60clk_48 :: [pclk_down]) = - ENOTSUP.
Proof.
  split.
  - apply (clock_check_first_failure opts_hs_xtal UDC_BUS_SPEED_FS
             [uclk_48; u60clk_60] [uclk_40] pclk_down).
    + reflexivity.
    + repeat constructor; intros; try discriminate; reflexivity.
    + intros [H _]. discriminate H.
  - apply (clock_check_first_failure opts_hs_xtal UDC_BUS_SPEED_FS
             [uclk_48] [pclk_down] u60clk_48).
    + reflexivity.
    + repeat constructor; intros; try discriminate; reflexivity.
    + intros [_ [_ H]]. specialize (H eq_refl eq_refl). discriminate H.
Defined.

(** *** Registering the endpoints *)

Lemma register_loop_all (mk : nat -> ep_cfg_entry) (reg : Z -> Z)
      (idxs : list nat) (w : list ep_cfg_entry) (r : list Z) :
  Forall (fun i => reg (ent_addr (mk i)) = 0) idxs ->
  register_loop mk reg idxs w r =
  (0, w ++ map mk idxs, r ++ map (fun i => ent_addr (mk i)) idxs).
Proof.
  intro H. revert w r. induction H as [|i idxs Hi _ IH]; intros w r; simpl.
  - rewrite !app_nil_r. reflexivity.
  - rewrite Hi. simpl. rewrite IH, <- !app_assoc. reflexivity.
Qed.

Lemma register_loop_refused (mk : nat -> ep_cfg_entry) (reg : Z -> Z)
      (pre post : list nat) (i : nat) (w : list ep_cfg_entry) (r : list Z) :
  Forall (fun i => reg (ent_addr (mk i)) = 0) pre ->
  reg (ent_addr (mk i)) <> 0 ->
  register_loop mk reg (pre ++ i :: post) w r =
  (reg (ent_addr (mk i)), w ++ map mk pre ++ [mk i],
   r ++ map (fun i => ent_addr (mk i)) pre).
Proof.
  intros H Hi. revert w r. induction H as [|j pre Hj _ IH]; intros w r; simpl.
  - apply Z.eqb_neq in Hi. rewrite Hi. simpl. rewrite app_nil_r. reflexivity.
  - rewrite Hj. simpl. rewrite IH, <- !app_assoc. reflexivity.
Qed.

Lemma register_loop_cases (mk : nat -> ep_cfg_entry) (reg : Z -> Z)
      (idxs : list nat) :
  Forall (fun i => reg (ent_addr (mk i)) = 0) idxs \/
  exists pre i post,
    idxs = pre ++ i :: post /\
    Forall (fun i => reg (ent_addr (mk i)) = 0) pre /\
    reg (ent_addr (mk i)) <> 0.
Proof.
  induction idxs as [|j idxs IH].
  - left. constructor.
  - destruct (Z.eq_dec (reg (ent_addr (mk j))) 0) as [Hj|Hj].
    + destruct IH as [IH|[pre [i [post [E [Hp Hi]]]]]].
      * left. constructor; assumption.
      * right. exists (j :: pre), i, post. subst idxs.
        repeat split; [constructor; assumption|exact Hi].
    + right. exists [], j, idxs. repeat split; [constructor|exact Hj].
Qed.

Lemma register_loop_zero (mk : nat -> ep_cfg_entry) (reg : Z -> Z)
      (idxs : list nat) (w w' : list ep_cfg_entry) (r r' : list Z) :
  register_loop mk reg idxs w r = (0, w', r') ->
  Forall (fun i => reg (ent_addr (mk i)) = 0) idxs.
Proof.
  intro H.
  destruct (register_loop_cases mk reg idxs)
    as [Hall|[pre [i [post [E [Hp Hi]]]]]]; [exact Hall|].
  subst idxs. rewrite (register_loop_refused mk reg pre post i w r Hp Hi) in H.
  inversion H. contradiction.
Qed.

(** *** The set-up function *)

Lemma speed_gates_pass (opts : build_opts) (config : udc_renesas_ra_config)
      (u : st_usbd_cfg) :
  negb (USBHS_PHY_CLOCK_SOURCE_IS_XTAL opts)
  && usbd_speed_is_hs (ucfg_usb_speed u) = false ->
  (if bus_speed_is_hs (cfg_speed_idx config)
   then negb (usbd_speed_is_hs (ucfg_usb_speed u)
              || usbd_speed_is_fs (ucfg_usb_speed u))
   else negb (usbd_speed_is_fs (ucfg_usb_speed u))) = false ->
  ucfg_usb_speed u = USBD_SPEED_FS \/
  (ucfg_usb_speed u = USBD_SPEED_HS /\
   cfg_speed_idx config = UDC_BUS_SPEED_HS /\
   USBHS_PHY_CLOCK_SOURCE_IS_XTAL opts = true).
Proof.
  destruct (USBHS_PHY_CLOCK_SOURCE_IS_XTAL opts), (ucfg_usb_speed u),
    (cfg_speed_idx config); simpl; intros; try discriminate; auto.
Qed.

Lemma speed_gates_allowed (opts : build_opts) (config : udc_renesas_ra_config)
      (u : st_usbd_cfg) :
  ucfg_usb_speed u = USBD_SPEED_FS \/
  (ucfg_usb_speed u = USBD_SPEED_HS /\
   cfg_speed_idx config = UDC_BUS_SPEED_HS /\
   USBHS_PHY_CLOCK_SOURCE_IS_XTAL opts = true) ->
  negb (USBHS_PHY_CLOCK_SOURCE_IS_XTAL opts)
  && usbd_speed_is_hs (ucfg_usb_speed u) = false /\
  (if bus_speed_is_hs (cfg_speed_idx config)
   then negb (usbd_speed_is_hs (ucfg_usb_speed u)
              || usbd_speed_is_fs (ucfg_usb_speed u))
   else negb (usbd_speed_is_fs (ucfg_usb_speed u))) = false.
Proof.
  intros [H|[H1 [H2 H3]]].
  - rewrite H. simpl. rewrite andb_false_r.
    destruct (bus_speed_is_hs (cfg_speed_idx config)); auto.
  - rewrite H1, H2, H3. auto.
Qed.

Lemma preinit_ok (opts : build_opts) (config : udc_renesas_ra_config)
      (u : st_usbd_cfg) (pinctrl : Z) (reg : Z -> Z) :
  ucfg_usb_speed u = USBD_SPEED_FS \/
  (ucfg_usb_speed u = USBD_SPEED_HS /\
   cfg_speed_idx config = UDC_BUS_SPEED_HS /\
   USBHS_PHY_CLOCK_SOURCE_IS_XTAL opts = true) ->
  udc_renesas_ra_clock_check opts (cfg_speed_idx config) (cfg_clocks config) = 0 ->
  0 <= pinctrl ->
  let mps := if usbd_speed_is_hs (ucfg_usb_speed u) then 1024 else 1023 in
  let idxs := seq 0 (cfg_num_of_eps config) in
  Forall (fun i => reg (ent_addr (out_entry mps i)) = 0) idxs ->
  Forall (fun i => reg (ent_addr (in_entry mps i)) = 0) idxs ->
  udc_renesas_ra_driver_preinit opts config u pinctrl reg =
  (0, mk_preinit true true true (usbd_speed_is_hs (ucfg_usb_speed u))
        (map (out_entry mps) idxs) (map (in_entry mps) idxs)
        (map (fun i => ent_addr (out_entry mps i)) idxs ++
         map (fun i => ent_addr (in_entry mps i)) idxs)
        (ielsr_writes opts u) true).
Proof.
  intros Hs Hc Hp mps idxs Hout Hin. unfold udc_renesas_ra_driver_preinit.
  destruct (speed_gates_allowed opts config u Hs) as [G1 G2].
  rewrite G1, G2, Hc. simpl (0 <? 0).
  destruct (Z.ltb_spec pinctrl 0) as [Hlt|_]; [lia|].
  fold mps idxs.
  rewrite (register_loop_all (out_entry mps) reg idxs [] [] Hout). simpl negb.
  cbv iota.
  rewrite (register_loop_all (in_entry mps) reg idxs [] _ Hin). simpl.
  reflexivity.
Qed.

Lemma preinit_zero (opts : build_opts) (config : udc_renesas_ra_config)
      (u : st_usbd_cfg) (pinctrl : Z) (reg : Z -> Z) :
  fst (udc_renesas_ra_driver_preinit opts config u pinctrl reg) = 0 ->
  (ucfg_usb_speed u = USBD_SPEED_FS \/
   (ucfg_usb_speed u = USBD_SPEED_HS /\
    cfg_speed_idx config = UDC_BUS_SPEED_HS /\
    USBHS_PHY_CLOCK_SOURCE_IS_XTAL opts = true)) /\
  udc_renesas_ra_clock_check opts (cfg_speed_idx config) (cfg_clocks config) = 0 /\
  0 <= pinctrl /\
  let mps := if usbd_speed_is_hs (ucfg_usb_speed u) then 1024 else 1023 in
  Forall (fun i => reg (ent_addr (out_entry mps i)) = 0)
         (seq 0 (cfg_num_of_eps config)) /\
  Forall (fun i => reg (ent_addr (in_entry mps i)) = 0)
         (seq 0 (cfg_num_of_eps config)).
Proof.
  unfold udc_renesas_ra_driver_preinit.
  destruct (negb (USBHS_PHY_CLOCK_SOURCE_IS_XTAL opts)
            && usbd_speed_is_hs (ucfg_usb_speed u)) eqn:G1;
    [simpl; discriminate|].
  destruct (if bus_speed_is_hs (cfg_speed_idx config)
            then negb (usbd_speed_is_hs (ucfg_usb_speed u)
                       || usbd_speed_is_fs (ucfg_usb_speed u))
            else negb (usbd_speed_is_fs (ucfg_usb_speed u))) eqn:G2;
    [simpl; discriminate|].
  destruct (Z.ltb_spec (udc_renesas_ra_clock_check opts (cfg_speed_idx config)
                                                   (cfg_clocks config)) 0)
    as [Hc|Hc]; [simpl; lia|].
  destruct (Z.ltb_spec pinctrl 0) as [Hp|Hp]; [simpl; lia|].
  set (mps := if usbd_speed_is_hs (ucfg_usb_speed u) then 1024 else 1023).
  destruct (register_loop (out_entry mps) reg (seq 0 (cfg_num_of_eps config))
                          [] []) as [[e1 w1] r1] eqn:L1.
  destruct (Z.eqb_spec e1 0) as [E1|E1]; [|simpl; intro; contradiction].
  simpl negb. cbv iota.
  destruct (register_loop (in_entry mps) reg (seq 0 (cfg_num_of_eps config))
                          [] r1) as [[e2 w2] r2] eqn:L2.
  destruct (Z.eqb_spec e2 0) as [E2|E2]; [|simpl; intro; contradiction].
  intros _. subst e1 e2.
  split; [exact (speed_gates_pass opts config u G1 G2)|].
  split; [destruct (clock_check_range opts (cfg_speed_idx config)
                                      (cfg_clocks config)); lia|].
  split; [exact Hp|]. split.
  - exact (register_loop_zero _ _ _ _ _ _ _ L1).
  - exact (register_loop_zero _ _ _ _ _ _ _ L2).
Qed.

Lemma preinit_outcome (opts : build_opts) (config : udc_renesas_ra_config)
      (u : st_usbd_cfg) (pinctrl : Z) (reg : Z -> Z) :
  let r := udc_renesas_ra_driver_preinit opts config u pinctrl reg in
  (fst r <> 0 /\ po_thread (snd r) = false /\ po_ielsr (snd r) = []) \/
  (fst r = 0 /\ po_thread (snd r) = true).
Proof.
  unfold udc_renesas_ra_driver_preinit.
  destruct (negb (USBHS_PHY_CLOCK_SOURCE_IS_XTAL opts)
            && usbd_speed_is_hs (ucfg_usb_speed u));
    [left; simpl; repeat split; discriminate|].
  destruct (if bus_speed_is_hs (cfg_speed_idx config)
            then negb (usbd_speed_is_hs (ucfg_usb_speed u)
                       || usbd_speed_is_fs (ucfg_usb_speed u))
            else negb (usbd_speed_is_fs (ucfg_usb_speed u)));
    [left; simpl; repeat split; discriminate|].
  destruct (Z.ltb_spec (udc_renesas_ra_clock_check opts (cfg_speed_idx config)
                                                   (cfg_clocks config)) 0)
    as [Hc|Hc]; [left; simpl; repeat split; lia|].
  destruct (Z.ltb_spec pinctrl 0) as [Hp|Hp]; [left; simpl; repeat split; lia|].
  set (mps := if usbd_speed_is_hs (ucfg_usb_speed u) then 1024 else 1023).
  destruct (register_loop (out_entry mps) reg (seq 0 (cfg_num_of_eps config))
                          [] []) as [[e1 w1] r1].
  destruct (Z.eqb_spec e1 0) as [E1|E1];
    [|left; simpl; repeat split; assumption].
  simpl negb. cbv iota.
  destruct (register_loop (in_entry mps) reg (seq 0 (cfg_num_of_eps config))
                          [] r1) as [[e2 w2] r2].
  destruct (Z.eqb_spec e2 0) as [E2|E2];
    [|left; simpl; repeat split; assumption].
  right. simpl. split; reflexivity.
Qed.

(** X23: [udc_renesas_ra_driver_preinit] returns 0 exactly when the
    configured speed is full speed, or high speed on the high-speed module
    with the PHY clocked from the crystal; the clock check passes; applying
    the pin configuration does not fail; and the common layer accepts the
    registration of every OUT endpoint [i] and every IN endpoint [0x80 | i]
    below [num_of_eps]. *)
Theorem preinit_success_iff (opts : build_opts) (config : udc_renesas_ra_config)
        (u : st_usbd_cfg) (pinctrl : Z) (udc_register_ep : Z -> Z) :
  fst (udc_renesas_ra_driver_preinit opts config u pinctrl udc_register_ep) = 0
  <->
  (ucfg_usb_speed u = USBD_SPEED_FS \/
   (ucfg_usb_speed u = USBD_SPEED_HS /\
    cfg_speed_idx config = UDC_BUS_SPEED_HS /\
    USBHS_PHY_CLOCK_SOURCE_IS_XTAL opts = true)) /\
  udc_renesas_ra_clock_check opts (cfg_speed_idx config) (cfg_clocks config) = 0 /\
  0 <= pinctrl /\
  forall i : nat, (i < cfg_num_of_eps config)%nat ->
    udc_register_ep (Z.lor USB_EP_DIR_OUT (Z.of_nat i) mod 256) = 0 /\
    udc_register_ep (Z.lor USB_EP_DIR_IN (Z.of_nat i) mod 256) = 0.
Proof.
  split.
  - intro H. apply preinit_zero in H.
    destruct H as [Hs [Hc [Hp [Hout Hin]]]].
    repeat split; try assumption.
    + rewrite Forall_forall in Hout. apply (Hout i). apply in_seq. lia.
    + rewrite Forall_forall in Hin. apply (Hin i). apply in_seq. lia.
  - intros [Hs [Hc [Hp Hr]]].
    rewrite (preinit_ok opts config u pinctrl udc_register_ep Hs Hc Hp).
    + reflexivity.
    + apply Forall_forall. intros i Hi. apply in_seq in Hi.
      apply (Hr i). lia.
    + apply Forall_forall. intros i Hi. apply in_seq in Hi.
      apply (Hr i). lia.
Qed.

(** X24: when [udc_renesas_ra_driver_preinit] returns 0 it has filled both
    endpoint tables for the indices 0 .. num_of_eps-1 (largest packet size
    1024 at high speed and 1023 otherwise for the endpoints other than 0),
    registered every OUT endpoint before any IN endpoint, each in index
    order, written the interrupt routing and created the worker thread; and
    [udc_renesas_ra_device_speed] then reports high speed exactly when the
    configured speed is high speed. *)
Theorem preinit_success_table (opts : build_opts)
        (config : udc_renesas_ra_config) (u : st_usbd_cfg) (pinctrl : Z)
        (udc_register_ep : Z -> Z) :
  fst (udc_renesas_ra_driver_preinit opts config u pinctrl udc_register_ep) = 0 ->
  let out := snd (udc_renesas_ra_driver_preinit opts config u pinctrl
                                                udc_register_ep) in
  let mps := if usbd_speed_is_hs (ucfg_usb_speed u) then 1024 else 1023 in
  po_ep_cfg_out out = map (out_entry mps) (seq 0 (cfg_num_of_eps config)) /\
  po_ep_cfg_in out = map (in_entry mps) (seq 0 (cfg_num_of_eps config)) /\
  po_registered out =
    map ent_addr (po_ep_cfg_out out) ++ map ent_addr (po_ep_cfg_in out) /\
  po_ielsr out = ielsr_writes opts u /\
  po_thread out = true /\
  po_mutex_init out = true /\ po_caps_rwup out = true /\
  po_caps_mps0_64 out = true /\
  udc_renesas_ra_device_speed (po_caps_hs out) =
    match ucfg_usb_speed u with
    | USBD_SPEED_HS => UDC_BUS_SPEED_HS
    | _ => UDC_BUS_SPEED_FS
    end.
Proof.
  intro H. apply preinit_zero in H.
  destruct H as [Hs [Hc [Hp [Hout Hin]]]].
  rewrite (preinit_ok opts config u pinctrl udc_register_ep Hs Hc Hp Hout Hin).
  cbv zeta. cbn [snd po_ep_cfg_out po_ep_cfg_in po_registered po_ielsr
                 po_thread po_mutex_init po_caps_rwup po_caps_mps0_64
                 po_caps_hs].
  rewrite !map_map.
  repeat split. destruct (ucfg_usb_speed u); reflexivity.
Qed.

Lemma preinit_success_table_witness :
  let out := snd (udc_renesas_ra_driver_preinit opts_hs_xtal config_hs
                    usbd_cfg_hs 0 register_all) in
  po_ep_cfg_out out = map (out_entry 1024) (seq 0 3) /\
  po_registered out = [0; 1; 2; 128; 129; 130] /\
  po_ielsr out = [(22, ELC_EVENT_USBHS_USB_INT_RESUME)] /\
  po_thread out = true.
Proof.
  pose proof (preinit_success_table opts_hs_xtal config_hs usbd_cfg_hs 0
                register_all eq_refl) as H.
  cbv zeta in H. destruct H as [H1 [_ [H3 [H4 [H5 _]]]]].
  cbv zeta. split; [exact H1|]. split; [exact H3|].
  split; [exact H4|exact H5].
Defined.

(** X25: the first OUT endpoint whose registration the common layer refuses
    ends [udc_renesas_ra_driver_preinit] with the common layer's error: the
    entries up to and including the refused one have been written, the
    endpoints before it are registered, no IN entry is touched, no interrupt
    routing is written and no worker thread is created. *)
Theorem preinit_out_refused (opts : build_opts) (config : udc_renesas_ra_config)
        (u : st_usbd_cfg) (pinctrl : Z) (udc_register_ep : Z -> Z) (k : nat) :
  ucfg_usb_speed u = USBD_SPEED_FS \/
  (ucfg_usb_speed u = USBD_SPEED_HS /\
   cfg_speed_idx config = UDC_BUS_SPEED_HS /\
   USBHS_PHY_CLOCK_SOURCE_IS_XTAL opts = true) ->
  udc_renesas_ra_clock_check opts (cfg_speed_idx config) (cfg_clocks config) = 0 ->
  0 <= pinctrl ->
  (k < cfg_num_of_eps config)%nat ->
  (forall i : nat, (i < k)%nat ->
     udc_register_ep (Z.lor USB_EP_DIR_OUT (Z.of_nat i) mod 256) = 0) ->
  udc_register_ep (Z.lor USB_EP_DIR_OUT (Z.of_nat k) mod 256) <> 0 ->
  let mps := if usbd_speed_is_hs (ucfg_usb_speed u) then 1024 else 1023 in
  udc_renesas_ra_driver_preinit opts config u pinctrl udc_register_ep =
  (udc_register_ep (Z.lor USB_EP_DIR_OUT (Z.of_nat k) mod 256),
   mk_preinit true true true (usbd_speed_is_hs (ucfg_usb_speed u))
              (map (out_entry mps) (seq 0 (S k))) []
              (map (fun i => Z.lor USB_EP_DIR_OUT (Z.of_nat i) mod 256)
                   (seq 0 k))
              [] false).
Proof.
  intros Hs Hc Hp Hk Hpre Hrej mps. unfold udc_renesas_ra_driver_preinit.
  destruct (speed_gates_allowed opts config u Hs) as [G1 G2].
  rewrite G1, G2, Hc. simpl (0 <? 0).
  destruct (Z.ltb_spec pinctrl 0) as [Hlt|_]; [lia|].
  fold mps.
  replace (seq 0 (cfg_num_of_eps config))
    with (seq 0 k ++ k :: seq (S k) (cfg_num_of_eps config - S k)).
  - rewrite (register_loop_refused (out_entry mps) udc_register_ep).
    + cbn [ent_addr out_entry]. apply Z.eqb_neq in Hrej. rewrite Hrej.
      simpl negb. cbv iota. rewrite seq_S, map_app. reflexivity.
    + apply Forall_forall. intros i Hi. apply in_seq in Hi.
      apply Hpre. lia.
    + exact Hrej.
  - replace (cfg_num_of_eps config)
      with (k + S (cfg_num_of_eps config - S k))%nat at 2 by lia.
    rewrite seq_app. reflexivity.
Qed.

Lemma preinit_out_refused_witness :
  udc_renesas_ra_driver_preinit opts_fs config_fs usbd_cfg_fs 0
                                (register_refuses 2) =
  (- 22, mk_preinit true true true false
           (map (out_entry 1023) [0; 1; 2]%nat) [] [0; 1] [] false).
Proof.
  apply (preinit_out_refused opts_fs config_fs usbd_cfg_fs 0
           (register_refuses 2) 2).
  - left. reflexivity.
  - reflexivity.
  - lia.
  - simpl. lia.
  - intros i Hi. destruct i as [|[|i]]; [reflexivity|reflexivity|lia].
  - discriminate.
Defined.

(** X26: [udc_renesas_ra_driver_preinit] creates the worker thread exactly
    when it returns 0, and it writes no interrupt routing when it fails. *)
Theorem preinit_thread_iff_success (opts : build_opts)
        (config : udc_renesas_ra_config) (u : st_usbd_cfg) (pinctrl : Z)
        (udc_register_ep : Z -> Z) :
  let r := udc_renesas_ra_driver_preinit opts config u pinctrl udc_register_ep in
  (po_thread (snd r) = true <-> fst r = 0) /\
  (fst r <> 0 -> po_ielsr (snd r) = []).
Proof.
  intro r.
  destruct (preinit_outcome opts config u pinctrl udc_register_ep)
    as [[H1 [H2 H3]]|[H1 H2]]; fold r in H1, H2; try fold r in H3.
  - split.
    + split; [rewrite H2; discriminate|intro; contradiction].
    + intros _. exact H3.
  - split.
    + split; intros _; assumption.
    + intro; contradiction.
Qed.

(** *** Addresses of the endpoint tables *)

Lemma table_addresses (i : nat) :
  (i < 128)%nat ->
  Z.lor USB_EP_DIR_OUT (Z.of_nat i) mod 256 = Z.of_nat i /\
  Z.lor USB_EP_DIR_IN (Z.of_nat i) mod 256 = 128 + Z.of_nat i /\
  USB_EP_GET_IDX (Z.of_nat i) = Z.of_nat i /\
  USB_EP_GET_IDX (128 + Z.of_nat i) = Z.of_nat i /\
  USB_EP_DIR_IS_OUT (Z.of_nat i) = true /\
  USB_EP_DIR_IS_IN (128 + Z.of_nat i) = true.
Proof.
  intro Hi.
  assert (forallb
            (fun i : nat =>
               (Z.lor USB_EP_DIR_OUT (Z.of_nat i) mod 256 =? Z.of_nat i)
               && (Z.lor USB_EP_DIR_IN (Z.of_nat i) mod 256 =? 128 + Z.of_nat i)
               && (USB_EP_GET_IDX (Z.of_nat i) =? Z.of_nat i)
               && (USB_EP_GET_IDX (128 + Z.of_nat i) =? Z.of_nat i)
               && USB_EP_DIR_IS_OUT (Z.of_nat i)
               && USB_EP_DIR_IS_IN (128 + Z.of_nat i))
            (seq 0 128) = true) as Hall by (vm_compute; reflexivity).
  rewrite forallb_forall in Hall.
  specialize (Hall i). rewrite in_seq in Hall.
  assert ((0 <= i < 0 + 128)%nat) as Hr by lia.
  specialize (Hall Hr).
  repeat (apply andb_prop in Hall; destruct Hall as [Hall ?]).
  apply Z.eqb_eq in Hall, H3, H2, H1.
  repeat split; assumption.
Qed.

(** X27: for an index below 128 the entries [udc_renesas_ra_driver_preinit]
    writes carry the addresses [i] (OUT) and [0x80 + i] (IN); the index and
    the direction read back from these addresses with [USB_EP_GET_IDX],
    [USB_EP_DIR_IS_OUT] and [USB_EP_DIR_IS_IN] are the ones written; and an
    entry has the control capability, with the largest packet size 64,
    exactly when the index read back from its address is 0. *)
Theorem endpoint_entry_decodes (m : Z) (i : nat) :
  (i < 128)%nat ->
  let o := out_entry m i in
  let n := in_entry m i in
  ent_addr o = Z.of_nat i /\ ent_addr n = 128 + Z.of_nat i /\
  USB_EP_GET_IDX (ent_addr o) = Z.of_nat i /\
  USB_EP_GET_IDX (ent_addr n) = Z.of_nat i /\
  USB_EP_DIR_IS_OUT (ent_addr o) = true /\
  USB_EP_DIR_IS_IN (ent_addr n) = true /\
  (caps_control (ent_caps o) = true <-> USB_EP_GET_IDX (ent_addr o) = 0) /\
  (caps_control (ent_caps n) = true <-> USB_EP_GET_IDX (ent_addr n) = 0) /\
  (USB_EP_GET_IDX (ent_addr o) = 0 ->
   caps_mps (ent_caps o) = 64 /\ caps_mps (ent_caps n) = 64) /\
  (USB_EP_GET_IDX (ent_addr o) <> 0 ->
   caps_mps (ent_caps o) = m /\ caps_mps (ent_caps n) = m /\
   caps_bulk (ent_caps o) = true /\ caps_bulk (ent_caps n) = true).
Proof.
  intros Hi o n.
  destruct (table_addresses i Hi) as [A1 [A2 [A3 [A4 [A5 A6]]]]].
  assert (ent_addr o = Z.of_nat i) as Eo by exact A1.
  assert (ent_addr n = 128 + Z.of_nat i) as En by exact A2.
  rewrite Eo, En, A3, A4, A5, A6.
  repeat (split; [reflexivity|]).
  subst o n. destruct i as [|i]; cbn [ent_caps out_entry in_entry caps_control
                                     caps_mps caps_bulk].
  - repeat split; intros; try reflexivity; try contradiction.
  - repeat split; intros; try reflexivity; try discriminate; lia.
Qed.

Lemma endpoint_entry_decodes_witness :
  ent_addr (in_entry 1023 2) = 130 /\
  USB_EP_GET_IDX (ent_addr (in_entry 1023 2)) = 2 /\
  USB_EP_DIR_IS_IN (ent_addr (in_entry 1023 2)) = true.
Proof.
  assert ((2 < 128)%nat) as H by lia.
  pose proof (endpoint_entry_decodes 1023 2 H) as D. cbv zeta in D.
  destruct D as [_ [D2 [_ [D4 [_ [D6 _]]]]]].
  split; [exact D2|]. split; [exact D4|exact D6].
Defined.

(** X28: with at most 128 endpoints per direction, a successful
    [udc_renesas_ra_driver_preinit] has registered no endpoint address
    twice. *)
Theorem preinit_registers_distinct (opts : build_opts)
        (config : udc_renesas_ra_config) (u : st_usbd_cfg) (pinctrl : Z)
        (udc_register_ep : Z -> Z) :
  fst (udc_renesas_ra_driver_preinit opts config u pinctrl udc_register_ep) = 0 ->
  (cfg_num_of_eps config <= 128)%nat ->
  NoDup (po_registered (snd (udc_renesas_ra_driver_preinit
                               opts config u pinctrl udc_register_ep))).
Proof.
  intros H Hn. apply preinit_zero in H.
  destruct H as [Hs [Hc [Hp [Hout Hin]]]].
  rewrite (preinit_ok opts config u pinctrl udc_register_ep Hs Hc Hp Hout Hin).
  cbn [snd po_registered].
  set (mps := if usbd_speed_is_hs (ucfg_usb_speed u) then 1024 else 1023).
  assert (forall i, In i (seq 0 (cfg_num_of_eps config)) ->
                    ent_addr (out_entry mps i) = Z.of_nat i /\
                    ent_addr (in_entry mps i) = 128 + Z.of_nat i) as Ha.
  { intros i Hi. apply in_seq in Hi.
    assert ((i < 128)%nat) as Hi' by lia.
    destruct (table_addresses i Hi') as [A1 [A2 _]]. split; assumption. }
  apply NoDup_app.
  - apply NoDup_map_NoDup_ForallPairs; [|apply seq_NoDup].
    intros x y Hx Hy E.
    destruct (Ha x Hx) as [Ex _]. destruct (Ha y Hy) as [Ey _]. lia.
  - apply NoDup_map_NoDup_ForallPairs; [|apply seq_NoDup].
    intros x y Hx Hy E.
    destruct (Ha x Hx) as [_ Ex]. destruct (Ha y Hy) as [_ Ey]. lia.
  - intros a H1 H2. apply in_map_iff in H1. apply in_map_iff in H2.
    destruct H1 as [x [Ex Hx]]. destruct H2 as [y [Ey Hy]].
    destruct (Ha x Hx) as [Ax _]. destruct (Ha y Hy) as [_ Ay].
    apply in_seq in Hx. lia.
Qed.

Lemma preinit_registers_distinct_witness :
  NoDup (po_registered (snd (udc_renesas_ra_driver_preinit
                               opts_fs config_fs usbd_cfg_fs 0 register_all))).
Proof.
  apply (preinit_registers_distinct opts_fs config_fs usbd_cfg_fs 0
                                    register_all).
  - reflexivity.
  - simpl. lia.
Defined.

(** *** The "halted" flag and the data path

    Two runs that start from states differing only in "halted" flags stay in
    step: the handlers take the same branches, make the same Controller
    calls and leave states that again differ only in these flags.  The
    debug log line of [udc_renesas_ra_ep_enqueue], the one thing the flag
    selects, is not part of the state. *)

Lemma upd_ep_eq (f : Z -> udc_ep_config) (x : Z) (c : udc_ep_config) (a : Z) :
  upd_ep f x c a = if a =? x then c else f a.
Proof. reflexivity. Qed.

Ltac sync_ep Hall e e' a :=
  let Hs := fresh "Hs" in
  pose proof (Hall a) as Hs; unfold same_but_halted in Hs;
  destruct (e a), (e' a); cbn in Hs;
  destruct Hs as [? [? [? [? ?]]]]; subst.

Ltac expose :=
  unfold udc_ctrl_stage_is_data_out, udc_ctrl_stage_is_data_in,
    udc_ctrl_stage_is_no_data, udc_ctrl_stage_is_status_out,
    udc_ctrl_stage_is_status_in, udc_ep_is_busy, udc_ep_set_busy,
    with_eps, with_stage, with_msgq, with_pool, with_irq, emit,
    set_busy, set_fifo, set_halted;
  cbn [eps stage drv_msgq trace pool irq_locked
       stat_busy stat_halted fifo attributes mps interval fst snd];
  rewrite ?upd_ep_eq, ?Z.eqb_refl.

Ltac innermost e e' x :=
  lazymatch x with
  | context [match _ with _ => _ end] => fail
  | context [if _ then _ else _] => fail
  | context [e] => fail
  | context [e'] => fail
  | _ => idtac
  end.

Ltac branch e e' :=
  match goal with
  | |- context [negb (?r =? FSP_SUCCESS)] =>
      innermost e e' r;
      destruct (r =? FSP_SUCCESS); cbv beta iota zeta delta [negb]
  | |- context [if ?b then _ else _] => innermost e e' b; destruct b
  | |- context [match ?x with _ => _ end] => innermost e e' x; destruct x
  end.

Ltac sync_loop Hall e e' :=
  repeat first
    [ progress expose
    | match goal with
      | |- context [e' ?a] => sync_ep Hall e e' a
      end
    | branch e e' ].

Ltac related Hall e e' :=
  unfold same_but_halts;
  split;
  [ let a := fresh "a" in
    intro a; sync_loop Hall e e';
    unfold same_but_halted; cbn; repeat split; reflexivity
  | expose; repeat split; reflexivity ].

Ltac open_states H Hall e e' :=
  let H1 := fresh in let H2 := fresh in let H3 := fresh in
  let H4 := fresh in let H5 := fresh in
  destruct H as [Hall [H1 [H2 [H3 [H4 H5]]]]];
  match goal with
  | |- context [same_but_halts] => idtac
  end;
  match type of Hall with
  | forall a, same_but_halted (eps ?st a) (eps ?st' a) =>
      destruct st as [e ? ? ? ? ?], st' as [e' ? ? ? ? ?];
      cbn in Hall, H1, H2, H3, H4, H5; subst
  end.

Section HaltedFlag.

Variable controller : list obs -> hal_call -> Z.
Variable CONFIG_UDC_RENESAS_RA_MAX_QMESSAGES : nat.

Lemma halts_xfer_next (st st' : udc_state) (ep : Z) :
  same_but_halts st st' ->
  same_but_halts (udc_event_xfer_next controller st ep)
                 (udc_event_xfer_next controller st' ep).
Proof.
  intros H. open_states H Hall e e'.
  unfold_handlers. unfold udc_ep_is_busy.
  sync_loop Hall e e'; related Hall e e'.
Qed.

Lemma halts_complete (st st' : udc_state) (evt : udc_renesas_ra_evt) :
  same_but_halts st st' ->
  same_but_halts (udc_event_xfer_complete controller st evt)
                 (udc_event_xfer_complete controller st' evt).
Proof.
  intros H. open_states H Hall e e'.
  unfold_handlers. unfold udc_ep_is_busy.
  sync_loop Hall e e'; related Hall e e'.
Qed.

Lemma halts_setup (st st' : udc_state) (evt : udc_renesas_ra_evt) :
  same_but_halts st st' ->
  fst (udc_event_xfer_setup controller st evt) =
  fst (udc_event_xfer_setup controller st' evt) /\
  same_but_halts (snd (udc_event_xfer_setup controller st evt))
                 (snd (udc_event_xfer_setup controller st' evt)).
Proof.
  intros H. open_states H Hall e e'.
  unfold_handlers.
  sync_loop Hall e e'; (split; [reflexivity|related Hall e e']).
Qed.

Lemma halts_status_in (st st' : udc_state) :
  same_but_halts st st' ->
  same_but_halts (udc_event_status_in controller st)
                 (udc_event_status_in controller st').
Proof.
  intros H. open_states H Hall e e'.
  unfold_handlers.
  sync_loop Hall e e'; related Hall e e'.
Qed.

Lemma halts_dequeue (st st' : udc_state) (addr : Z) :
  same_but_halts st st' ->
  fst (udc_renesas_ra_ep_dequeue controller st addr) =
  fst (udc_renesas_ra_ep_dequeue controller st' addr) /\
  same_but_halts (snd (udc_renesas_ra_ep_dequeue controller st addr))
                 (snd (udc_renesas_ra_ep_dequeue controller st' addr)).
Proof.
  intros H. open_states H Hall e e'.
  unfold_handlers.
  sync_loop Hall e e'; (split; [reflexivity|related Hall e e']).
Qed.

Lemma halts_enqueue (st st' : udc_state) (addr : Z) (buf : net_buf) :
  same_but_halts st st' ->
  match udc_renesas_ra_ep_enqueue CONFIG_UDC_RENESAS_RA_MAX_QMESSAGES st addr buf,
        udc_renesas_ra_ep_enqueue CONFIG_UDC_RENESAS_RA_MAX_QMESSAGES st' addr buf with
  | Some (r, s), Some (r', s') => r = r' /\ same_but_halts s s'
  | None, None => True
  | _, _ => False
  end.
Proof.
  intros H. open_states H Hall e e'.
  unfold udc_renesas_ra_ep_enqueue, k_msgq_put. unfold_handlers.
  sync_loop Hall e e'; try exact I; (split; [reflexivity|related Hall e e']).
Qed.

Lemma halts_event_handler (st st' : udc_state) (ev : usbd_event_t) :
  same_but_halts st st' ->
  match udc_renesas_ra_event_handler CONFIG_UDC_RENESAS_RA_MAX_QMESSAGES st ev,
        udc_renesas_ra_event_handler CONFIG_UDC_RENESAS_RA_MAX_QMESSAGES st' ev with
  | Some s, Some s' => same_but_halts s s'
  | None, None => True
  | _, _ => False
  end.
Proof.
  intros H. open_states H Hall e e'.
  unfold udc_renesas_ra_event_handler, k_msgq_put. unfold_handlers.
  sync_loop Hall e e'; try exact I; related Hall e e'.
Qed.

Lemma halts_thread_step (st st' : udc_state) :
  same_but_halts st st' ->
  match renesas_ra_thread_step controller st,
        renesas_ra_thread_step controller st' with
  | Some s, Some s' => same_but_halts s s'
  | None, None => True
  | _, _ => False
  end.
Proof.
  intros H. unfold renesas_ra_thread_step, k_msgq_get.
  assert (drv_msgq st' = drv_msgq st) as Hq by (symmetry; apply H).
  rewrite Hq. destruct (drv_msgq st) as [|evt q]; [exact I|].
  assert (same_but_halts (emit (with_msgq st q) (Got evt))
                         (emit (with_msgq st' q) (Got evt))) as Hrel.
  { open_states H Hall e e'. related Hall e e'. }
  destruct (evt_type evt).
  - destruct (event_id (evt_hal_evt evt)); try exact Hrel.
    + apply halts_setup. exact Hrel.
    + apply halts_complete. exact Hrel.
  - apply halts_xfer_next. exact Hrel.
  - apply halts_status_in. exact Hrel.
Qed.

Lemma halts_step (st st' : udc_state) (a : action) :
  same_but_halts st st' ->
  same_but_halts (step controller CONFIG_UDC_RENESAS_RA_MAX_QMESSAGES st a) (step controller CONFIG_UDC_RENESAS_RA_MAX_QMESSAGES st' a).
Proof.
  intro H. destruct a as [ev| |addr buf|addr]; simpl.
  - pose proof (halts_event_handler st st' ev H) as K.
    destruct (udc_renesas_ra_event_handler CONFIG_UDC_RENESAS_RA_MAX_QMESSAGES st ev),
             (udc_renesas_ra_event_handler CONFIG_UDC_RENESAS_RA_MAX_QMESSAGES st' ev);
      try contradiction; assumption.
  - pose proof (halts_thread_step st st' H) as K.
    destruct (renesas_ra_thread_step controller st),
             (renesas_ra_thread_step controller st');
      try contradiction; assumption.
  - pose proof (halts_enqueue st st' addr buf H) as K.
    destruct (udc_renesas_ra_ep_enqueue CONFIG_UDC_RENESAS_RA_MAX_QMESSAGES st addr buf) as [[r s]|],
             (udc_renesas_ra_ep_enqueue CONFIG_UDC_RENESAS_RA_MAX_QMESSAGES st' addr buf) as [[r' s']|];
      try contradiction; [apply K|assumption].
  - apply halts_dequeue. exact H.
Qed.

Lemma halts_run (acts : list action) (st st' : udc_state) :
  same_but_halts st st' ->
  same_but_halts (run controller CONFIG_UDC_RENESAS_RA_MAX_QMESSAGES acts st) (run controller CONFIG_UDC_RENESAS_RA_MAX_QMESSAGES acts st').
Proof.
  revert st st'. induction acts as [|a acts IH]; intros st st' H.
  - exact H.
  - simpl. apply IH. apply halts_step. exact H.
Qed.

End HaltedFlag.

(** The handlers copy the "halted" flag whenever they rewrite an endpoint's
    configuration. *)

Ltac branch_one :=
  match goal with
  | |- context [if (?x =? ?y) then _ else _] =>
      lazymatch x with
      | context [match _ with _ => _ end] => fail
      | context [if _ then _ else _] => fail
      | _ => lazymatch y with
             | context [match _ with _ => _ end] => fail
             | context [if _ then _ else _] => fail
             | _ => destruct (Z.eqb_spec x y)
             end
      end
  | |- context [if ?b then _ else _] =>
      lazymatch b with
      | context [match _ with _ => _ end] => fail
      | context [if _ then _ else _] => fail
      | _ => destruct b
      end
  | |- context [match ?x with _ => _ end] =>
      lazymatch x with
      | context [match _ with _ => _ end] => fail
      | context [if _ then _ else _] => fail
      | _ => destruct x
      end
  end.

Ltac halted_kept :=
  repeat first [progress expose | branch_one];
  cbn [negb]; try reflexivity; try congruence.

Section HaltedKept.

Variable controller : list obs -> hal_call -> Z.
Variable CONFIG_UDC_RENESAS_RA_MAX_QMESSAGES : nat.

Lemma kept_halted_xfer_next (st : udc_state) (ep b : Z) :
  stat_halted (eps (udc_event_xfer_next controller st ep) b) =
  stat_halted (eps st b).
Proof. destruct st as [e s q t p i]. unfold_handlers. halted_kept. Qed.

Lemma kept_halted_complete (st : udc_state) (evt : udc_renesas_ra_evt) (b : Z) :
  stat_halted (eps (udc_event_xfer_complete controller st evt) b) =
  stat_halted (eps st b).
Proof. destruct st as [e s q t p i]. unfold_handlers. halted_kept. Qed.

Lemma kept_halted_setup (st : udc_state) (evt : udc_renesas_ra_evt) (b : Z) :
  stat_halted (eps (snd (udc_event_xfer_setup controller st evt)) b) =
  stat_halted (eps st b).
Proof. destruct st as [e s q t p i]. unfold_handlers. halted_kept. Qed.

Lemma kept_halted_status_in (st : udc_state) (b : Z) :
  stat_halted (eps (udc_event_status_in controller st) b) =
  stat_halted (eps st b).
Proof. destruct st as [e s q t p i]. unfold_handlers. halted_kept. Qed.

Lemma kept_halted_dequeue (st : udc_state) (addr b : Z) :
  stat_halted (eps (snd (udc_renesas_ra_ep_dequeue controller st addr)) b) =
  stat_halted (eps st b).
Proof. destruct st as [e s q t p i]. unfold_handlers. halted_kept. Qed.

Lemma kept_halted_step (st : udc_state) (a : action) (b : Z) :
  stat_halted (eps (step controller CONFIG_UDC_RENESAS_RA_MAX_QMESSAGES st a) b) = stat_halted (eps st b).
Proof.
  destruct a as [ev| |addr buf|addr]; simpl.
  - destruct st as [e s q t p i].
    unfold udc_renesas_ra_event_handler, k_msgq_put. unfold_handlers.
    halted_kept.
  - unfold renesas_ra_thread_step, k_msgq_get.
    destruct (drv_msgq st) as [|evt q] eqn:Hq; [reflexivity|].
    destruct (evt_type evt).
    + destruct (event_id (evt_hal_evt evt));
        rewrite ?kept_halted_setup, ?kept_halted_complete; reflexivity.
    + rewrite kept_halted_xfer_next. reflexivity.
    + rewrite kept_halted_status_in. reflexivity.
  - destruct st as [e s q t p i].
    unfold udc_renesas_ra_ep_enqueue, k_msgq_put. unfold_handlers.
    halted_kept.
  - apply kept_halted_dequeue.
Qed.

Lemma kept_halted_run (acts : list action) (st : udc_state) (b : Z) :
  stat_halted (eps (run controller CONFIG_UDC_RENESAS_RA_MAX_QMESSAGES acts st) b) = stat_halted (eps st b).
Proof.
  revert st. induction acts as [|a acts IH]; intro st; [reflexivity|].
  simpl. rewrite IH. apply kept_halted_step.
Qed.

End HaltedKept.

(** X29: [udc_renesas_ra_ep_set_halt] and [udc_renesas_ra_ep_clear_halt]
    each make exactly one Controller call.  When the Controller refuses it
    the result is [-EIO] and the endpoint state is left as it was (a refused
    clear leaves the endpoint marked halted); when it accepts, the result is
    0, the endpoint's "halted" flag is set (cleared), and nothing else - no
    queue, no "busy" flag, no other endpoint, no message - is changed. *)
Theorem halt_outcomes (ctl : list (ctl_call * Z) -> ctl_call -> Z)
        (d : udc_dev) (addr : Z) :
  let s := udc_renesas_ra_ep_set_halt ctl d addr in
  let c := udc_renesas_ra_ep_clear_halt ctl d addr in
  let rs := ctl (dev_ctl d) (R_USBD_EdptStall addr) in
  let rc := ctl (dev_ctl d) (R_USBD_EdptClearStall addr) in
  dev_ctl (snd s) = dev_ctl d ++ [(R_USBD_EdptStall addr, rs)] /\
  dev_ctl (snd c) = dev_ctl d ++ [(R_USBD_EdptClearStall addr, rc)] /\
  (rs <> FSP_SUCCESS -> fst s = - EIO /\ dev_core (snd s) = dev_core d) /\
  (rc <> FSP_SUCCESS -> fst c = - EIO /\ dev_core (snd c) = dev_core d) /\
  (rs = FSP_SUCCESS ->
   fst s = 0 /\ stat_halted (eps (dev_core (snd s)) addr) = true) /\
  (rc = FSP_SUCCESS ->
   fst c = 0 /\ stat_halted (eps (dev_core (snd c)) addr) = false) /\
  same_but_halts (dev_core d) (dev_core (snd s)) /\
  same_but_halts (dev_core d) (dev_core (snd c)) /\
  (forall b, b <> addr ->
     eps (dev_core (snd s)) b = eps (dev_core d) b /\
     eps (dev_core (snd c)) b = eps (dev_core d) b).
Proof.
  intros s c rs rc. subst s c.
  unfold udc_renesas_ra_ep_set_halt, udc_renesas_ra_ep_clear_halt, ctl_do.
  fold rs rc. cbv beta iota zeta.
  assert (forall h, same_but_halts (dev_core d) (halt_ep (dev_core d) addr h))
    as Hrel.
  { intro h. unfold same_but_halts, halt_ep. cbn [eps stage drv_msgq trace
      pool irq_locked with_eps]. split; [|repeat split; reflexivity].
    intro a. rewrite upd_ep_eq. destruct (Z.eqb_spec a addr) as [E|E].
    - subst a. unfold same_but_halted, set_halted. cbn. repeat split.
    - unfold same_but_halted. repeat split. }
  assert (same_but_halts (dev_core d) (dev_core d)) as Hsame.
  { unfold same_but_halts, same_but_halted. repeat split. }
  assert (forall h, eps (halt_ep (dev_core d) addr h) addr
                    = set_halted (eps (dev_core d) addr) h) as Hat.
  { intro h. unfold halt_ep. cbn [eps with_eps].
    rewrite upd_ep_eq, Z.eqb_refl. reflexivity. }
  assert (forall h b, b <> addr ->
                      eps (halt_ep (dev_core d) addr h) b = eps (dev_core d) b)
    as Hoff.
  { intros h b Hb. unfold halt_ep. cbn [eps with_eps].
    rewrite upd_ep_eq. apply Z.eqb_neq in Hb. rewrite Hb. reflexivity. }
  destruct (Z.eqb_spec rs FSP_SUCCESS) as [Hs|Hs];
    destruct (Z.eqb_spec rc FSP_SUCCESS) as [Hc|Hc];
    cbn [negb fst snd dev_core dev_ctl].
  - split; [reflexivity|]. split; [reflexivity|].
    split; [intro; contradiction|]. split; [intro; contradiction|].
    split; [intros _; split; [reflexivity|rewrite Hat; reflexivity]|].
    split; [intros _; split; [reflexivity|rewrite Hat; reflexivity]|].
    split; [apply Hrel|]. split; [apply Hrel|].
    intros b Hb. rewrite !Hoff by exact Hb. split; reflexivity.
  - split; [reflexivity|]. split; [reflexivity|].
    split; [intro; contradiction|]. split; [intros _; split; reflexivity|].
    split; [intros _; split; [reflexivity|rewrite Hat; reflexivity]|].
    split; [intro; contradiction|].
    split; [apply Hrel|]. split; [exact Hsame|].
    intros b Hb. rewrite !Hoff by exact Hb. split; reflexivity.
  - split; [reflexivity|]. split; [reflexivity|].
    split; [intros _; split; reflexivity|]. split; [intro; contradiction|].
    split; [intro; contradiction|].
    split; [intros _; split; [reflexivity|rewrite Hat; reflexivity]|].
    split; [exact Hsame|]. split; [apply Hrel|].
    intros b Hb. rewrite !Hoff by exact Hb. split; reflexivity.
  - split; [reflexivity|]. split; [reflexivity|].
    split; [intros _; split; reflexivity|].
    split; [intros _; split; reflexivity|].
    split; [intro; contradiction|]. split; [intro; contradiction|].
    split; [exact Hsame|]. split; [exact Hsame|].
    intros b Hb. split; reflexivity.
Qed.

(** X30: the "halted" flag has no effect on the data path, and the data
    path never writes it.  Setting the flag of an endpoint to any value
    before a sequence of interrupts, worker turns, enqueues and dequeues
    changes nothing of what the sequence does - the same Controller calls,
    upstream notifications and messages, the same queues, "busy" flags and
    Control Stage - and after any sequence every endpoint's flag is what it
    was before.  (The one place of these functions that reads the flag, the
    end of [udc_renesas_ra_ep_enqueue], only selects a debug log line;
    logging is outside the state modelled here.) *)
Theorem halted_flag_has_no_effect (controller : list obs -> hal_call -> Z)
        (CONFIG_UDC_RENESAS_RA_MAX_QMESSAGES : nat)
        (acts : list action) (st : udc_state) (addr : Z) (h : bool) :
  let r := run controller CONFIG_UDC_RENESAS_RA_MAX_QMESSAGES acts st in
  let r' := run controller CONFIG_UDC_RENESAS_RA_MAX_QMESSAGES acts
                (halt_ep st addr h) in
  trace r' = trace r /\ drv_msgq r' = drv_msgq r /\ stage r' = stage r /\
  pool r' = pool r /\
  (forall b, fifo (eps r' b) = fifo (eps r b) /\
             stat_busy (eps r' b) = stat_busy (eps r b)) /\
  stat_halted (eps r' addr) = h /\
  (forall b, stat_halted (eps r b) = stat_halted (eps st b)).
Proof.
  intros r r'.
  assert (same_but_halts st (halt_ep st addr h)) as H0.
  { unfold same_but_halts, halt_ep. cbn [eps stage drv_msgq trace
      pool irq_locked with_eps]. split; [|repeat split; reflexivity].
    intro a. rewrite upd_ep_eq. destruct (Z.eqb_spec a addr) as [E|E].
    - subst a. unfold same_but_halted, set_halted. cbn. repeat split.
    - unfold same_but_halted. repeat split. }
  pose proof (halts_run controller CONFIG_UDC_RENESAS_RA_MAX_QMESSAGES acts
                        st (halt_ep st addr h) H0) as H.
  fold r r' in H. destruct H as [Hall [H1 [H2 [H3 [H4 H5]]]]].
  repeat split; try (symmetry; assumption).
  - symmetry. apply (Hall b).
  - symmetry. apply (Hall b).
  - unfold r'. rewrite kept_halted_run. unfold halt_ep. cbn [eps with_eps].
    rewrite upd_ep_eq, Z.eqb_refl. reflexivity.
  - intro b. unfold r. apply kept_halted_run.
Qed.
